(** * Retail Sales Visualizer: the ingestion routine [load_data] and the
      dashboard script of [app.py], embedded in Rocq.

    The program is a Streamlit script over pandas.  The embedding keeps the
    control flow of the script (the encoding loop, the date-format loop with
    its [else] branch, the [try]/[except] blocks, the guards of the three
    tabs) and models the pandas objects it touches:

    - a [DataFrame] is a list of column labels (duplicates allowed, order
      kept) and a list of rows;
    - [df[label]] is a [Series] when the label occurs once, a sub-frame when
      it occurs several times and a [KeyError] when it does not occur;
    - Python exceptions are values of [exn], carried by [result] and by the
      writer/exception monad [ui], whose log is the list of Streamlit
      elements shown to the user.

    What pandas and Python own is kept abstract, as the fields of the class
    [Backend]: the [float64] numbers, [str.strip] and [str.lower] (Unicode
    aware; on plain ASCII text they follow the ASCII rules written out in
    the module [Str]), the range of dates that a datetime column can hold
    (it depends on the version of pandas), and the two permissive parsers
    whose grammar is not fixed by the program: the string-to-number parser
    of [pd.to_numeric] and the format-guessing parser that [pd.to_datetime]
    uses when no format is given, together with the cases in which it
    rejects a whole column. *)

From stdpp Require Import base option list strings.
From Stdlib Require Import ZArith Ascii DecimalString.

(** ** Python strings: [str.strip] and [str.lower] on ASCII text *)

(** The rules of [str.strip] and [str.lower] for text made of ASCII
    characters.  Python applies the Unicode rules, which agree with these on
    such text; what the two methods do on other text is left to the
    [Backend]. *)
Module Str.

Definition code (c : ascii) : nat := nat_of_ascii c.

(** [str.isspace] on the ASCII range: TAB, LF, VT, FF, CR, FS, GS, RS, US
    and the blank. *)
Definition isspace (c : ascii) : bool :=
  let n := code c in
  (((9 <=? n) && (n <=? 13)) || ((28 <=? n) && (n <=? 32)))%nat.

Definition lower_char (c : ascii) : ascii :=
  let n := code c in
  if ((65 <=? n) && (n <=? 90))%nat then ascii_of_nat (n + 32) else c.

Fixpoint lower (s : string) : string :=
  match s with
  | EmptyString => EmptyString
  | String c s' => String (lower_char c) (lower s')
  end.

Definition is_empty (s : string) : bool :=
  match s with EmptyString => true | _ => false end.

Fixpoint lstrip (s : string) : string :=
  match s with
  | EmptyString => EmptyString
  | String c s' => if isspace c then lstrip s' else s
  end.

Fixpoint rstrip (s : string) : string :=
  match s with
  | EmptyString => EmptyString
  | String c s' =>
      let r := rstrip s' in
      if isspace c && is_empty r then EmptyString else String c r
  end.

Definition strip (s : string) : string := lstrip (rstrip s).

(** Plain ASCII text: printable characters, the blank, TAB, LF, VT, FF and
    CR. *)
Definition plain_char (c : ascii) : bool :=
  let n := code c in
  (((9 <=? n) && (n <=? 13)) || ((32 <=? n) && (n <=? 126)))%nat.

Fixpoint plain (s : string) : bool :=
  match s with
  | EmptyString => true
  | String c s' => plain_char c && plain s'
  end.

(** [', '.join(parts)] *)
Fixpoint join (sep : string) (parts : list string) : string :=
  match parts with
  | [] => ""
  | [p] => p
  | p :: rest => p +:+ sep +:+ join sep rest
  end.

End Str.

(** ** Calendar dates and [strptime] / [strftime] *)

Inductive Month :=
  Jan | Feb | Mar | Apr | May | Jun | Jul | Aug | Sep | Oct | Nov | Dec.

(** A [Timestamp] restricted to its calendar date; the time of day plays no
    role in ['%b-%Y']. *)
Record date := mkDate { year : Z; month : Month; day : Z }.

Definition month_number (m : Month) : Z :=
  match m with
  | Jan => 1 | Feb => 2 | Mar => 3 | Apr => 4 | May => 5 | Jun => 6
  | Jul => 7 | Aug => 8 | Sep => 9 | Oct => 10 | Nov => 11 | Dec => 12
  end%Z.

Definition month_of_number (n : Z) : option Month :=
  match n with
  | 1 => Some Jan | 2 => Some Feb | 3 => Some Mar | 4 => Some Apr
  | 5 => Some May | 6 => Some Jun | 7 => Some Jul | 8 => Some Aug
  | 9 => Some Sep | 10 => Some Oct | 11 => Some Nov | 12 => Some Dec
  | _ => None
  end%Z.

(** [%b] in the C locale. *)
Definition month_abbr (m : Month) : string :=
  match m with
  | Jan => "Jan" | Feb => "Feb" | Mar => "Mar" | Apr => "Apr"
  | May => "May" | Jun => "Jun" | Jul => "Jul" | Aug => "Aug"
  | Sep => "Sep" | Oct => "Oct" | Nov => "Nov" | Dec => "Dec"
  end.

Definition is_leap (y : Z) : bool :=
  ((y mod 4 =? 0) && (negb (y mod 100 =? 0) || (y mod 400 =? 0)))%Z.

Definition days_in_month (y : Z) (m : Month) : Z :=
  match m with
  | Feb => if is_leap y then 29 else 28
  | Apr | Jun | Sep | Nov => 30
  | _ => 31
  end%Z.

Definition valid_day (d : date) : bool :=
  ((1 <=? day d) && (day d <=? days_in_month (year d) (month d)))%Z.

Definition date_leb (a b : date) : bool :=
  ((year a <? year b)
   || ((year a =? year b)
       && ((month_number (month a) <? month_number (month b))
           || ((month_number (month a) =? month_number (month b))
               && (day a <=? day b)))))%Z.

(** With nanosecond resolution, [Timestamp.min] is 1677-09-21
    00:12:43.145224193 and [Timestamp.max] is 2262-04-11 23:47:16.854775807:
    the first and the last midnight that such a timestamp can hold. *)
Definition Timestamp_min : date := mkDate 1677 Sep 22.
Definition Timestamp_max : date := mkDate 2262 Apr 11.

(** A date that [datetime64[ns]] can hold.  pandas 2 converts to this type
    and raises [OutOfBoundsDatetime] for other dates; pandas 3 converts
    text to a coarser unit, with a wider range.  The range in force is a
    field of the [Backend]. *)
Definition in_bounds (d : date) : bool :=
  valid_day d && date_leb Timestamp_min d && date_leb d Timestamp_max.

Module Strptime.

Inductive directive := dir_d | dir_m | dir_Y.

Inductive token := Dir (d : directive) | Lit (c : ascii).

(** ['%d/%m/%Y'] as a token list; [None] is "bad directive in format". *)
Fixpoint tokenize (fmt : string) : option (list token) :=
  match fmt with
  | EmptyString => Some []
  | String "%" (String c rest) =>
      d ← (if decide (c = "d"%char) then Some dir_d
           else if decide (c = "m"%char) then Some dir_m
           else if decide (c = "Y"%char) then Some dir_Y
           else None);
      ts ← tokenize rest;
      Some (Dir d :: ts)
  | String "%" EmptyString => None
  | String c rest => ts ← tokenize rest; Some (Lit c :: ts)
  end.

Definition charclass := ascii → bool.

Definition range (lo hi : ascii) : charclass :=
  λ c, ((Str.code lo <=? Str.code c) && (Str.code c <=? Str.code hi))%nat.
Definition only (x : ascii) : charclass := range x x.
Definition digit : charclass := range "0" "9".

(** The regular expressions of [_strptime.TimeRE], one list of character
    classes per alternative, in the order of the alternation:
    [%d] is [3[0-1]|[1-2]\d|0[1-9]|[1-9]| [1-9]],
    [%m] is [1[0-2]|0[1-9]|[1-9]] and [%Y] is [\d\d\d\d]. *)
Definition directive_regex (d : directive) : list (list charclass) :=
  match d with
  | dir_d => [ [only "3"; range "0" "1"]; [range "1" "2"; digit];
               [only "0"; range "1" "9"]; [range "1" "9"];
               [only " "; range "1" "9"] ]
  | dir_m => [ [only "1"; range "0" "2"]; [only "0"; range "1" "9"];
               [range "1" "9"] ]
  | dir_Y => [ [digit; digit; digit; digit] ]
  end%char.

(** Match a sequence of character classes at the head of [s]: the matched
    text and the rest. *)
Fixpoint match_seq (cs : list charclass) (s : string) : option (string * string) :=
  match cs with
  | [] => Some (EmptyString, s)
  | p :: cs' =>
      match s with
      | String c s' =>
          if p c then
            '(m, rest) ← match_seq cs' s';
            Some (String c m, rest)
          else None
      | EmptyString => None
      end
  end.

(** The first alternative whose match lets the continuation [k] succeed. *)
Fixpoint first_alt {A} (alts : list (list charclass)) (s : string)
    (k : string → string → option A) : option A :=
  match alts with
  | [] => None
  | alt :: alts' =>
      match match_seq alt s with
      | Some (m, rest) =>
          match k m rest with
          | Some r => Some r
          | None => first_alt alts' s k
          end
      | None => first_alt alts' s k
      end
  end.

(** [format_regex.match(val)]: the groups found and the unconsumed text. *)
Fixpoint regex_match (ts : list token) (s : string)
    : option (list (directive * string) * string) :=
  match ts with
  | [] => Some ([], s)
  | Lit c :: ts' =>
      match s with
      | String c' s' => if decide (c = c') then regex_match ts' s' else None
      | EmptyString => None
      end
  | Dir d :: ts' =>
      first_alt (directive_regex d) s
        (λ m rest, '(groups, tl) ← regex_match ts' rest; Some ((d, m) :: groups, tl))
  end.

(** [int(text)] for the text of a group: digits, after optional blanks. *)
Fixpoint int_digits (acc : Z) (s : string) : Z :=
  match s with
  | EmptyString => acc
  | String c s' =>
      if digit c then int_digits (10 * acc + Z.of_nat (Str.code c - 48)) s'
      else int_digits acc s'
  end.
Definition int (s : string) : Z := int_digits 0 s.

Definition directive_eqb (a b : directive) : bool :=
  match a, b with
  | dir_d, dir_d | dir_m, dir_m | dir_Y, dir_Y => true
  | _, _ => false
  end.

Fixpoint group (d : directive) (groups : list (directive * string)) : option Z :=
  match groups with
  | [] => None
  | (d', m) :: rest => if directive_eqb d d' then Some (int m) else group d rest
  end.

(** The date that [pd.to_datetime(..., format=fmt)] (exact matching) reads
    from one text: [None] stands for the [ValueError] raised when the value
    does not match the format, when text is left over or when the day does
    not exist in the month. *)
Definition strptime (fmt : string) (val : string) : option date :=
  ts ← tokenize fmt;
  '(groups, tl) ← regex_match ts val;
  if Str.is_empty tl then
    let y := default 1900%Z (group dir_Y groups) in
    let m := default 1%Z (group dir_m groups) in
    let d := default 1%Z (group dir_d groups) in
    mo ← month_of_number m;
    let dt := mkDate y mo d in
    if valid_day dt then Some dt else None
  else None.

End Strptime.

(** [%Y] as the C library of Linux prints it: the year in decimal, without
    padding. *)
Definition year_text (y : Z) : string := NilZero.string_of_int (Z.to_int y).

(** [Timestamp.strftime('%b-%Y')] *)
Definition strftime_b_Y (d : date) : string :=
  month_abbr (month d) +:+ "-" +:+ year_text (year d).

(** ** Exceptions, results and the Streamlit log *)

(** The subclasses of Python's [Exception] that the modelled calls raise. *)
Inductive exn :=
  | KeyError (key : string)
  | ValueError (msg : string)
  | TypeError (msg : string)
  | AttributeError (msg : string)
  | UnicodeDecodeError (msg : string)
  | EmptyDataError (msg : string)
  | ParserError (msg : string).

(** [str(e)] *)
Definition exn_str (e : exn) : string :=
  match e with
  | KeyError key => "'" +:+ key +:+ "'"
  | ValueError msg | TypeError msg | AttributeError msg
  | UnicodeDecodeError msg | EmptyDataError msg | ParserError msg => msg
  end.

Inductive result (A : Type) :=
  | Ok (a : A)
  | Raise (e : exn).
Arguments Ok {A} a.
Arguments Raise {A} e.

#[global] Instance result_ret : MRet result := λ A a, Ok a.
#[global] Instance result_bind : MBind result :=
  λ A B f m, match m with Ok a => f a | Raise e => Raise e end.

(** [try: body  except: handler] on a pure computation. *)
Definition try_or {A} (body : result A) (handler : result A) : result A :=
  match body with
  | Ok a => Ok a
  | Raise _ => handler
  end.

Inductive figure :=
  | monthly_sales_line   (* ax.plot(month_year, sales, marker='o') *)
  | region_sales_bars    (* sns.barplot(x='region', y='sales') *)
  | correlation_heatmap. (* sns.heatmap(correlation) *)

Inductive element :=
  | title (body : string)
  | markdown (body : string)
  | header (body : string)
  | subheader (body : string)
  | error (body : string)
  | warning (body : string)
  | pyplot (fig : figure).

Inductive container := page | sidebar | tab (label : string).

(** What the script has put on the page so far, in order. *)
Definition log := list (container * element).

(** A computation that writes Streamlit elements and returns or raises. *)
Definition ui (A : Type) : Type := log * result A.

#[global] Instance ui_ret : MRet ui := λ A a, ([], Ok a).
#[global] Instance ui_bind : MBind ui :=
  λ A B f m,
    match m with
    | (l, Ok a) => let '(l', r) := f a in (l ++ l', r)
    | (l, Raise e) => (l, Raise e)
    end.

Definition emit (c : container) (e : element) : ui unit := ([(c, e)], Ok tt).
Definition lift {A} (r : result A) : ui A := ([], r).

(** [try: body  except Exception as e: handler(e)] *)
Definition try_except {A} (body : ui A) (handler : exn → ui A) : ui A :=
  match body with
  | (l, Ok a) => (l, Ok a)
  | (l, Raise e) => let '(l', r) := handler e in (l ++ l', r)
  end.

Definition errors (l : log) : list string :=
  omap (λ ce, match ce.2 with error msg => Some msg | _ => None end) l.
Definition warnings (l : log) : list string :=
  omap (λ ce, match ce.2 with warning msg => Some msg | _ => None end) l.
Definition figures (l : log) : list figure :=
  omap (λ ce, match ce.2 with pyplot fig => Some fig | _ => None end) l.

(** ** DataFrames *)

#[global] Instance Month_eq_dec : EqDecision Month.
Proof. solve_decision. Defined.
#[global] Instance date_eq_dec : EqDecision date.
Proof. solve_decision. Defined.

(** A value held by a frame; [float] is the type of [float64] numbers. *)
Inductive cell (float : Type) :=
  | NaN                    (* a missing value: NaN, None or NaT *)
  | Str (s : string)
  | Num (x : float)
  | Timestamp (d : date)   (* a date, as a datetime object or a timestamp *).
Arguments NaN {float}.
Arguments Str {float} s.
Arguments Num {float} x.
Arguments Timestamp {float} d.

(** What the embedding takes from pandas and Python without fixing it.

    - [float] is the type of the [float64] values and [float_repr] how
      Python prints them.
    - [str_strip] and [str_lower] are [str.strip] and [str.lower], as
      [df.columns.str.strip().str.lower()] applies them to a label.  They
      follow the Unicode tables of the interpreter; all that is fixed here
      is that on plain ASCII text they are the ASCII rules of [Str].
    - [datetime_range d] tells whether a datetime column can hold the
      calendar day [d]: converting a date outside of it raises
      [OutOfBoundsDatetime].
    - [parse_float s] is the number [pd.to_numeric] reads from the text [s],
      if any.
    - [guess_datetime column value] is the date that
      [pd.to_datetime(column, errors='coerce')] reads from one value of the
      column, if any (recent versions guess one format from the column and
      apply it to every value, hence the first argument).
    - [coerce_error column] is the exception, if any, with which lines 49
      to 52 reject the column as a whole, whatever its values are read as:
      for texts with different UTC offsets pandas 3 raises in
      [pd.to_datetime], and pandas 2 returns a column of Python objects on
      which [.dt] raises.  Both happen inside the same [try] and before
      anything is shown, so they are modelled at the first of the two
      places. *)
Class Backend := {
  float : Type;
  float_eq_dec :: EqDecision float;
  float_repr : float → string;
  str_strip : string → string;
  str_lower : string → string;
  str_strip_plain : ∀ s, Str.plain s = true → str_strip s = Str.strip s;
  str_lower_plain : ∀ s, Str.plain s = true → str_lower s = Str.lower s;
  datetime_range : date → bool;
  parse_float : string → option float;
  guess_datetime : list (cell float) → cell float → option date;
  coerce_error : list (cell float) → option exn
}.

Section Pandas.

Context `{Backend}.

#[global] Instance cell_eq_dec : EqDecision (cell float).
Proof. solve_decision. Defined.

Definition Series := list (cell float).

(** Column labels in order (pandas allows duplicates) and the rows; in a
    frame read by pandas every row has one cell per label. *)
Record DataFrame := mkDataFrame {
  columns : list string;
  values : list Series
}.

Definition rectangular (df : DataFrame) : Prop :=
  Forall (λ r, length r = length (columns df)) (values df).

(** The cell of row [r] under the first column called [label]. *)
Fixpoint row_get (label : string) (cols : list string) (r : Series) : cell float :=
  match cols, r with
  | c :: cols', v :: r' => if decide (c = label) then v else row_get label cols' r'
  | _, _ => NaN
  end.

(** The cells of row [r] under all columns called [label]. *)
Fixpoint row_get_all (label : string) (cols : list string) (r : Series) : Series :=
  match cols, r with
  | c :: cols', v :: r' =>
      if decide (c = label) then v :: row_get_all label cols' r'
      else row_get_all label cols' r'
  | _, _ => []
  end.

(** Row [r] with [v] under every column called [label]. *)
Definition row_set (label : string) (v : cell float) (cols : list string) (r : Series)
    : Series :=
  zip_with (λ c old, if decide (c = label) then v else old) cols r.

Inductive selection :=
  | a_Series (s : Series)
  | a_DataFrame (sub : DataFrame).

(** [df[label]] *)
Definition getitem (df : DataFrame) (label : string) : result selection :=
  match filter (λ c, c = label) (columns df) with
  | [] => Raise (KeyError label)
  | [_] => Ok (a_Series (map (row_get label (columns df)) (values df)))
  | dup => Ok (a_DataFrame
                 (mkDataFrame dup (map (row_get_all label (columns df)) (values df))))
  end.

(** [df[label] = s]: an existing label is overwritten in place (all the
    columns of that name when it is duplicated), a new one is appended. *)
Definition setitem (df : DataFrame) (label : string) (s : Series) : DataFrame :=
  if decide (label ∈ columns df) then
    mkDataFrame (columns df)
      (zip_with (λ r v, row_set label v (columns df) r) (values df) s)
  else
    mkDataFrame (columns df ++ [label])
      (zip_with (λ r v, r ++ [v]) (values df) s).

(** [df.rename(columns=mapper)] on one label. *)
Fixpoint rename_label (mapper : list (string * string)) (label : string) : string :=
  match mapper with
  | [] => label
  | (old, new) :: rest => if decide (old = label) then new else rename_label rest label
  end.

Definition nat_strings : list string := ["NaT"; "nat"; "NAT"; "nan"; "NaN"; "NAN"].

(** A calendar day that a datetime column can hold. *)
Definition storable (d : date) : bool := valid_day d && datetime_range d.

Definition out_of_bounds : exn := ValueError "Out of bounds timestamp".

(** The date read from a value, as a cell of a datetime column. *)
Definition as_timestamp (fmt : string) (parsed : option date) : result (cell float) :=
  match parsed with
  | Some d => if datetime_range d then Ok (Timestamp d) else Raise out_of_bounds
  | None => Raise (ValueError ("time data doesn't match format " +:+ fmt))
  end.

(** One value of [pd.to_datetime(series, format=fmt)]. *)
Definition strptime_cell (fmt : string) (c : cell float) : result (cell float) :=
  match c with
  | NaN => Ok NaN
  | Timestamp d => if storable d then Ok (Timestamp d) else Raise out_of_bounds
  | Str s =>
      if Str.is_empty s || bool_decide (s ∈ nat_strings) then Ok NaN
      else as_timestamp fmt (Strptime.strptime fmt s)
  | Num x => as_timestamp fmt (Strptime.strptime fmt (float_repr x))
  end.

Definition duplicate_keys : exn := ValueError "cannot assemble with duplicate keys".

(** [pd.to_datetime(df[label], format=fmt)] *)
Definition to_datetime_format (sel : selection) (fmt : string) : result Series :=
  match sel with
  | a_Series s => mapM (strptime_cell fmt) s
  | a_DataFrame _ => Raise duplicate_keys
  end.

(** One value of [pd.to_datetime(series, errors='coerce')]: what cannot be
    read as a date, or is read as a date that the column cannot hold,
    becomes a missing value. *)
Definition coerce_cell (s : Series) (c : cell float) : cell float :=
  match c with
  | NaN => NaN
  | Timestamp d => if storable d then Timestamp d else NaN
  | _ => match guess_datetime s c with
         | Some d => if storable d then Timestamp d else NaN
         | None => NaN
         end
  end.

(** [pd.to_datetime(df[label], errors='coerce')], as far as line 52 can use
    its result: a column that is rejected as a whole raises. *)
Definition to_datetime_coerce (sel : selection) : result Series :=
  match sel with
  | a_Series s =>
      match coerce_error s with
      | Some e => Raise e
      | None => Ok (map (coerce_cell s) s)
      end
  | a_DataFrame _ => Raise duplicate_keys
  end.

Definition strftime_cell (c : cell float) : result (cell float) :=
  match c with
  | NaN => Ok NaN
  | Timestamp d => Ok (Str (strftime_b_Y d))
  | _ => Raise (AttributeError "Can only use .dt accessor with datetimelike values")
  end.

(** [df[label].dt.strftime('%b-%Y')] *)
Definition dt_strftime (sel : selection) : result Series :=
  match sel with
  | a_Series s => mapM strftime_cell s
  | a_DataFrame _ => Raise (AttributeError "'DataFrame' object has no attribute 'dt'")
  end.

(** One value of [pd.to_numeric(series, errors='coerce')]; the columns it is
    applied to hold what [read_csv] produced: text, numbers, missing
    values. *)
Definition numeric_cell (c : cell float) : cell float :=
  match c with
  | Str s => match parse_float s with Some x => Num x | None => NaN end
  | _ => c
  end.

(** [pd.to_numeric(df[label], errors='coerce')] *)
Definition to_numeric_coerce (sel : selection) : result Series :=
  match sel with
  | a_Series s => Ok (map numeric_cell s)
  | a_DataFrame _ => Raise (TypeError "arg must be a list, tuple, 1-d array, or Series")
  end.

(** ** [load_data] *)

Definition csv_path : string := "data/superstore.csv".
Definition encodings : list string := ["utf-8"; "latin1"; "windows-1252"].
Definition date_formats : list string := ["%d/%m/%Y"; "%m/%d/%Y"; "%Y-%m-%d"].
Definition num_cols : list string := ["profit"; "discount"; "sales"].
Definition rename_table : list (string * string) :=
  [("profit", "profit"); ("discount", "discount"); ("order date", "order_date");
   ("sales", "sales"); ("region", "region")].

(** What the routine is given: whether a path exists, and what
    [pd.read_csv(path, encoding=...)] returns or raises for it. *)
Record FileSystem := {
  path_exists : string → bool;
  read_csv : string → string → result DataFrame
}.

(** [df.columns = df.columns.str.strip().str.lower()] followed by
    [df.rename(columns={...})] *)
Definition canonical (label : string) : string :=
  rename_label rename_table (str_lower (str_strip label)).

Definition standardize (df : DataFrame) : DataFrame :=
  mkDataFrame (map canonical (columns df)) (values df).

(** The [for fmt in date_formats: try ... break / except: continue / else]
    statement: the frame is only assigned to when the conversion did not
    raise. *)
Fixpoint convert_date (fmts : list string) (df : DataFrame) : result DataFrame :=
  match fmts with
  | fmt :: rest =>
      try_or
        (sel ← getitem df "order_date";
         s ← to_datetime_format sel fmt;
         Ok (setitem df "order_date" s))
        (convert_date rest df)
  | [] =>
      sel ← getitem df "order_date";
      s ← to_datetime_coerce sel;
      Ok (setitem df "order_date" s)
  end.

Definition create_month_year (df : DataFrame) : result DataFrame :=
  sel ← getitem df "order_date";
  s ← dt_strftime sel;
  Ok (setitem df "month_year" s).

Fixpoint ensure_numeric (cols : list string) (df : DataFrame) : result DataFrame :=
  match cols with
  | [] => Ok df
  | col :: rest =>
      if decide (col ∈ columns df) then
        sel ← getitem df col;
        s ← to_numeric_coerce sel;
        ensure_numeric rest (setitem df col s)
      else ensure_numeric rest df
  end.

(** The body of the inner [try], after the file has been read. *)
Definition preprocess (raw : DataFrame) : result DataFrame :=
  df ← convert_date date_formats (standardize raw);
  df ← create_month_year df;
  ensure_numeric num_cols df.

Definition not_found_message : string := "Error: File '" +:+ csv_path +:+ "' not found".
Definition all_failed_message : string := "Failed to load data with all encoding attempts".

(** The [for encoding in encodings] loop and the two statements after it. *)
Fixpoint try_encodings (fs : FileSystem) (encs : list string) : ui (option DataFrame) :=
  match encs with
  | encoding :: rest =>
      match raw ← read_csv fs csv_path encoding; preprocess raw with
      | Ok df => mret (Some df)
      | Raise _ => try_encodings fs rest
      end
  | [] =>
      emit page (error all_failed_message);;
      mret None
  end.

(** [load_data()], as it runs when [st.cache_data] has no stored result for
    it; the decorator then keeps what it returned and showed. *)
Definition load_data (fs : FileSystem) : ui (option DataFrame) :=
  try_except
    (if negb (path_exists fs csv_path) then
       emit page (error not_found_message);;
       mret None
     else try_encodings fs encodings)
    (λ e,
       emit page (error ("Unexpected error loading data: " +:+ exn_str e));;
       mret None).

(** ** The dashboard script *)

(** [series.unique()]: the distinct values in order of first appearance. *)
Fixpoint uniques (seen : Series) (s : Series) : Series :=
  match s with
  | [] => []
  | c :: s' =>
      if decide (c ∈ seen) then uniques seen s'
      else c :: uniques (c :: seen) s'
  end.

(** [df[label].unique()] *)
Definition unique (sel : selection) : result Series :=
  match sel with
  | a_Series s => Ok (uniques [] s)
  | a_DataFrame _ => Raise (AttributeError "'DataFrame' object has no attribute 'unique'")
  end.

(** The state of the multiselect widget: untouched (it returns its default)
    or holding what the user has picked, in the order of the picks.  The
    widget lets the user pick among its options only. *)
Inductive multiselect_state :=
  | untouched
  | picked (choice : Series).

(** [st.sidebar.multiselect(label, options=..., default=...)] *)
Definition multiselect (options default : Series) (w : multiselect_state) : Series :=
  match w with
  | untouched => default
  | picked choice => choice
  end.

(** [series.isin(chosen)] *)
Definition isin (s : Series) (chosen : Series) : list bool :=
  map (λ c, bool_decide (c ∈ chosen)) s.

(** [df[mask]] for a boolean Series: the rows at which the mask holds. *)
Definition boolean_mask (df : DataFrame) (mask : list bool) : DataFrame :=
  mkDataFrame (columns df)
    (omap (λ rb : Series * bool, if rb.2 then Some rb.1 else None)
          (zip (values df) mask)).

(** [df[df['region'].isin(selected_region)] if 'region' in df.columns else df].
    With several columns called region the mask is itself a frame and cannot
    be aligned with [df]; the script does not get there, since the line that
    computes [available_regions] has raised before. *)
Definition filtered_df (df : DataFrame) (selected_region : Series) : result DataFrame :=
  if decide ("region" ∈ columns df) then
    sel ← getitem df "region";
    match sel with
    | a_Series s => Ok (boolean_mask df (isin s selected_region))
    | a_DataFrame _ => Raise (ValueError "cannot reindex on an axis with duplicate labels")
    end
  else Ok df.

(** [df.groupby(key)[col].sum()]: the sums are floating-point numbers and are
    not represented; what is kept is whether the call raises. *)
Definition groupby_sum (df : DataFrame) (key col : string) : result unit :=
  keys ← getitem df key;
  match keys with
  | a_Series _ => _ ← getitem df col; Ok tt
  | a_DataFrame _ => Raise (ValueError ("Grouper for '" +:+ key +:+ "' not 1-dimensional"))
  end.

Definition tab1 (fdf : DataFrame) : ui unit :=
  let here := tab "Sales Trends" in
  if bool_decide ("month_year" ∈ columns fdf) && bool_decide ("sales" ∈ columns fdf) then
    emit here (subheader "📈 Monthly Sales Trend");;
    lift (groupby_sum fdf "month_year" "sales");;
    emit here (pyplot monthly_sales_line)
  else emit here (warning "Required columns for sales trend not available").

Definition tab2 (fdf : DataFrame) : ui unit :=
  let here := tab "Regional Analysis" in
  if bool_decide ("region" ∈ columns fdf) && bool_decide ("sales" ∈ columns fdf) then
    emit here (subheader "🌍 Sales by Region");;
    lift (groupby_sum fdf "region" "sales");;
    emit here (pyplot region_sales_bars)
  else emit here (warning "Required columns for regional analysis not available").

Definition tab3 (fdf : DataFrame) : ui unit :=
  let here := tab "Profit Correlation" in
  if bool_decide ("profit" ∈ columns fdf) && bool_decide ("discount" ∈ columns fdf) then
    emit here (subheader "🔥 Profit vs Discount Correlation");;
    emit here (pyplot correlation_heatmap)
  else
    let missing :=
      (if bool_decide ("profit" ∈ columns fdf) then [] else ["profit"])
      ++ (if bool_decide ("discount" ∈ columns fdf) then [] else ["discount"]) in
    emit here (warning ("Missing columns for correlation analysis: "
                        +:+ Str.join ", " missing)).

(** [df['region'].unique() if 'region' in df.columns else []] *)
Definition available_regions (df : DataFrame) : result Series :=
  if decide ("region" ∈ columns df) then sel ← getitem df "region"; unique sel
  else Ok [].

(** The multiselect of the sidebar, with
    [default=available_regions[:2] if len(available_regions) > 0 else []]. *)
Definition selected_region (available_regions : Series) (w : multiselect_state)
    : Series :=
  multiselect available_regions
    (if bool_decide (0 < length available_regions) then take 2 available_regions
     else [])
    w.

(** The script from the title to the third tab, for a loaded frame. *)
Definition dashboard (df : DataFrame) (w : multiselect_state) : ui unit :=
  emit page (title "📊 Retail Sales Visualizer");;
  emit page (markdown "Analyzing sales trends and profitability");;
  emit sidebar (header "Filters");;
  regions ← lift (available_regions df);
  fdf ← lift (filtered_df df (selected_region regions w));
  tab1 fdf;;
  tab2 fdf;;
  tab3 fdf.

(** How a run of the script ends: at its last line, at [st.stop()], or with
    an exception that nothing catches (Streamlit then prints the traceback
    on the page). *)
Inductive outcome :=
  | finished
  | stopped
  | uncaught (e : exn).

(** A run of [app.py] with the three sidebar checkboxes left unticked, as
    they are when a session starts: the upload block and the two summary
    tables are then skipped, and what follows the tabs is the sidebar
    header "Data Summary". *)
Definition app (fs : FileSystem) (w : multiselect_state) : log * outcome :=
  match load_data fs with
  | (l, Raise e) => (l, uncaught e)
  | (l, Ok None) => (l, stopped)
  | (l, Ok (Some df)) =>
      match dashboard df w ;; emit sidebar (header "Data Summary") with
      | (l', Ok _) => (l ++ l', finished)
      | (l', Raise e) => (l ++ l', uncaught e)
      end
  end.

End Pandas.

(** ** A concrete backend and a few files, used to run the model *)

Module Demo.

(** A stand-in for pandas 2 on ASCII files.  Labels are stripped and
    lower-cased by the ASCII rules.  Whole numbers stand for [float64] and
    the number parser reads unsigned decimal integers.  Dates
    are held with nanosecond resolution.  The permissive date parser guesses
    one format from the first text of the column, month first when the text
    allows it, and reads every text with it; it reads nothing from a number
    and rejects no column. *)
Definition parse_int (s : string) : option Z :=
  if Str.is_empty s then None
  else match Strptime.match_seq (replicate (String.length s) Strptime.digit) s with
       | Some _ => Some (Strptime.int s)
       | None => None
       end.

Definition guessed_formats : list string := ["%m/%d/%Y"; "%d/%m/%Y"; "%Y-%m-%d"].

Fixpoint first_text (s : list (cell Z)) : option string :=
  match s with
  | [] => None
  | Str t :: _ => Some t
  | _ :: s' => first_text s'
  end.

Definition guess_format (s : list (cell Z)) : option string :=
  t ← first_text s;
  head (filter (λ fmt, is_Some (Strptime.strptime fmt t)) guessed_formats).

Definition guess (s : list (cell Z)) (c : cell Z) : option date :=
  match c with
  | Str t => fmt ← guess_format s; Strptime.strptime fmt t
  | _ => None
  end.

Definition backend : Backend := {|
  float := Z;
  float_repr := year_text;
  str_strip := Str.strip;
  str_lower := Str.lower;
  str_strip_plain := λ _ _, eq_refl;
  str_lower_plain := λ _ _, eq_refl;
  datetime_range := in_bounds;
  parse_float := parse_int;
  guess_datetime := guess;
  coerce_error := λ _, None
|}.
#[local] Existing Instance backend.

Definition frame := @DataFrame backend.

(** A file system in which the CSV file exists and every encoding reads the
    same frame (an ASCII file). *)
Definition ascii_file (raw : frame) : FileSystem :=
  {| path_exists := λ p, bool_decide (p = csv_path);
     read_csv := λ _ _, Ok raw |}.

(** No file at all. *)
Definition no_file : FileSystem :=
  {| path_exists := λ _, false;
     read_csv := λ _ _, Raise (ParserError "unreachable") |}.

(** A file with bytes that are not UTF-8: the first encoding fails. *)
Definition latin1_file (raw : frame) : FileSystem :=
  {| path_exists := λ p, bool_decide (p = csv_path);
     read_csv := λ _ enc,
       if decide (enc = "utf-8")
       then Raise (UnicodeDecodeError "'utf-8' codec can't decode byte 0xe9")
       else Ok raw |}.

Definition superstore : frame :=
  mkDataFrame ["Order Date"; " Sales"; "Profit"; "Discount"; "Region "]
    [ [Str "31/12/2023"; Str "100"; Num 20%Z; Num 0%Z; Str "East"];
      [Str "01/02/2023"; Str "abc"; Num 5%Z;  Num 1%Z; Str "West"];
      [NaN;              Str "70";  Num 7%Z;  NaN;     Str "Central"] ].

Definition without_date : frame :=
  mkDataFrame ["Sales"; "Region"]
    [ [Num 100%Z; Str "East"]; [Num 50%Z; Str "West"] ].

Definition without_discount : frame :=
  mkDataFrame ["Order Date"; "Sales"; "Profit"; "Region"]
    [ [Str "31/12/2023"; Num 100%Z; Num 20%Z; Str "East"];
      [Str "01/02/2023"; Num 50%Z;  Num 5%Z;  Str "West"] ].

Definition without_region : frame :=
  mkDataFrame ["Order Date"; "Sales"]
    [ [Str "2023-12-31"; Num 100%Z]; [Str "2023-02-01"; Num 50%Z] ].

Definition two_regions : frame :=
  mkDataFrame ["Order Date"; "Region"; " region"]
    [ [Str "31/12/2023"; Str "East"; Str "E"] ].

Definition two_sales : frame :=
  mkDataFrame ["Order Date"; "Sales"; "SALES "]
    [ [Str "31/12/2023"; Num 100%Z; Num 100%Z] ].

(** The regions picked in the sidebar. *)
Definition east_west : Series := [Str "East"; Str "West"].

(** What [load_data] makes of three of these files. *)
Definition superstore_loaded : frame :=
  mkDataFrame ["order_date"; "sales"; "profit"; "discount"; "region"; "month_year"]
    [ [Timestamp (mkDate 2023 Dec 31); Num 100%Z; Num 20%Z; Num 0%Z; Str "East";
       Str "Dec-2023"];
      [Timestamp (mkDate 2023 Feb 1); NaN; Num 5%Z; Num 1%Z; Str "West";
       Str "Feb-2023"];
      [NaN; Num 70%Z; Num 7%Z; NaN; Str "Central"; NaN] ].

Definition without_region_loaded : frame :=
  mkDataFrame ["order_date"; "sales"; "month_year"]
    [ [Timestamp (mkDate 2023 Dec 31); Num 100%Z; Str "Dec-2023"];
      [Timestamp (mkDate 2023 Feb 1); Num 50%Z; Str "Feb-2023"] ].

Definition two_regions_loaded : frame :=
  mkDataFrame ["order_date"; "region"; "region"; "month_year"]
    [ [Timestamp (mkDate 2023 Dec 31); Str "East"; Str "E"; Str "Dec-2023"] ].

End Demo.

(** ** Helpers for the statements *)

(** How many columns carry a label. *)
Definition occurrences (label : string) (cols : list string) : nat :=
  length (filter (λ c, c = label) cols).


(** A value of a datetime column: missing, or a calendar day that the
    column can hold. *)
Definition datetimelike `{Backend} (c : cell float) : Prop :=
  c = NaN ∨ ∃ d, c = Timestamp d ∧ storable d = true.

(** The values under order_date in the frame [raw], as read from the
    file. *)
Definition date_column `{Backend} (raw : DataFrame) : Series :=
  map (row_get "order_date" (map canonical (columns raw))) (values raw).

(** The date column can be converted: one of the formats converts every
    value of it, or the permissive parser does not reject it. *)
Definition dates_convert `{Backend} (raw : DataFrame) : Prop :=
  (∃ fmt s, fmt ∈ date_formats
            ∧ to_datetime_format (a_Series (date_column raw)) fmt = Ok s)
  ∨ coerce_error (date_column raw) = None.

(** A frame on which the body of the inner [try] does not raise: one column
    is called order_date after normalization, none of profit, discount and
    sales is the name of two columns, and the dates can be converted. *)
Definition acceptable `{Backend} (raw : DataFrame) : Prop :=
  occurrences "order_date" (map canonical (columns raw)) = 1
  ∧ Forall (λ label, occurrences label (map canonical (columns raw)) ≤ 1) num_cols
  ∧ dates_convert raw.



(** Which conversion the date-format loop ends up applying to the column
    [s0]: the first format of the list under which every value of the
    column converts, and the permissive parser when there is none. *)
Inductive conversion `{Backend} (s0 : Series)
    : list string → (cell float → result (cell float)) → Prop :=
  | conversion_format fmt rest :
      (∃ s, mapM (strptime_cell fmt) s0 = Ok s) →
      conversion s0 (fmt :: rest) (strptime_cell fmt)
  | conversion_next fmt rest f :
      (∃ e, mapM (strptime_cell fmt) s0 = Raise e) →
      conversion s0 rest f →
      conversion s0 (fmt :: rest) f
  | conversion_coerce :
      conversion s0 [] (λ c, Ok (coerce_cell s0 c)).

(** How a row [r'] of the frame that [load_data] returns (labels [cols'])
    comes from the row [r] of the frame that was read (canonical labels
    [cols]), when [f] is the date conversion applied: the cell under
    order_date is converted by [f], the cell under month_year is its label,
    the cells under profit, discount and sales are coerced to numbers and
    every other cell is the one that was read. *)
Definition normalized `{Backend} (f : cell float → result (cell float))
    (cols cols' : list string) (r r' : Series) : Prop :=
  length r = length cols →
  ∃ a m,
    f (row_get "order_date" cols r) = Ok a
    ∧ strftime_cell a = Ok m
    ∧ length r' = length cols'
    ∧ ∀ label,
        row_get label cols' r'
        = if decide (label = "month_year") then m
          else if decide (label = "order_date") then a
          else if decide (label ∈ num_cols ∧ label ∈ cols)
               then numeric_cell (row_get label cols r)
               else row_get label cols r.

(** What the three tabs show for a frame with the labels [cols], when
    nothing raises: a figure for each tab whose columns are there, a warning
    for each of the others. *)
Definition has (label : string) (cols : list string) : bool :=
  bool_decide (label ∈ cols).

Definition expected_figures (cols : list string) : list figure :=
  (if has "month_year" cols && has "sales" cols then [monthly_sales_line] else [])
  ++ (if has "region" cols && has "sales" cols then [region_sales_bars] else [])
  ++ (if has "profit" cols && has "discount" cols then [correlation_heatmap] else []).

Definition expected_warnings (cols : list string) : list string :=
  (if has "month_year" cols && has "sales" cols then []
   else ["Required columns for sales trend not available"])
  ++ (if has "region" cols && has "sales" cols then []
      else ["Required columns for regional analysis not available"])
  ++ (if has "profit" cols && has "discount" cols then []
      else ["Missing columns for correlation analysis: "
            +:+ Str.join ", " ((if has "profit" cols then [] else ["profit"])
                               ++ (if has "discount" cols then [] else ["discount"]))]).

(** What each tab shows for a frame with the labels [cols], when nothing
    raises, with the tab it is shown in. *)
Definition sales_trends (cols : list string) : log :=
  if has "month_year" cols && has "sales" cols then
    [(tab "Sales Trends", subheader "📈 Monthly Sales Trend");
     (tab "Sales Trends", pyplot monthly_sales_line)]
  else [(tab "Sales Trends", warning "Required columns for sales trend not available")].

Definition regional_analysis (cols : list string) : log :=
  if has "region" cols && has "sales" cols then
    [(tab "Regional Analysis", subheader "🌍 Sales by Region");
     (tab "Regional Analysis", pyplot region_sales_bars)]
  else [(tab "Regional Analysis",
         warning "Required columns for regional analysis not available")].

Definition profit_correlation (cols : list string) : log :=
  if has "profit" cols && has "discount" cols then
    [(tab "Profit Correlation", subheader "🔥 Profit vs Discount Correlation");
     (tab "Profit Correlation", pyplot correlation_heatmap)]
  else
    [(tab "Profit Correlation",
      warning ("Missing columns for correlation analysis: "
               +:+ Str.join ", " ((if has "profit" cols then [] else ["profit"])
                                  ++ (if has "discount" cols then [] else ["discount"]))))].

(** What stands above the tabs. *)
Definition dashboard_head : log :=
  [(page, title "📊 Retail Sales Visualizer");
   (page, markdown "Analyzing sales trends and profitability");
   (sidebar, header "Filters")].

(** The text of a year has four digits. *)
Definition four_digits (s : string) : Prop :=
  String.length s = 4 ∧
  Strptime.match_seq (replicate 4 Strptime.digit) s = Some (s, "").

#[local] Instance four_digits_dec s : Decision (four_digits s).
Proof. unfold four_digits. apply _. Defined.

(** ** After the tabs: the upload block and the column summary *)

(** What the upload block does to the outside and to the sidebar. *)
Inductive effect :=
  | saved (name : string) (content : option figure)   (* a PNG file written *)
  | uploaded (bucket source destination : string)     (* a call of upload_to_gcp that returned *)
  | sidebar_success (body : string)
  | sidebar_error (body : string).

(** A computation that has such effects and returns or raises. *)
Definition io (A : Type) : Type := list effect * result A.

#[global] Instance io_ret : MRet io := λ A a, ([], Ok a).
#[global] Instance io_bind : MBind io :=
  λ A B f m,
    match m with
    | (l, Ok a) => let '(l', r) := f a in (l ++ l', r)
    | (l, Raise e) => (l, Raise e)
    end.

Definition tell (e : effect) : io unit := ([e], Ok tt).
Definition call {A} (r : result A) : io A := ([], r).

(** [try: body  except Exception as e: handler(e)] *)
Definition try_except_io {A} (body : io A) (handler : exn → io A) : io A :=
  match body with
  | (l, Ok a) => (l, Ok a)
  | (l, Raise e) => let '(l', r) := handler e in (l ++ l', r)
  end.

(** What the block is given: whether a PNG file can be written, whether
    [scripts.gcp_upload] can be imported, and what [upload_to_gcp] does for
    a bucket, a local file and a destination; its return value is not
    looked at by the script. *)
Record Cloud := {
  write_png : string → result unit;
  import_upload_to_gcp : result unit;
  upload_to_gcp : string → string → string → result unit
}.

(** The widgets of the block: the checkbox, the text input (untouched, it
    holds its default) and the button. *)
Record UploadWidgets := {
  enable_gcp_upload : bool;
  bucket_text : option string;
  upload_button : bool
}.

Definition saved_files (l : list effect) : list (string * option figure) :=
  omap (λ e, match e with saved name content => Some (name, content) | _ => None end) l.
Definition uploads (l : list effect) : list (string * string * string) :=
  omap (λ e, match e with uploaded b s d => Some (b, s, d) | _ => None end) l.
Definition successes (l : list effect) : list string :=
  omap (λ e, match e with sidebar_success body => Some body | _ => None end) l.
Definition sidebar_errors (l : list effect) : list string :=
  omap (λ e, match e with sidebar_error body => Some body | _ => None end) l.

Definition chart_files : list string :=
  ["monthly_sales.png"; "region_sales.png"; "profit_discount.png"].

Section Sidebar.
Context `{Backend}.

(** [plt.gcf()] once the tabs are done: the figure of the last
    [plt.subplots] call, none when no tab has drawn. *)
Definition current_figure (fdf : DataFrame) : option figure :=
  last (figures (tab1 fdf;; tab2 fdf;; tab3 fdf).1).

(** [plt.savefig(name)]: the current figure goes to the file. *)
Definition plt_savefig (cloud : Cloud) (current : option figure) (name : string)
    : io unit :=
  call (write_png cloud name);;
  tell (saved name current).

Definition save_visualizations (cloud : Cloud) (fdf : DataFrame) : io unit :=
  let current := current_figure fdf in
  (if bool_decide ("month_year" ∈ columns fdf) && bool_decide ("sales" ∈ columns fdf)
   then plt_savefig cloud current "monthly_sales.png" else mret tt);;
  (if bool_decide ("region" ∈ columns fdf) && bool_decide ("sales" ∈ columns fdf)
   then plt_savefig cloud current "region_sales.png" else mret tt);;
  (if bool_decide ("profit" ∈ columns fdf) && bool_decide ("discount" ∈ columns fdf)
   then plt_savefig cloud current "profit_discount.png" else mret tt).

Definition upload_one (cloud : Cloud) (bucket_name file : string) : io unit :=
  call (upload_to_gcp cloud bucket_name file file);;
  tell (uploaded bucket_name file file).

(** The body of the inner [try] of the block. *)
Definition upload_all (cloud : Cloud) (bucket_name : string) : io unit :=
  call (import_upload_to_gcp cloud);;
  upload_one cloud bucket_name "monthly_sales.png";;
  upload_one cloud bucket_name "region_sales.png";;
  upload_one cloud bucket_name "profit_discount.png";;
  tell (sidebar_success "Upload completed!").

(** The block under [if st.sidebar.checkbox("Enable GCP Upload")]. *)
Definition gcp_upload (cloud : Cloud) (w : UploadWidgets) (fdf : DataFrame) : io unit :=
  if enable_gcp_upload w then
    try_except_io
      (save_visualizations cloud fdf;;
       let bucket_name := default "your-bucket-name" (bucket_text w) in
       if upload_button w then
         try_except_io
           (upload_all cloud bucket_name)
           (λ e, tell (sidebar_error ("Upload failed: " +:+ exn_str e)))
       else mret tt)
      (λ e, tell (sidebar_error ("Visualization save failed: " +:+ exn_str e)))
  else mret tt.

(** The column of a frame at a position. *)
Definition column_at (df : DataFrame) (i : nat) : Series :=
  map (λ r, default NaN (r !! i)) (values df).

(** [df.isna().sum()]: for each column, how many of its values are missing. *)
Definition isna_sum (df : DataFrame) : list nat :=
  map (λ i, length (filter (λ c, c = NaN) (column_at df i)))
      (seq 0 (length (columns df))).

(** [df.nunique()]: for each column, how many distinct values it holds,
    missing values left out. *)
Definition nunique (df : DataFrame) : list nat :=
  map (λ i, length (uniques [] (filter (λ c, c ≠ NaN) (column_at df i))))
      (seq 0 (length (columns df))).

End Sidebar.

(** *** Helpers for the statements about the upload block and the summary *)

(** A log that holds written files only, each of them with the current
    figure, for a frame on which some tab draws. *)
Definition only_saves `{Backend} (fdf : DataFrame) (l : list effect) : Prop :=
  Forall (λ e, ∃ name, e = saved name (current_figure fdf)
                       ∧ expected_figures (columns fdf) ≠ []) l.

(** The files that the block tries to write for a frame with the labels
    [cols], in the order of the three [if]s. *)
Definition attempted (cols : list string) : list string :=
  (if has "month_year" cols && has "sales" cols then ["monthly_sales.png"] else [])
  ++ (if has "region" cols && has "sales" cols then ["region_sales.png"] else [])
  ++ (if has "profit" cols && has "discount" cols then ["profit_discount.png"] else []).

(** The handler of the inner [try]. *)
Definition upload_handler (e : exn) : io unit :=
  tell (sidebar_error ("Upload failed: " +:+ exn_str e)).

(** The three calls of [upload_to_gcp] in a bucket, as (bucket, source,
    destination). *)
Definition all_uploads (bucket_name : string) : list (string * string * string) :=
  map (λ file, (bucket_name, file, file)) chart_files.

(** The label that [strftime] gives for a cell of a date column. *)
Definition month_label `{Backend} (a : cell float) : cell float :=
  match strftime_cell a with Ok m => m | Raise _ => NaN end.

(** ** A disk, a bucket and a few more frames, used to run the model *)

Module DemoCloud.
Import Demo.
#[local] Existing Instance backend.

(** Every file is written and every upload returns. *)
Definition obliging : Cloud :=
  {| write_png := λ _, Ok tt;
     import_upload_to_gcp := Ok tt;
     upload_to_gcp := λ _ _ _, Ok tt |}.

(** No file can be written. *)
Definition unwritable : Cloud :=
  {| write_png := λ _, Raise (ValueError "Format 'png' is not supported");
     import_upload_to_gcp := Ok tt;
     upload_to_gcp := λ _ _ _, Ok tt |}.

(** The upload of the second file raises. *)
Definition second_upload_fails : Cloud :=
  {| write_png := λ _, Ok tt;
     import_upload_to_gcp := Ok tt;
     upload_to_gcp := λ _ source _,
       if decide (source = "region_sales.png")
       then Raise (ValueError "Bucket names must start and end with a number or letter.")
       else Ok tt |}.

(** The box ticked, a bucket typed in and the button pressed. *)
Definition pressed : UploadWidgets :=
  {| enable_gcp_upload := true;
     bucket_text := Some "retail-charts";
     upload_button := true |}.

(** A file whose dates are written in two ways. *)
Definition mixed_dates : frame :=
  mkDataFrame ["Order Date"; "Sales"]
    [ [Str "31/12/2023"; Num 100%Z]; [Str "2023-02-01"; Num 50%Z] ].

(** A loaded frame on which no tab can draw. *)
Definition dates_only_loaded : frame :=
  mkDataFrame ["order_date"; "month_year"]
    [ [Timestamp (mkDate 2023 Dec 31); Str "Dec-2023"] ].

(** The rows of [superstore_loaded] for East and West, and its row for
    West. *)
Definition superstore_east_west : frame :=
  mkDataFrame ["order_date"; "sales"; "profit"; "discount"; "region"; "month_year"]
    [ [Timestamp (mkDate 2023 Dec 31); Num 100%Z; Num 20%Z; Num 0%Z; Str "East";
       Str "Dec-2023"];
      [Timestamp (mkDate 2023 Feb 1); NaN; Num 5%Z; Num 1%Z; Str "West";
       Str "Feb-2023"] ].

Definition superstore_west : frame :=
  mkDataFrame ["order_date"; "sales"; "profit"; "discount"; "region"; "month_year"]
    [ [Timestamp (mkDate 2023 Feb 1); NaN; Num 5%Z; Num 1%Z; Str "West";
       Str "Feb-2023"] ].

Definition west_central : Series := [Str "West"; Str "Central"].

(** What [load_data] makes of [mixed_dates]: the format is guessed from
    the first date, and the second date is not in that format. *)
Definition mixed_dates_loaded : frame :=
  mkDataFrame ["order_date"; "sales"; "month_year"]
    [ [Timestamp (mkDate 2023 Dec 31); Num 100%Z; Str "Dec-2023"];
      [NaN; Num 50%Z; NaN] ].

(** What [load_data] makes of [without_discount]. *)
Definition without_discount_loaded : frame :=
  mkDataFrame ["order_date"; "sales"; "profit"; "region"; "month_year"]
    [ [Timestamp (mkDate 2023 Dec 31); Num 100%Z; Num 20%Z; Str "East"; Str "Dec-2023"];
      [Timestamp (mkDate 2023 Feb 1); Num 50%Z; Num 5%Z; Str "West"; Str "Feb-2023"] ].

(** A file of two rows whose dates stand under the header Date. *)
Definition dated : frame :=
  mkDataFrame ["Date"; "Sales"]
    [ [Str "31/12/2023"; Num 100%Z]; [Str "01/02/2023"; Num 50%Z] ].

(** The user picks Central, then East, then West. *)
Definition all_three : Series := [Str "Central"; Str "East"; Str "West"].

End DemoCloud.

(** ** A second backend: dates held with a coarser unit *)

(** A stand-in for pandas 3, which converts text to a datetime unit coarser
    than the nanosecond: the column holds every day of the years 1 to
    9999.  The rest is as in [Demo]. *)
Module Demo3.

Definition years_1_to_9999 (d : date) : bool := ((1 <=? year d) && (year d <=? 9999))%Z.

Definition backend : Backend := {|
  float := Z;
  float_repr := year_text;
  str_strip := Str.strip;
  str_lower := Str.lower;
  str_strip_plain := λ _ _, eq_refl;
  str_lower_plain := λ _ _, eq_refl;
  datetime_range := years_1_to_9999;
  parse_float := Demo.parse_int;
  guess_datetime := Demo.guess;
  coerce_error := λ _, None
|}.
#[local] Existing Instance backend.

Definition frame := @DataFrame backend.

Definition ascii_file (raw : frame) : FileSystem :=
  {| path_exists := λ p, bool_decide (p = csv_path);
     read_csv := λ _ _, Ok raw |}.

(** A sale of the last day of the year 999. *)
Definition old_dates : frame :=
  mkDataFrame ["Order Date"; "Sales"] [ [Str "31/12/0999"; Num 5%Z] ].

Definition old_dates_loaded : frame :=
  mkDataFrame ["order_date"; "sales"; "month_year"]
    [ [Timestamp (mkDate 999 Dec 31); Num 5%Z; Str "Dec-999"] ].

End Demo3.

(** ** Strings *)

Section StrFacts.
Import Str.

Lemma lower_char_idem c : lower_char (lower_char c) = lower_char c.
Proof. by destruct c as [[] [] [] [] [] [] [] []]. Qed.

Lemma isspace_lower_char c : isspace (lower_char c) = isspace c.
Proof. by destruct c as [[] [] [] [] [] [] [] []]. Qed.

Lemma lower_idem s : lower (lower s) = lower s.
Proof. induction s as [|c s IH]; simpl; [done|]. by rewrite lower_char_idem, IH. Qed.

Lemma is_empty_lower s : is_empty (lower s) = is_empty s.
Proof. by destruct s. Qed.

Lemma lstrip_lower s : lstrip (lower s) = lower (lstrip s).
Proof.
  induction s as [|c s IH]; simpl; [done|].
  rewrite isspace_lower_char. by destruct (isspace c).
Qed.

Lemma rstrip_lower s : rstrip (lower s) = lower (rstrip s).
Proof.
  induction s as [|c s IH]; simpl; [done|].
  rewrite isspace_lower_char, IH, is_empty_lower.
  by destruct (isspace c && is_empty (rstrip s)).
Qed.

Lemma strip_lower s : strip (lower s) = lower (strip s).
Proof. unfold strip. by rewrite rstrip_lower, lstrip_lower. Qed.

Lemma lstrip_idem s : lstrip (lstrip s) = lstrip s.
Proof.
  induction s as [|c s IH]; simpl; [done|].
  destruct (isspace c) eqn:E; [done|]. simpl. by rewrite E.
Qed.

Lemma rstrip_idem s : rstrip (rstrip s) = rstrip s.
Proof.
  induction s as [|c s IH]; simpl; [done|].
  destruct (isspace c && is_empty (rstrip s)) eqn:E; simpl; [done|].
  by rewrite IH, E.
Qed.

(** Stripping on the left keeps a string free of trailing white space. *)
Lemma rstrip_lstrip_fixed s : rstrip s = s → rstrip (lstrip s) = lstrip s.
Proof.
  induction s as [|c s IH]; simpl; [done|].
  destruct (isspace c) eqn:Ec; simpl.
  - destruct (is_empty (rstrip s)); [done|]. intros [= Hs]. by apply IH.
  - rewrite Ec. simpl. done.
Qed.

Lemma strip_idem s : strip (strip s) = strip s.
Proof.
  unfold strip.
  rewrite (rstrip_lstrip_fixed (rstrip s)) by apply rstrip_idem.
  apply lstrip_idem.
Qed.

Lemma plain_lstrip s : plain s = true → plain (lstrip s) = true.
Proof.
  induction s as [|c s IH]; simpl; [done|].
  intros [Hc Hs]%andb_prop. destruct (isspace c); [by apply IH|].
  simpl. by rewrite Hc, Hs.
Qed.

Lemma plain_rstrip s : plain s = true → plain (rstrip s) = true.
Proof.
  induction s as [|c s IH]; simpl; [done|].
  intros [Hc Hs]%andb_prop. destruct (isspace c && is_empty (rstrip s)); [done|].
  simpl. by rewrite Hc, IH.
Qed.

Lemma plain_strip s : plain s = true → plain (strip s) = true.
Proof. intros Hs. by apply plain_lstrip, plain_rstrip. Qed.

End StrFacts.

(** ** Dates *)

Example strptime_dmy : Strptime.strptime "%d/%m/%Y" "31/12/2023" = Some (mkDate 2023 Dec 31).
Proof. vm_compute. reflexivity. Qed.
Example strptime_mdy_fails : Strptime.strptime "%m/%d/%Y" "31/12/2023" = None.
Proof. vm_compute. reflexivity. Qed.
Example strptime_short : Strptime.strptime "%d/%m/%Y" "1/2/2023" = Some (mkDate 2023 Feb 1).
Proof. vm_compute. reflexivity. Qed.
Example strptime_feb30 : Strptime.strptime "%d/%m/%Y" "30/02/2023" = None.
Proof. vm_compute. reflexivity. Qed.
Example strptime_left : Strptime.strptime "%Y-%m-%d" "2023-01-011" = None.
Proof. vm_compute. reflexivity. Qed.
Example strftime_ex : strftime_b_Y (mkDate 2023 Dec 31) = "Dec-2023".
Proof. vm_compute. reflexivity. Qed.

Lemma in_bounds_year d : in_bounds d = true → (1677 ≤ year d ≤ 2262)%Z.
Proof.
  unfold in_bounds, date_leb, Timestamp_min, Timestamp_max. cbn [year].
  rewrite !andb_true_iff, !orb_true_iff, !andb_true_iff.
  rewrite !Z.ltb_lt, !Z.eqb_eq. lia.
Qed.

Lemma year_text_four_digits y : (1000 ≤ y ≤ 9999)%Z → four_digits (year_text y).
Proof.
  intros Hy.
  assert (Hall : Forall (λ z, four_digits (year_text z)) (seqZ 1000 9000)).
  { apply (bool_decide_unpack _). vm_compute. exact I. }
  rewrite Forall_forall in Hall. apply Hall, elem_of_seqZ. lia.
Qed.

(** The text of a year is the year in decimal: reading it gives the year
    back. *)
Lemma year_text_decimal y : (0 ≤ y ≤ 9999)%Z → Strptime.int (year_text y) = y.
Proof.
  intros Hy.
  assert (Hall : Forall (λ z, Strptime.int (year_text z) = z) (seqZ 0 10000)).
  { apply (bool_decide_unpack _). vm_compute. exact I. }
  rewrite Forall_forall in Hall. apply Hall, elem_of_seqZ. lia.
Qed.

Lemma year_text_999 : ¬ four_digits (year_text 999).
Proof. apply (bool_decide_unpack _). vm_compute. exact I. Qed.

Lemma strptime_valid_day fmt s d :
  Strptime.strptime fmt s = Some d → valid_day d = true.
Proof.
  unfold Strptime.strptime. intros Hs.
  destruct (Strptime.tokenize fmt) as [ts|]; simpl in Hs; [|done].
  destruct (Strptime.regex_match ts s) as [[groups tl]|]; simpl in Hs; [|done].
  destruct (Str.is_empty tl); [|done].
  destruct (month_of_number _) as [mo|]; simpl in Hs; [|done].
  destruct (valid_day _) eqn:Hb; [|done]. by simplify_eq.
Qed.

(** ** Results and [mapM] *)

Lemma mapM_Ok_inv {A B} (f : A → result B) (l : list A) (k : list B) :
  mapM f l = Ok k → Forall2 (λ x y, f x = Ok y) l k.
Proof.
  revert k. induction l as [|x l IH]; intros k; simpl.
  - intros [= <-]. constructor.
  - destruct (f x) as [y|e] eqn:Hx; simpl; [|done].
    destruct (mapM f l) as [k'|e] eqn:Hl; simpl; [|done].
    intros [= <-]. constructor; [done|]. by apply IH.
Qed.

Lemma mapM_Ok_intro {A B} (f : A → result B) (l : list A) (k : list B) :
  Forall2 (λ x y, f x = Ok y) l k → mapM f l = Ok k.
Proof.
  induction 1 as [|x y l k Hx _ IH]; simpl; [done|]. by rewrite Hx, IH.
Qed.

Lemma mapM_total {A B} (f : A → result B) (l : list A) :
  Forall (λ x, ∃ y, f x = Ok y) l → ∃ k, mapM f l = Ok k.
Proof.
  induction 1 as [|x l [y Hx] _ [k IH]]; simpl; [by eexists|].
  exists (y :: k). by rewrite Hx, IH.
Qed.

(** ** Rows, [df[label]] and [df[label] = series] *)

Section FrameFacts.
Context `{Backend}.
Implicit Types (df : DataFrame) (r : Series) (cols : list string) (v : cell float).

Lemma occurrences_pos label cols : label ∈ cols ↔ 0 < occurrences label cols.
Proof.
  unfold occurrences. induction cols as [|c cols IH]; simpl.
  - rewrite elem_of_nil. lia.
  - rewrite elem_of_cons, filter_cons. case_decide; simpl.
    + subst. split; [lia|auto].
    + rewrite IH. split; [intros [?|?]; [congruence|done] | auto].
Qed.

Lemma occurrences_app label cols1 cols2 :
  occurrences label (cols1 ++ cols2) = occurrences label cols1 + occurrences label cols2.
Proof. unfold occurrences. by rewrite filter_app, length_app. Qed.

Lemma occurrences_NoDup cols :
  NoDup cols ↔ ∀ label, occurrences label cols ≤ 1.
Proof.
  induction cols as [|c cols IH].
  - split; [intros _ label; unfold occurrences; simpl; lia | constructor].
  - rewrite NoDup_cons, IH. unfold occurrences. split.
    + intros [Hc Hl] label. rewrite filter_cons. case_decide; simpl; [|apply Hl].
      subst. destruct (occurrences label cols) eqn:Ho; unfold occurrences in Ho.
      * lia.
      * exfalso. apply Hc, occurrences_pos. unfold occurrences. lia.
    + intros Hall. split.
      * intros Hc%occurrences_pos. specialize (Hall c).
        rewrite filter_cons in Hall. case_decide; [|done]. simpl in Hall.
        unfold occurrences in Hc. lia.
      * intros label. specialize (Hall label). rewrite filter_cons in Hall.
        case_decide; simpl in Hall; lia.
Qed.

Lemma row_set_length label v cols r :
  length r = length cols → length (row_set label v cols r) = length cols.
Proof. intros Hr. unfold row_set. rewrite length_zip_with. lia. Qed.

Lemma row_get_set_ne label label' v cols r :
  label ≠ label' →
  row_get label cols (row_set label' v cols r) = row_get label cols r.
Proof.
  intros Hne. revert r. induction cols as [|c cols IH]; intros [|x r]; simpl; try done.
  destruct (decide (c = label)) as [->|Hc]; [by rewrite decide_False|apply IH].
Qed.

Lemma row_get_set_eq label v cols r :
  label ∈ cols → length r = length cols →
  row_get label cols (row_set label v cols r) = v.
Proof.
  revert r. induction cols as [|c cols IH]; intros [|x r]; simpl; try done.
  - by intros ?%elem_of_nil.
  - intros Hin [= Hlen]. case_decide; [done|].
    apply IH; [|done]. apply elem_of_cons in Hin as [?|?]; done.
Qed.

Lemma row_get_app_ne label label' v cols r :
  label ≠ label' → length r = length cols →
  row_get label (cols ++ [label']) (r ++ [v]) = row_get label cols r.
Proof.
  intros Hne. revert r. induction cols as [|c cols IH]; intros [|x r]; simpl; try done.
  - intros _. by case_decide.
  - intros [= Hlen]. case_decide; [done|]. by apply IH.
Qed.

Lemma row_get_app_eq label v cols r :
  label ∉ cols → length r = length cols →
  row_get label (cols ++ [label]) (r ++ [v]) = v.
Proof.
  revert r. induction cols as [|c cols IH]; intros [|x r]; simpl; try done.
  - intros _ _. by case_decide.
  - intros Hin [= Hlen]. apply not_elem_of_cons in Hin as [? ?].
    case_decide; [done|]. by apply IH.
Qed.

Lemma getitem_Series_inv df label s :
  getitem df label = Ok (a_Series s) →
  occurrences label (columns df) = 1
  ∧ s = map (row_get label (columns df)) (values df).
Proof.
  unfold getitem, occurrences.
  destruct (filter _ (columns df)) as [|c [|c' l]]; [done| |done].
  by intros [= <-].
Qed.

Lemma getitem_once df label :
  occurrences label (columns df) = 1 →
  getitem df label = Ok (a_Series (map (row_get label (columns df)) (values df))).
Proof.
  unfold getitem, occurrences.
  by destruct (filter _ (columns df)) as [|c [|c' l]].
Qed.

Lemma getitem_missing df label :
  label ∉ columns df → getitem df label = Raise (KeyError label).
Proof.
  rewrite occurrences_pos. unfold getitem, occurrences.
  destruct (filter _ (columns df)); simpl; [done|lia].
Qed.

Lemma getitem_duplicated df label :
  2 ≤ occurrences label (columns df) → ∃ sub, getitem df label = Ok (a_DataFrame sub).
Proof.
  unfold getitem, occurrences.
  destruct (filter _ (columns df)) as [|c [|c' l]]; simpl; [lia|lia|]. by eexists.
Qed.

Lemma getitem_present df label :
  label ∈ columns df → ∃ sel, getitem df label = Ok sel.
Proof.
  rewrite occurrences_pos. unfold getitem, occurrences.
  destruct (filter _ (columns df)) as [|c [|c' l]]; simpl; [lia| |]; by eexists.
Qed.

Lemma setitem_columns df label s :
  columns (setitem df label s)
  = if decide (label ∈ columns df) then columns df else columns df ++ [label].
Proof. unfold setitem. by case_decide. Qed.

(** Assigning a Series computed row by row gives the frame whose rows are
    the old ones, each with its new cell. *)
Lemma setitem_values df label s (P : Series → cell float → Prop) :
  Forall2 P (values df) s →
  Forall2 (λ r r', ∃ v, P r v ∧
             r' = if decide (label ∈ columns df)
                  then row_set label v (columns df) r else r ++ [v])
          (values df) (values (setitem df label s)).
Proof.
  intros HP. unfold setitem. case_decide; simpl.
  - induction HP; simpl; constructor; eauto.
  - induction HP; simpl; constructor; eauto.
Qed.

Lemma Forall_zip_with_rows {A B C} (f : A → B → C) (P : A → Prop) (Q : C → Prop)
    (l : list A) (k : list B) :
  (∀ x y, P x → Q (f x y)) → Forall P l → Forall Q (zip_with f l k).
Proof.
  intros Hf Hl. revert k. induction Hl as [|x l Hx _ IH]; intros [|y k]; simpl; auto.
Qed.

Lemma rectangular_setitem df label s :
  rectangular df → rectangular (setitem df label s).
Proof.
  unfold rectangular, setitem. intros Hr. case_decide; simpl.
  - eapply Forall_zip_with_rows; [|done].
    intros r v Hlen. simpl in *. by apply row_set_length.
  - eapply Forall_zip_with_rows; [|done].
    intros r v Hlen. simpl in *. rewrite !length_app. simpl. lia.
Qed.

End FrameFacts.

(** ** The steps of [load_data] *)

Section PreprocessFacts.
Context `{Backend}.
Implicit Types (df : DataFrame) (r : Series) (cols : list string).

Lemma as_timestamp_datetimelike fmt s a :
  as_timestamp fmt (Strptime.strptime fmt s) = Ok a → datetimelike a.
Proof.
  unfold as_timestamp, datetimelike, storable.
  destruct (Strptime.strptime fmt s) as [d|] eqn:Hd; [|done].
  destruct (datetime_range d) eqn:Hr; [|done].
  intros [= <-]. right. exists d. split; [done|].
  by rewrite (strptime_valid_day _ _ _ Hd), Hr.
Qed.

Lemma strptime_cell_datetimelike fmt c a :
  strptime_cell fmt c = Ok a → datetimelike a.
Proof.
  unfold strptime_cell. destruct c as [|s|x|d].
  - intros [= <-]. by left.
  - destruct (_ || _); [intros [= <-]; by left|]. apply as_timestamp_datetimelike.
  - apply as_timestamp_datetimelike.
  - destruct (storable d) eqn:Hd; [|done]. intros [= <-]. right. by exists d.
Qed.

Lemma coerce_cell_datetimelike s c : datetimelike (coerce_cell s c).
Proof.
  unfold coerce_cell, datetimelike.
  destruct c as [|t|x|d]; [by left| | |].
  - destruct (guess_datetime s _) as [d|]; [|by left].
    destruct (storable d) eqn:Hd; [right; by exists d|by left].
  - destruct (guess_datetime s _) as [d|]; [|by left].
    destruct (storable d) eqn:Hd; [right; by exists d|by left].
  - destruct (storable d) eqn:Hd; [right; by exists d|by left].
Qed.

Lemma conversion_datetimelike s0 fmts f c a :
  conversion s0 fmts f → f c = Ok a → datetimelike a.
Proof.
  induction 1 as [fmt rest _|fmt rest f _ _ IH|]; [|done|].
  - apply strptime_cell_datetimelike.
  - intros [= <-]. apply coerce_cell_datetimelike.
Qed.

Lemma conversion_all_fail (s0 : Series) fmts f :
  conversion s0 fmts f →
  Forall (λ fmt, ∃ e, to_datetime_format (a_Series s0) fmt = Raise e) fmts →
  f = λ c, Ok (coerce_cell s0 c).
Proof.
  induction 1 as [fmt rest [s Hs]|fmt rest f _ _ IH|]; intros Hall.
  - apply Forall_cons in Hall as [[e He] _]. simpl in He. congruence.
  - apply Forall_cons in Hall as [_ Hall]. by apply IH.
  - done.
Qed.

Lemma strftime_cell_datetimelike a : datetimelike a → ∃ m, strftime_cell a = Ok m.
Proof. intros [->|(d & -> & _)]; simpl; by eexists. Qed.

Lemma convert_date_once fmts df df' :
  convert_date fmts df = Ok df' → occurrences "order_date" (columns df) = 1.
Proof.
  induction fmts as [|fmt rest IH]; simpl.
  - destruct (getitem df "order_date") as [[s|sub]|e] eqn:Hg; simpl; [|done|done].
    intros _. by apply getitem_Series_inv in Hg as [? _].
  - destruct (getitem df "order_date") as [[s|sub]|e] eqn:Hg; simpl; [|by auto|by auto].
    intros _. by apply getitem_Series_inv in Hg as [? _].
Qed.

Lemma convert_date_spec fmts df df' :
  convert_date fmts df = Ok df' →
  let cols := columns df in
  ∃ f, conversion (map (row_get "order_date" cols) (values df)) fmts f
       ∧ columns df' = cols
       ∧ Forall2 (λ r r', ∃ a, f (row_get "order_date" cols r) = Ok a
                               ∧ r' = row_set "order_date" a cols r)
                 (values df) (values df').
Proof.
  intros Hc cols. pose proof (convert_date_once _ _ _ Hc) as Honce.
  assert (Hin : "order_date" ∈ columns df) by (apply occurrences_pos; lia).
  pose proof (getitem_once _ _ Honce) as Hg. fold cols in Hg.
  revert Hc. induction fmts as [|fmt rest IH]; simpl; rewrite Hg; simpl.
  - destruct (coerce_error _) as [e|]; simpl; [done|].
    intros [= <-]. eexists. split; [constructor|].
    rewrite setitem_columns, decide_True by done. split; [done|].
    eapply Forall2_impl.
    + apply (setitem_values df "order_date" _
               (λ r v, v = coerce_cell (map (row_get "order_date" cols) (values df))
                                       (row_get "order_date" cols r))).
      rewrite <-(list_fmap_compose _ _ (values df)).
      apply Forall2_fmap_r, Forall_Forall2_diag, Forall_true. done.
    + intros r r' (v & -> & ->). rewrite decide_True by done. eauto.
  - destruct (mapM _ _) as [s|e] eqn:Hm; simpl.
    + intros [= <-]. exists (strptime_cell fmt). split; [constructor; eauto|].
      rewrite setitem_columns, decide_True by done. split; [done|].
      eapply Forall2_impl.
      * apply (setitem_values df "order_date" _
               (λ r v, strptime_cell fmt (row_get "order_date" cols r) = Ok v)).
        apply mapM_Ok_inv in Hm. by apply Forall2_fmap_l in Hm.
      * intros r r' (v & Hv & ->). rewrite decide_True by done. eauto.
    + intros Hrest. destruct (IH Hrest) as (f & Hf & ?). exists f.
      split; [|done]. constructor 2; eauto.
Qed.

Lemma create_month_year_spec df df' :
  create_month_year df = Ok df' →
  let cols := columns df in
  occurrences "order_date" cols = 1
  ∧ columns df' = (if decide ("month_year" ∈ cols) then cols else cols ++ ["month_year"])
  ∧ Forall2 (λ r r', ∃ m, strftime_cell (row_get "order_date" cols r) = Ok m
                          ∧ r' = if decide ("month_year" ∈ cols)
                                 then row_set "month_year" m cols r else r ++ [m])
            (values df) (values df').
Proof.
  intros Hc cols. unfold create_month_year in Hc.
  destruct (getitem df "order_date") as [[s|sub]|e] eqn:Hg; simpl in Hc; [|done|done].
  apply getitem_Series_inv in Hg as [Honce ->]. split; [done|].
  destruct (mapM _ _) as [s|e] eqn:Hm; simpl in Hc; [|done].
  injection Hc as <-. rewrite setitem_columns. split; [done|].
  apply (setitem_values df "month_year" _
           (λ r m, strftime_cell (row_get "order_date" cols r) = Ok m)).
  apply mapM_Ok_inv in Hm. by apply Forall2_fmap_l in Hm.
Qed.

End PreprocessFacts.

Lemma bind_Ok_inv {A B} (m : result A) (f : A → result B) (b : B) :
  m ≫= f = Ok b → ∃ a, m = Ok a ∧ f a = Ok b.
Proof. destruct m as [a|e]; [|done]. intros Hf. by exists a. Qed.

Section PreprocessSpec.
Context `{Backend}.
Implicit Types (df : DataFrame) (r : Series) (cols : list string).

Lemma Forall2_compose {A B C} (P : A → B → Prop) (Q : B → C → Prop)
    (R : A → C → Prop) (l : list A) (k : list B) (m : list C) :
  (∀ x y z, P x y → Q y z → R x z) → Forall2 P l k → Forall2 Q k m → Forall2 R l m.
Proof.
  intros HR HP. revert m. induction HP as [|x y l k Hxy _ IH]; intros m HQ.
  - apply Forall2_nil_inv_l in HQ as ->. constructor.
  - apply Forall2_cons_inv_l in HQ as (z & m' & Hyz & HQ & ->).
    constructor; eauto.
Qed.

Lemma ensure_numeric_spec ns df df' :
  NoDup ns → ensure_numeric ns df = Ok df' →
  columns df' = columns df
  ∧ Forall2 (λ r r', length r = length (columns df) →
               length r' = length (columns df)
               ∧ ∀ label, row_get label (columns df) r'
                          = if decide (label ∈ ns ∧ label ∈ columns df)
                            then numeric_cell (row_get label (columns df) r)
                            else row_get label (columns df) r)
            (values df) (values df').
Proof.
  intros Hns. revert df. induction Hns as [|col rest Hcol _ IH]; intros df Hc;
    simpl in Hc.
  - injection Hc as <-. split; [done|].
    apply Forall_Forall2_diag, Forall_true. intros r Hlen. split; [done|].
    intros label. rewrite decide_False; [done|]. by intros [?%elem_of_nil _].
  - case_decide as Hin.
    + destruct (getitem df col) as [[s|sub]|e] eqn:Hg; simpl in Hc; [|done|done].
      apply getitem_Series_inv in Hg as [_ ->].
      apply IH in Hc as [Hcols HF].
      rewrite setitem_columns, decide_True in Hcols, HF by done.
      split; [done|].
      eapply Forall2_compose; [| |exact HF];
        [|apply (setitem_values df col _
                   (λ r v, v = numeric_cell (row_get col (columns df) r)))].
      * cbv beta. intros r r1 r' (v & -> & ->) Hr' Hlen.
        rewrite decide_True in Hr' by done.
        destruct Hr' as [Hlen' Hget]; [by apply row_set_length|].
        split; [done|]. intros label. rewrite Hget.
        destruct (decide (label = col)) as [->|Hne].
        -- rewrite decide_False by (intros [? _]; done).
           rewrite decide_True by (split; [left|done]).
           by apply row_get_set_eq.
        -- rewrite row_get_set_ne by done.
           destruct (decide (label ∈ rest ∧ label ∈ columns df)) as [[? ?]|Hno].
           ++ rewrite decide_True; [done|]. split; [by right|done].
           ++ rewrite decide_False; [done|].
              intros [[?|?]%elem_of_cons ?]; [done|]. by apply Hno.
      * rewrite <-list_fmap_compose.
        apply Forall2_fmap_r, Forall_Forall2_diag, Forall_true. done.
    + apply IH in Hc as [Hcols HF]. split; [done|].
      eapply Forall2_impl; [exact HF|]. cbv beta.
      intros r r' Hr' Hlen. destruct (Hr' Hlen) as [Hlen' Hget].
      split; [done|]. intros label. rewrite Hget.
      destruct (decide (label ∈ rest ∧ label ∈ columns df)) as [[? ?]|Hno].
      * rewrite decide_True; [done|]. split; [by right|done].
      * rewrite decide_False; [done|].
        intros [[->|?]%elem_of_cons ?]; [done|]. by apply Hno.
Qed.

Lemma num_cols_NoDup : NoDup num_cols.
Proof. apply (bool_decide_unpack _). by vm_compute. Qed.

Lemma month_year_not_numeric : "month_year" ∉ num_cols.
Proof. apply (bool_decide_unpack _). by vm_compute. Qed.

Lemma order_date_not_numeric : "order_date" ∉ num_cols.
Proof. apply (bool_decide_unpack _). by vm_compute. Qed.

Lemma preprocess_spec raw df :
  preprocess raw = Ok df →
  let cols := map canonical (columns raw) in
  occurrences "order_date" cols = 1
  ∧ columns df = (if decide ("month_year" ∈ cols) then cols else cols ++ ["month_year"])
  ∧ ∃ f, conversion (map (row_get "order_date" cols) (values raw)) date_formats f
         ∧ Forall2 (normalized f cols (columns df)) (values raw) (values df).
Proof.
  intros Hp cols. unfold preprocess in Hp.
  apply bind_Ok_inv in Hp as (df1 & H1 & Hp).
  apply bind_Ok_inv in Hp as (df2 & H2 & Hp).
  pose proof (convert_date_once _ _ _ H1) as Honce.
  apply convert_date_spec in H1 as (f & Hf & Hc1 & HF1).
  apply create_month_year_spec in H2 as (_ & Hc2 & HF2).
  apply ensure_numeric_spec in Hp as [Hc3 HF3]; [|apply num_cols_NoDup].
  simpl in *. fold cols in Honce, Hf, Hc1, HF1. rewrite Hc1 in Hc2, HF2.
  rewrite Hc3, Hc2. rewrite Hc2 in HF3.
  assert (Hod : "order_date" ∈ cols) by (apply occurrences_pos; lia).
  split; [done|]. split; [done|]. exists f. split; [done|].
  assert (HF12 : Forall2 (λ r r2, length r = length cols →
            ∃ a m, f (row_get "order_date" cols r) = Ok a
                   ∧ strftime_cell a = Ok m
                   ∧ r2 = if decide ("month_year" ∈ cols)
                          then row_set "month_year" m cols (row_set "order_date" a cols r)
                          else row_set "order_date" a cols r ++ [m])
            (values raw) (values df2)).
  { eapply Forall2_compose; [|exact HF1|exact HF2]. cbv beta.
    intros r r1 r2 (a & Ha & ->) (m & Hm & ->) Hlen.
    rewrite row_get_set_eq in Hm by done. eauto. }
  eapply Forall2_compose; [|exact HF12|exact HF3]. cbv beta.
  intros r r2 r' H12 Hr' Hlen. destruct (H12 Hlen) as (a & m & Ha & Hm & ->).
  assert (Hlen1 : length (row_set "order_date" a cols r) = length cols)
    by by apply row_set_length.
  exists a, m. split; [done|]. split; [done|].
  destruct (decide ("month_year" ∈ cols)) as [Hmy|Hmy].
  - destruct Hr' as [Hlen' Hget]; [by apply row_set_length|].
    split; [done|]. intros label. rewrite Hget.
    destruct (decide (label = "month_year")) as [->|Hne1].
    { rewrite decide_False by (intros [Hn _]; by apply month_year_not_numeric).
      by apply row_get_set_eq. }
    rewrite row_get_set_ne by done.
    destruct (decide (label = "order_date")) as [->|Hne2].
    { rewrite decide_False by (intros [Hn _]; by apply order_date_not_numeric).
      by apply row_get_set_eq. }
    by rewrite row_get_set_ne by done.
  - destruct Hr' as [Hlen' Hget]; [rewrite !length_app; simpl; lia|].
    split; [done|]. intros label. rewrite Hget.
    destruct (decide (label = "month_year")) as [->|Hne1].
    { rewrite decide_False by (intros [Hn _]; by apply month_year_not_numeric).
      by apply row_get_app_eq. }
    rewrite row_get_app_ne by done.
    destruct (decide (label = "order_date")) as [->|Hne2].
    { rewrite decide_False by (intros [Hn _]; by apply order_date_not_numeric).
      by apply row_get_set_eq. }
    rewrite row_get_set_ne by done.
    destruct (decide (label ∈ num_cols ∧ label ∈ cols)) as [[? ?]|Hno].
    + rewrite decide_True; [done|]. split; [done|]. apply elem_of_app. by left.
    + rewrite decide_False; [done|].
      intros [? [?|?%list_elem_of_singleton]%elem_of_app]; [|done]. by apply Hno.
Qed.

End PreprocessSpec.

Lemma bind_Ok {A B} (a : A) (f : A → result B) : Ok a ≫= f = f a.
Proof. done. Qed.

Section LoadFacts.
Context `{Backend}.
Implicit Types (df : DataFrame) (r : Series) (cols : list string) (fs : FileSystem).

Lemma convert_date_total fmts df s0 :
  getitem df "order_date" = Ok (a_Series s0) →
  (∃ fmt s, fmt ∈ fmts ∧ to_datetime_format (a_Series s0) fmt = Ok s)
  ∨ (∃ s, to_datetime_coerce (a_Series s0) = Ok s) →
  ∃ df', convert_date fmts df = Ok df'.
Proof.
  intros Hg. induction fmts as [|fmt rest IH]; intros Hconv; simpl;
    rewrite Hg, bind_Ok.
  - destruct Hconv as [(fmt & s & []%elem_of_nil & _)|[s ->]]. by eexists.
  - destruct (to_datetime_format (a_Series s0) fmt) as [s|e] eqn:Hfmt;
      [by eexists|]. cbn [mbind result_bind try_or]. apply IH.
    destruct Hconv as [(fmt' & s & [->|Hin]%elem_of_cons & Hs)|?];
      [congruence|left; eauto|by right].
Qed.

Lemma convert_date_Ok_inv fmts df df' s0 :
  getitem df "order_date" = Ok (a_Series s0) →
  convert_date fmts df = Ok df' →
  (∃ fmt s, fmt ∈ fmts ∧ to_datetime_format (a_Series s0) fmt = Ok s)
  ∨ (∃ s, to_datetime_coerce (a_Series s0) = Ok s).
Proof.
  intros Hg. induction fmts as [|fmt rest IH]; simpl; rewrite Hg, bind_Ok.
  - destruct (to_datetime_coerce (a_Series s0)) as [s|e] eqn:Hc; [|done].
    intros _. right. by eexists.
  - destruct (to_datetime_format (a_Series s0) fmt) as [s|e] eqn:Hfmt.
    + intros _. left. exists fmt, s. split; [by left|done].
    + cbn [mbind result_bind try_or]. intros Hrest.
      destruct (IH Hrest) as [(fmt' & s & Hin & Hs)|?]; [left|by right].
      exists fmt', s. split; [by right|done].
Qed.

Lemma convert_date_missing fmts df :
  "order_date" ∉ columns df → convert_date fmts df = Raise (KeyError "order_date").
Proof.
  intros Hno. induction fmts as [|fmt rest IH]; simpl;
    rewrite (getitem_missing _ _ Hno); simpl; done.
Qed.

Lemma row_get_set_datetimelike label a cols r :
  datetimelike a → datetimelike (row_get label cols (row_set label a cols r)).
Proof.
  intros Ha. revert r. induction cols as [|c cols IH]; intros [|x r]; simpl;
    try by left.
  case_decide; [done|apply IH].
Qed.

Lemma create_month_year_total fmts df df' :
  convert_date fmts df = Ok df' → ∃ df'', create_month_year df' = Ok df''.
Proof.
  intros Hc. pose proof (convert_date_once _ _ _ Hc) as Honce.
  apply convert_date_spec in Hc as (f & Hf & Hcols & HF). cbv zeta in *.
  unfold create_month_year. rewrite <-Hcols in Honce.
  rewrite (getitem_once _ _ Honce). simpl.
  destruct (mapM_total strftime_cell
              (map (row_get "order_date" (columns df')) (values df'))) as [s Hs].
  - apply Forall_fmap. eapply Forall2_Forall_r; [exact HF|].
    apply Forall_true. intros r r' (a & Ha & ->). simpl.
    apply strftime_cell_datetimelike. rewrite Hcols.
    eapply row_get_set_datetimelike, conversion_datetimelike; eauto.
  - rewrite Hs. simpl. by eexists.
Qed.

Lemma ensure_numeric_total ns df :
  (∀ label, label ∈ ns → occurrences label (columns df) ≤ 1) →
  ∃ df', ensure_numeric ns df = Ok df'.
Proof.
  revert df. induction ns as [|col rest IH]; intros df Hns; simpl; [by eexists|].
  case_decide as Hin.
  - assert (Honce : occurrences col (columns df) = 1).
    { apply occurrences_pos in Hin. specialize (Hns col (list_elem_of_here _ _)). lia. }
    rewrite (getitem_once _ _ Honce). simpl. apply IH.
    intros label Hl. rewrite setitem_columns, decide_True by done.
    apply Hns. by right.
  - apply IH. intros label Hl. apply Hns. by right.
Qed.

Lemma to_datetime_coerce_Ok (s0 : Series) :
  (∃ s, to_datetime_coerce (a_Series s0) = Ok s) ↔ coerce_error s0 = None.
Proof.
  unfold to_datetime_coerce. destruct (coerce_error s0) as [e|].
  - split; [by intros [s ?]|done].
  - split; [done|]. intros _. by eexists.
Qed.

Lemma ensure_numeric_Ok_inv ns df df' :
  ensure_numeric ns df = Ok df' →
  ∀ label, label ∈ ns → occurrences label (columns df) ≤ 1.
Proof.
  revert df. induction ns as [|col rest IH]; intros df Hc label Hl;
    [by apply elem_of_nil in Hl|]. simpl in Hc. case_decide as Hin.
  - destruct (getitem df col) as [[s|sub]|e] eqn:Hg; simpl in Hc; [|done|done].
    apply getitem_Series_inv in Hg as [Honce _].
    apply elem_of_cons in Hl as [->|Hl]; [lia|].
    specialize (IH _ Hc label Hl). by rewrite setitem_columns, decide_True in IH.
  - apply elem_of_cons in Hl as [->|Hl]; [|by eapply IH].
    destruct (occurrences col (columns df)) eqn:Ho; [lia|].
    exfalso. apply Hin, occurrences_pos. lia.
Qed.

Lemma getitem_date_column raw :
  occurrences "order_date" (map canonical (columns raw)) = 1 →
  getitem (standardize raw) "order_date" = Ok (a_Series (date_column raw)).
Proof. intros Honce. by rewrite getitem_once. Qed.

Lemma preprocess_total raw :
  let cols := map canonical (columns raw) in
  occurrences "order_date" cols = 1 →
  (∀ label, label ∈ num_cols → occurrences label cols ≤ 1) →
  dates_convert raw →
  ∃ df, preprocess raw = Ok df.
Proof.
  intros cols Honce Hnum Hdates. unfold preprocess.
  unfold dates_convert in Hdates. rewrite <-to_datetime_coerce_Ok in Hdates.
  destruct (convert_date_total date_formats (standardize raw) (date_column raw)
              (getitem_date_column raw Honce) Hdates) as [df1 H1].
  rewrite H1, bind_Ok.
  destruct (create_month_year_total _ _ _ H1) as [df2 H2]. rewrite H2, bind_Ok.
  apply ensure_numeric_total. intros label Hl.
  apply convert_date_spec in H1 as (_ & _ & Hc1 & _).
  apply create_month_year_spec in H2 as (_ & Hc2 & _).
  cbv zeta in Hc1, Hc2. rewrite Hc1 in Hc2. simpl in Hc2. fold cols in Hc2.
  rewrite Hc2. destruct (decide ("month_year" ∈ cols)); [by apply Hnum|].
  rewrite occurrences_app. specialize (Hnum label Hl).
  assert (occurrences label ["month_year"] = 0); [|lia].
  unfold occurrences. rewrite filter_cons, decide_False; [done|].
  intros <-. by apply month_year_not_numeric.
Qed.

Lemma preprocess_acceptable raw : (∃ df, preprocess raw = Ok df) ↔ acceptable raw.
Proof.
  split.
  - intros [df Hp]. pose proof (preprocess_spec _ _ Hp) as (Honce & _).
    unfold preprocess in Hp.
    apply bind_Ok_inv in Hp as (df1 & H1 & Hp).
    apply bind_Ok_inv in Hp as (df2 & H2 & Hp).
    split; [done|]. split.
    + apply Forall_forall. intros label Hl.
      pose proof (ensure_numeric_Ok_inv _ _ _ Hp label Hl) as Hle.
      pose proof (convert_date_spec _ _ _ H1) as (_ & _ & Hc1 & _).
      pose proof (create_month_year_spec _ _ H2) as (_ & Hc2 & _).
      cbv zeta in Hc1, Hc2. rewrite Hc1 in Hc2. simpl in Hc2. rewrite Hc2 in Hle.
      destruct (decide ("month_year" ∈ map canonical (columns raw))); [done|].
      rewrite occurrences_app in Hle. lia.
    + unfold dates_convert. rewrite <-to_datetime_coerce_Ok.
      by apply (convert_date_Ok_inv _ _ _ _ (getitem_date_column raw Honce)) in H1.
  - intros (Honce & Hnum & Hdates). apply preprocess_total; [done| |done].
    intros label Hl. by eapply Forall_forall in Hnum.
Qed.

Lemma preprocess_missing_date raw :
  "order_date" ∉ map canonical (columns raw) →
  preprocess raw = Raise (KeyError "order_date").
Proof. intros Hno. unfold preprocess. by rewrite convert_date_missing. Qed.

Lemma try_encodings_cases fs encs :
  (∃ enc raw df, enc ∈ encs ∧ read_csv fs csv_path enc = Ok raw
                 ∧ preprocess raw = Ok df
                 ∧ try_encodings fs encs = ([], Ok (Some df)))
  ∨ ((∀ enc, enc ∈ encs → ∃ e, read_csv fs csv_path enc ≫= preprocess = Raise e)
     ∧ try_encodings fs encs = ([(page, error all_failed_message)], Ok None)).
Proof.
  induction encs as [|enc rest IH]; simpl.
  - right. split; [|done]. by intros enc ?%elem_of_nil.
  - destruct (read_csv fs csv_path enc) as [raw|e] eqn:Hr; simpl.
    + destruct (preprocess raw) as [df|e] eqn:Hp.
      * left. exists enc, raw, df. split; [by left|done].
      * destruct IH as [(enc' & raw' & df' & ? & ? & ? & ?)|[Hall ?]].
        -- left. exists enc', raw', df'. split; [by right|done].
        -- right. split; [|done]. intros enc' [->|?]%elem_of_cons; [|by apply Hall].
           rewrite Hr. simpl. by eexists.
    + destruct IH as [(enc' & raw' & df' & ? & ? & ? & ?)|[Hall ?]].
      * left. exists enc', raw', df'. split; [by right|done].
      * right. split; [|done]. intros enc' [->|?]%elem_of_cons; [|by apply Hall].
        rewrite Hr. simpl. by eexists.
Qed.


Lemma load_data_unfold fs :
  load_data fs
  = if path_exists fs csv_path then try_encodings fs encodings
    else ([(page, error not_found_message)], Ok None).
Proof.
  unfold load_data. destruct (path_exists fs csv_path); cbn [negb]; [|done].
  destruct (try_encodings_cases fs encodings)
    as [(enc & raw & df & _ & _ & _ & ->)|[_ ->]]; done.
Qed.

Lemma load_data_Some fs l df :
  load_data fs = (l, Ok (Some df)) →
  l = [] ∧ path_exists fs csv_path = true
  ∧ ∃ enc raw, enc ∈ encodings ∧ read_csv fs csv_path enc = Ok raw
               ∧ preprocess raw = Ok df.
Proof.
  rewrite load_data_unfold. destruct (path_exists fs csv_path); [|done].
  destruct (try_encodings_cases fs encodings)
    as [(enc & raw & df' & ? & ? & ? & ->)|[_ ->]]; [|done].
  intros [= <- <-]. eauto 10.
Qed.


End LoadFacts.

(** ** The region filter and the tabs *)

Section DashboardFacts.
Context `{Backend}.
Implicit Types (df fdf : DataFrame) (r : Series) (cols : list string) (l : log).

Lemma boolean_mask_filter df (P : Series → Prop) `{!∀ r, Decision (P r)} :
  boolean_mask df (map (λ r, bool_decide (P r)) (values df))
  = mkDataFrame (columns df) (filter P (values df)).
Proof.
  unfold boolean_mask. f_equal.
  induction (values df) as [|r rows IH]; simpl; [done|].
  rewrite filter_cons. destruct (decide (P r)) as [HP|HP].
  - rewrite bool_decide_true by done. simpl. f_equal. exact IH.
  - rewrite bool_decide_false by done. simpl. exact IH.
Qed.

Lemma filtered_df_once df chosen :
  occurrences "region" (columns df) = 1 →
  filtered_df df chosen
  = Ok (mkDataFrame (columns df)
          (filter (λ r, row_get "region" (columns df) r ∈ chosen) (values df))).
Proof.
  intros Honce. unfold filtered_df.
  rewrite decide_True by (apply occurrences_pos; lia).
  rewrite (getitem_once _ _ Honce), bind_Ok. f_equal.
  unfold isin. rewrite <-list_fmap_compose.
  apply (boolean_mask_filter df (λ r, row_get "region" (columns df) r ∈ chosen)).
Qed.

Lemma filtered_df_absent df chosen :
  "region" ∉ columns df → filtered_df df chosen = Ok df.
Proof. intros Hno. unfold filtered_df. by rewrite decide_False. Qed.

Lemma filtered_df_columns df chosen :
  occurrences "region" (columns df) ≤ 1 →
  ∃ fdf, filtered_df df chosen = Ok fdf ∧ columns fdf = columns df.
Proof.
  intros Hle. destruct (decide ("region" ∈ columns df)) as [Hin|Hno].
  - apply occurrences_pos in Hin. rewrite filtered_df_once by lia. by eexists.
  - rewrite filtered_df_absent by done. by eexists.
Qed.

Lemma figures_app l1 l2 : figures (l1 ++ l2) = figures l1 ++ figures l2.
Proof. apply omap_app. Qed.
Lemma warnings_app l1 l2 : warnings (l1 ++ l2) = warnings l1 ++ warnings l2.
Proof. apply omap_app. Qed.
Lemma errors_app l1 l2 : errors (l1 ++ l2) = errors l1 ++ errors l2.
Proof. apply omap_app. Qed.

Lemma groupby_sum_once fdf key col :
  occurrences key (columns fdf) = 1 → col ∈ columns fdf →
  groupby_sum fdf key col = Ok tt.
Proof.
  intros Honce Hcol. unfold groupby_sum. rewrite (getitem_once _ _ Honce), bind_Ok.
  destruct (getitem_present _ _ Hcol) as [sel ->]. done.
Qed.

Lemma has_true label cols : has label cols = true ↔ label ∈ cols.
Proof. apply bool_decide_eq_true. Qed.

Lemma tab1_spec fdf :
  occurrences "month_year" (columns fdf) ≤ 1 →
  ∃ l, tab1 fdf = (l, Ok tt) ∧ errors l = []
       ∧ figures l = (if has "month_year" (columns fdf) && has "sales" (columns fdf)
                      then [monthly_sales_line] else [])
       ∧ warnings l = (if has "month_year" (columns fdf) && has "sales" (columns fdf)
                       then [] else ["Required columns for sales trend not available"]).
Proof.
  intros Hle. unfold tab1, has.
  destruct (bool_decide ("month_year" ∈ columns fdf)) eqn:Hk; simpl;
    [|by eexists].
  destruct (bool_decide ("sales" ∈ columns fdf)) eqn:Hc; simpl; [|by eexists].
  apply bool_decide_eq_true in Hk, Hc.
  rewrite groupby_sum_once; [by eexists|apply occurrences_pos in Hk; lia|done].
Qed.

Lemma tab2_spec fdf :
  occurrences "region" (columns fdf) ≤ 1 →
  ∃ l, tab2 fdf = (l, Ok tt) ∧ errors l = []
       ∧ figures l = (if has "region" (columns fdf) && has "sales" (columns fdf)
                      then [region_sales_bars] else [])
       ∧ warnings l = (if has "region" (columns fdf) && has "sales" (columns fdf)
                       then [] else ["Required columns for regional analysis not available"]).
Proof.
  intros Hle. unfold tab2, has.
  destruct (bool_decide ("region" ∈ columns fdf)) eqn:Hk; simpl;
    [|by eexists].
  destruct (bool_decide ("sales" ∈ columns fdf)) eqn:Hc; simpl; [|by eexists].
  apply bool_decide_eq_true in Hk, Hc.
  rewrite groupby_sum_once; [by eexists|apply occurrences_pos in Hk; lia|done].
Qed.

Lemma tab3_spec fdf :
  ∃ l, tab3 fdf = (l, Ok tt) ∧ errors l = []
       ∧ figures l = (if has "profit" (columns fdf) && has "discount" (columns fdf)
                      then [correlation_heatmap] else [])
       ∧ warnings l
         = (if has "profit" (columns fdf) && has "discount" (columns fdf) then []
            else ["Missing columns for correlation analysis: "
                  +:+ Str.join ", "
                        ((if has "profit" (columns fdf) then [] else ["profit"])
                         ++ (if has "discount" (columns fdf) then [] else ["discount"]))]).
Proof.
  unfold tab3, has.
  destruct (bool_decide ("profit" ∈ columns fdf));
    destruct (bool_decide ("discount" ∈ columns fdf)); by eexists.
Qed.

Lemma tabs_spec df chosen :
  occurrences "region" (columns df) ≤ 1 →
  occurrences "month_year" (columns df) ≤ 1 →
  ∃ l, (lift (filtered_df df chosen) ≫= λ fdf, tab1 fdf;; tab2 fdf;; tab3 fdf)
       = (l, Ok tt)
       ∧ errors l = []
       ∧ figures l = expected_figures (columns df)
       ∧ warnings l = expected_warnings (columns df).
Proof.
  intros Hreg Hmy.
  destruct (filtered_df_columns df chosen Hreg) as (fdf & Hf & Hcols).
  rewrite <-Hcols in Hreg, Hmy.
  destruct (tab1_spec fdf Hmy) as (l1 & H1 & He1 & Hf1 & Hw1).
  destruct (tab2_spec fdf Hreg) as (l2 & H2 & He2 & Hf2 & Hw2).
  destruct (tab3_spec fdf) as (l3 & H3 & He3 & Hf3 & Hw3).
  exists (l1 ++ l2 ++ l3). split.
  { rewrite Hf. cbn [mbind ui_bind lift]. rewrite H1, H2, H3. done. }
  rewrite !errors_app, !figures_app, !warnings_app.
  rewrite He1, He2, He3, Hf1, Hf2, Hf3, Hw1, Hw2, Hw3, Hcols. done.
Qed.

Lemma tab1_log fdf :
  occurrences "month_year" (columns fdf) ≤ 1 →
  tab1 fdf = (sales_trends (columns fdf), Ok tt).
Proof.
  intros Hle. unfold tab1, sales_trends, has.
  destruct (bool_decide ("month_year" ∈ columns fdf)) eqn:Hk; simpl; [|done].
  destruct (bool_decide ("sales" ∈ columns fdf)) eqn:Hc; simpl; [|done].
  apply bool_decide_eq_true in Hk, Hc.
  rewrite groupby_sum_once; [done|apply occurrences_pos in Hk; lia|done].
Qed.

Lemma tab2_log fdf :
  occurrences "region" (columns fdf) ≤ 1 →
  tab2 fdf = (regional_analysis (columns fdf), Ok tt).
Proof.
  intros Hle. unfold tab2, regional_analysis, has.
  destruct (bool_decide ("region" ∈ columns fdf)) eqn:Hk; simpl; [|done].
  destruct (bool_decide ("sales" ∈ columns fdf)) eqn:Hc; simpl; [|done].
  apply bool_decide_eq_true in Hk, Hc.
  rewrite groupby_sum_once; [done|apply occurrences_pos in Hk; lia|done].
Qed.

Lemma tab3_log fdf : tab3 fdf = (profit_correlation (columns fdf), Ok tt).
Proof.
  unfold tab3, profit_correlation, has.
  by destruct (bool_decide ("profit" ∈ columns fdf)),
              (bool_decide ("discount" ∈ columns fdf)).
Qed.


Lemma available_regions_once df :
  occurrences "region" (columns df) = 1 →
  available_regions df
  = Ok (uniques [] (map (row_get "region" (columns df)) (values df))).
Proof.
  intros Honce. unfold available_regions.
  rewrite decide_True by (apply occurrences_pos; lia).
  by rewrite getitem_once.
Qed.

Lemma available_regions_absent df :
  "region" ∉ columns df → available_regions df = Ok [].
Proof. intros Hno. unfold available_regions. by rewrite decide_False. Qed.

Lemma available_regions_total df :
  occurrences "region" (columns df) ≤ 1 → ∃ regions, available_regions df = Ok regions.
Proof.
  intros Hle. destruct (decide ("region" ∈ columns df)) as [Hin|Hno].
  - apply occurrences_pos in Hin. rewrite available_regions_once by lia. by eexists.
  - rewrite available_regions_absent by done. by eexists.
Qed.

(** The whole page above the summary, when no label of a tab is repeated. *)
Lemma dashboard_log df w :
  occurrences "region" (columns df) ≤ 1 →
  occurrences "month_year" (columns df) ≤ 1 →
  dashboard df w
  = (dashboard_head ++ sales_trends (columns df) ++ regional_analysis (columns df)
       ++ profit_correlation (columns df), Ok tt).
Proof.
  intros Hreg Hmy. unfold dashboard.
  destruct (available_regions_total df Hreg) as [regions ->].
  destruct (filtered_df_columns df (selected_region regions w) Hreg)
    as (fdf & Hf & Hcols).
  rewrite <-Hcols in Hreg, Hmy.
  cbn [mbind ui_bind lift emit]. rewrite Hf.
  cbn [mbind ui_bind lift emit]. rewrite (tab1_log fdf Hmy), (tab2_log fdf Hreg), tab3_log.
  by rewrite Hcols.
Qed.

Lemma tab_logs_projections cols :
  let l := sales_trends cols ++ regional_analysis cols ++ profit_correlation cols in
  errors l = [] ∧ figures l = expected_figures cols ∧ warnings l = expected_warnings cols.
Proof.
  unfold sales_trends, regional_analysis, profit_correlation, expected_figures,
    expected_warnings.
  by destruct (has "month_year" cols && has "sales" cols),
              (has "region" cols && has "sales" cols),
              (has "profit" cols && has "discount" cols).
Qed.

Lemma dashboard_spec df w :
  occurrences "region" (columns df) ≤ 1 →
  occurrences "month_year" (columns df) ≤ 1 →
  ∃ l, dashboard df w = (l, Ok tt) ∧ errors l = []
       ∧ figures l = expected_figures (columns df)
       ∧ warnings l = expected_warnings (columns df).
Proof.
  intros Hreg Hmy. rewrite dashboard_log by done. eexists. split; [done|].
  destruct (tab_logs_projections (columns df)) as (He & Hf & Hw).
  by rewrite errors_app, figures_app, warnings_app, He, Hf, Hw.
Qed.

End DashboardFacts.

(** ** Column labels *)

Section LabelFacts.
Context `{Backend}.

(** On a label of plain ASCII text the normalization is the ASCII one. *)
Lemma canonical_plain label :
  Str.plain label = true →
  canonical label = rename_label rename_table (Str.lower (Str.strip label)).
Proof.
  intros Hp. unfold canonical.
  by rewrite (str_strip_plain _ Hp), (str_lower_plain _ (plain_strip _ Hp)).
Qed.



(** The rename table changes a single label. *)
Lemma rename_table_spec x :
  rename_label rename_table x = if decide (x = "order date") then "order_date" else x.
Proof. unfold rename_table. simpl. repeat case_decide; subst; done. Qed.

Lemma preprocess_columns raw df :
  preprocess raw = Ok df →
  ∀ label, label ∈ columns df
           ↔ label = "month_year" ∨ label ∈ map canonical (columns raw).
Proof.
  intros (_ & -> & _)%preprocess_spec label. case_decide as Hmy.
  - split; [by right|]. by intros [->|?].
  - rewrite elem_of_app, list_elem_of_singleton. tauto.
Qed.

Lemma preprocess_occurrences raw df label :
  preprocess raw = Ok df → label ≠ "month_year" →
  occurrences label (columns df) = occurrences label (map canonical (columns raw)).
Proof.
  intros (_ & -> & _)%preprocess_spec Hne. case_decide as Hmy; [done|].
  rewrite occurrences_app. unfold occurrences at 2.
  rewrite filter_cons, decide_False by done. simpl. lia.
Qed.

Lemma preprocess_month_year_once raw df :
  preprocess raw = Ok df →
  occurrences "month_year" (map canonical (columns raw)) ≤ 1 →
  occurrences "month_year" (columns df) = 1.
Proof.
  intros (_ & -> & _)%preprocess_spec Hle. case_decide as Hmy.
  - apply occurrences_pos in Hmy. lia.
  - rewrite occurrences_app. unfold occurrences at 2.
    rewrite filter_cons, decide_True by done. simpl.
    destruct (occurrences _ _) eqn:Ho; [done|].
    exfalso. apply Hmy, occurrences_pos. lia.
Qed.


Lemma app_loaded fs w df l :
  load_data fs = ([], Ok (Some df)) → dashboard df w = (l, Ok tt) →
  app fs w = (l ++ [(sidebar, header "Data Summary")], finished).
Proof. intros Hl Hd. unfold app. rewrite Hl. cbn [mbind ui_bind]. by rewrite Hd. Qed.

End LabelFacts.

Lemma Forall2_with_l {A B} (P : A → Prop) (R : A → B → Prop) (l : list A) (k : list B) :
  Forall P l → Forall2 R l k → Forall2 (λ x y, P x ∧ R x y) l k.
Proof. intros HP HR. induction HR; inv HP; constructor; auto. Qed.

(** ** The properties of the specification *)

Section Claims.
Context `{Backend}.
Implicit Types (df raw : DataFrame) (r : Series) (fs : FileSystem) (l : log).

(** C6.  [load_data] never lets an exception out: it returns a frame and
    shows nothing, or it returns [None] and has shown exactly one error, the
    one for a missing file or the one for the exhausted encodings. *)
Theorem load_data_total fs :
  ∃ l v, load_data fs = (l, Ok v)
         ∧ ((∃ df, v = Some df ∧ l = [])
            ∨ (v = None ∧ (l = [(page, error not_found_message)]
                           ∨ l = [(page, error all_failed_message)]))).
Proof.
  rewrite load_data_unfold. destruct (path_exists fs csv_path).
  - destruct (try_encodings_cases fs encodings)
      as [(enc & raw & df & _ & _ & _ & ->)|[_ ->]];
      eexists _, _; (split; [done|]); [left|right]; eauto.
  - eexists _, _. split; [done|]. right. eauto.
Qed.


(** C1, amended.  [load_data] returns a frame, and shows nothing, exactly
    when the file exists and some candidate encoding reads it into a frame
    with exactly one column whose label normalizes to order_date, no two
    columns that normalize to the same one of profit, discount and sales,
    and dates that one of the three formats converts or that the permissive
    parser does not reject as a whole.  Each row of the frame read then
    gives one row of the result, in which a date that the permissive parser
    cannot read and a text that is not a number have become missing
    values. *)
Theorem load_data_succeeds fs :
  ((path_exists fs csv_path = true
    ∧ ∃ enc raw, enc ∈ encodings ∧ read_csv fs csv_path enc = Ok raw ∧ acceptable raw)
   ↔ ∃ df, load_data fs = ([], Ok (Some df)))
  ∧ (∀ l df,
       load_data fs = (l, Ok (Some df)) →
       l = []
       ∧ ∃ enc raw f,
           enc ∈ encodings
           ∧ read_csv fs csv_path enc = Ok raw
           ∧ acceptable raw
           ∧ conversion (date_column raw) date_formats f
           ∧ Forall2 (normalized f (map canonical (columns raw)) (columns df))
                     (values raw) (values df)).
Proof.
  split; [split|].
  - intros (He & enc & raw & Henc & Hr & Hacc).
    rewrite load_data_unfold, He.
    destruct (try_encodings_cases fs encodings)
      as [(enc' & raw' & df & _ & _ & _ & ->)|[Hall _]]; [by eexists|].
    destruct (Hall enc Henc) as [e Hraise]. rewrite Hr, bind_Ok in Hraise.
    apply preprocess_acceptable in Hacc as [df Hp]. congruence.
  - intros [df (_ & He & enc & raw & Henc & Hr & Hp)%load_data_Some].
    split; [done|]. exists enc, raw. split; [done|]. split; [done|].
    apply preprocess_acceptable. by eexists.
  - intros l df (-> & _ & enc & raw & Henc & Hr & Hp)%load_data_Some.
    split; [done|]. pose proof (preprocess_spec _ _ Hp) as (_ & _ & f & Hconv & HF).
    exists enc, raw, f. repeat (split; [done|]). split; [|done].
    apply preprocess_acceptable. by eexists.
Qed.

(** C2, amended.  A frame returned by [load_data] has as many rows as the
    frame that [read_csv] produced under the encoding that was used, and its
    rows are the rows read, one for one and in order.  The dates are
    converted by the first format that converts them all, and otherwise by
    the permissive parser: a value from which that parser reads a date that
    the column can hold becomes this date, and a value from which it reads
    nothing becomes a missing value, as does its month_year, in a row that
    is kept. *)
Theorem load_data_preserves_rows fs l df :
  load_data fs = (l, Ok (Some df)) →
  ∃ enc raw f,
    enc ∈ encodings
    ∧ read_csv fs csv_path enc = Ok raw
    ∧ length (values df) = length (values raw)
    ∧ conversion (date_column raw) date_formats f
    ∧ Forall2 (normalized f (map canonical (columns raw)) (columns df))
              (values raw) (values df)
    ∧ (Forall (λ fmt, ∃ e, to_datetime_format (a_Series (date_column raw)) fmt = Raise e)
              date_formats →
       Forall2 (λ r r',
           length r = length (columns raw) →
           let c := row_get "order_date" (map canonical (columns raw)) r in
           let a := row_get "order_date" (columns df) r' in
           let m := row_get "month_year" (columns df) r' in
           a = coerce_cell (date_column raw) c
           ∧ (c = NaN → a = NaN ∧ m = NaN)
           ∧ (∀ d, c ≠ NaN → (∀ d', c ≠ Timestamp d') →
                   guess_datetime (date_column raw) c = Some d →
                   storable d = true →
                   a = Timestamp d ∧ m = Str (strftime_b_Y d))
           ∧ ((∀ d', c ≠ Timestamp d') →
              guess_datetime (date_column raw) c = None → a = NaN ∧ m = NaN))
         (values raw) (values df)).
Proof.
  intros (_ & _ & enc & raw & Henc & Hr & Hp)%load_data_Some.
  pose proof (preprocess_spec _ _ Hp) as (_ & _ & f & Hconv & HF).
  exists enc, raw, f. repeat (split; [done|]).
  split; [symmetry; by eapply Forall2_length|]. split; [done|]. split; [done|].
  intros Hall. fold (date_column raw) in Hconv.
  apply conversion_all_fail in Hconv; [|done]. subst f.
  eapply Forall2_impl; [exact HF|]. cbv beta zeta.
  intros r r' Hn Hlen. rewrite <-(length_fmap canonical) in Hlen.
  destruct (Hn Hlen) as (a & m & [= <-] & Hm & _ & Hget).
  rewrite !Hget. simpl. split; [done|].
  set (c := row_get "order_date" (map canonical (columns raw)) r) in *.
  split; [|split].
  - intros Hc. rewrite Hc in Hm |- *. simpl in *. by injection Hm as <-.
  - intros d Hnan Hts Hg Hd. revert Hm. unfold coerce_cell.
    destruct c as [|t|x|d']; [done| | |by destruct (Hts d')];
      rewrite Hg, Hd; simpl; by intros [= <-].
  - intros Hts Hg. revert Hm. unfold coerce_cell.
    destruct c as [|t|x|d']; [simpl; by intros [= <-]| | |by destruct (Hts d')];
      rewrite Hg; simpl; by intros [= <-].
Qed.

(** C3, amended.  In a frame returned by [load_data] for a file that pandas
    reads into rectangular frames, every row has a cell under order_date and
    one under month_year; the second is missing exactly when the first is,
    and otherwise the first is a calendar day that the column can hold and
    the second is the abbreviated name of its month, a hyphen and its year
    in decimal.  The year is written with four digits when it lies between
    1000 and 9999, hence always when the column holds nanosecond
    timestamps. *)
Theorem month_year_follows_order_date fs l df :
  (∀ enc raw, read_csv fs csv_path enc = Ok raw → rectangular raw) →
  load_data fs = (l, Ok (Some df)) →
  "order_date" ∈ columns df ∧ "month_year" ∈ columns df ∧ rectangular df
  ∧ Forall (λ r,
      let a := row_get "order_date" (columns df) r in
      let b := row_get "month_year" (columns df) r in
      (b = NaN ↔ a = NaN)
      ∧ (a = NaN
         ∨ ∃ d, a = Timestamp d
                ∧ storable d = true
                ∧ b = Str (month_abbr (month d) +:+ "-" +:+ year_text (year d))
                ∧ ((0 ≤ year d ≤ 9999)%Z → Strptime.int (year_text (year d)) = year d)
                ∧ ((1000 ≤ year d ≤ 9999)%Z → four_digits (year_text (year d)))
                ∧ ((∀ d', datetime_range d' = true → in_bounds d' = true) →
                   four_digits (year_text (year d)))))
    (values df)
  ∧ map month_abbr [Jan; Feb; Mar; Apr; May; Jun; Jul; Aug; Sep; Oct; Nov; Dec]
    = ["Jan"; "Feb"; "Mar"; "Apr"; "May"; "Jun"; "Jul"; "Aug"; "Sep"; "Oct"; "Nov";
       "Dec"].
Proof.
  intros Hrect (_ & _ & enc & raw & Henc & Hr & Hp)%load_data_Some.
  pose proof (preprocess_columns _ _ Hp) as Hcols.
  pose proof (preprocess_spec _ _ Hp) as (Honce & _ & f & Hconv & HF).
  apply Hrect in Hr. unfold rectangular in Hr. rewrite <-(length_fmap canonical) in Hr.
  split; [apply Hcols; right; apply occurrences_pos; lia|].
  split; [apply Hcols; by left|].
  assert (Hall : Forall (λ r', length r' = length (columns df)
            ∧ ∃ a m, datetimelike a ∧ strftime_cell a = Ok m
                     ∧ row_get "order_date" (columns df) r' = a
                     ∧ row_get "month_year" (columns df) r' = m) (values df)).
  { eapply Forall2_Forall_r; [exact HF|].
    eapply Forall_impl; [exact Hr|]. cbv beta.
    intros r Hlen r' Hn. destruct (Hn Hlen) as (a & m & Ha & Hm & Hlen' & Hget).
    split; [done|]. exists a, m.
    split; [by eapply conversion_datetimelike|]. split; [done|].
    by rewrite !Hget. }
  split; [eapply Forall_impl; [exact Hall|]; by intros r [? _]|].
  split; [|done].
  eapply Forall_impl; [exact Hall|]. cbv beta zeta.
  intros r (_ & a & m & Ha & Hm & -> & ->).
  destruct Ha as [->|(d & -> & Hd)]; simpl in Hm; injection Hm as <-.
  - split; [done|by left].
  - split; [done|]. right. exists d. split; [done|]. split; [done|]. split; [done|].
    split; [apply year_text_decimal|]. split; [apply year_text_four_digits|].
    intros Hns. apply year_text_four_digits.
    unfold storable in Hd. apply andb_prop in Hd as [_ Hd].
    apply Hns, in_bounds_year in Hd. lia.
Qed.




(** C5, amended.  On a frame with exactly one column called region, the
    filter keeps the rows whose region is one of the chosen values, in
    order, and nothing else: none at all when nothing is chosen.  A frame
    without a column called region comes back whole, whatever is chosen. *)
Theorem filtered_df_spec df chosen :
  (occurrences "region" (columns df) = 1 →
   ∃ fdf, filtered_df df chosen = Ok fdf
          ∧ columns fdf = columns df
          ∧ values fdf
            = filter (λ r, row_get "region" (columns df) r ∈ chosen) (values df)
          ∧ (∀ r, r ∈ values fdf
                  ↔ r ∈ values df ∧ row_get "region" (columns df) r ∈ chosen)
          ∧ (chosen = [] → values fdf = []))
  ∧ ("region" ∉ columns df → filtered_df df chosen = Ok df).
Proof.
  split; [|apply filtered_df_absent].
  intros Honce. rewrite filtered_df_once by done. eexists. split; [done|].
  simpl. split; [done|]. split; [done|]. split.
  - intros r. rewrite list_elem_of_filter. tauto.
  - intros ->. induction (values df) as [|r rows IH]; [done|].
    rewrite filter_cons, decide_False; [done|]. apply not_elem_of_nil.
Qed.


(** C8.  When the file does not exist, [load_data] returns [None] after one
    error that names the path, and the script stops there: the page holds
    that error and nothing else, no figure, and the run ends at [st.stop()],
    not with an exception. *)
Theorem missing_file_stops fs w :
  path_exists fs csv_path = false →
  load_data fs = ([(page, error not_found_message)], Ok None)
  ∧ not_found_message = "Error: File '" +:+ csv_path +:+ "' not found"
  ∧ ∃ l, app fs w = (l, stopped)
         ∧ l = [(page, error not_found_message)]
         ∧ errors l = [not_found_message]
         ∧ figures l = [].
Proof.
  intros He. assert (Hl : load_data fs = ([(page, error not_found_message)], Ok None)).
  { by rewrite load_data_unfold, He. }
  split; [done|]. split; [done|]. unfold app. rewrite Hl. by eexists.
Qed.

(** C9, amended.  When [load_data] has returned a frame in which region and
    month_year are each the name of at most one column, the script runs to
    its end and each tab shows, in its own container, its figure when its
    columns are there and its warning when they are not.  For a file whose
    frames have no discount column, the tab Profit Correlation holds one
    warning, which names discount (after profit when profit is missing
    too), and no figure; the tabs Sales Trends and Regional Analysis are as
    they are with a discount column. *)
Theorem missing_discount_degrades fs w l0 df :
  load_data fs = (l0, Ok (Some df)) →
  occurrences "region" (columns df) ≤ 1 →
  occurrences "month_year" (columns df) ≤ 1 →
  (∀ enc raw, enc ∈ encodings → read_csv fs csv_path enc = Ok raw →
              "discount" ∉ map canonical (columns raw)) →
  ("discount" ∉ columns df)
  ∧ ∃ l,
      app fs w = (l, finished)
      ∧ l = dashboard_head
            ++ sales_trends (columns df)
            ++ regional_analysis (columns df)
            ++ [(tab "Profit Correlation",
                 warning ("Missing columns for correlation analysis: "
                          +:+ (if has "profit" (columns df) then "discount"
                               else "profit, discount")))]
            ++ [(sidebar, header "Data Summary")]
      ∧ errors l = []
      ∧ figures l = expected_figures (columns df)
      ∧ warnings l = expected_warnings (columns df)
      ∧ (correlation_heatmap ∉ figures l)
      ∧ ("sales" ∈ columns df → "region" ∈ columns df → "profit" ∈ columns df →
         figures l = [monthly_sales_line; region_sales_bars]
         ∧ warnings l = ["Missing columns for correlation analysis: discount"]).
Proof.
  intros Hl Hreg Hmy Hno.
  pose proof Hl as (-> & _ & enc & raw & Henc & Hr & Hp)%load_data_Some.
  pose proof (preprocess_columns _ _ Hp) as Hcols.
  assert (Hnd : "discount" ∉ columns df).
  { rewrite Hcols. intros [?|?]; [done|]. by eapply Hno. }
  split; [done|].
  assert (Hd0 : has "discount" (columns df) = false) by by apply bool_decide_eq_false.
  assert (H3 : profit_correlation (columns df)
               = [(tab "Profit Correlation",
                   warning ("Missing columns for correlation analysis: "
                            +:+ (if has "profit" (columns df) then "discount"
                                 else "profit, discount")))]).
  { unfold profit_correlation. rewrite Hd0, andb_false_r.
    by destruct (has "profit" (columns df)). }
  pose proof (dashboard_log df w Hreg Hmy) as Hd.
  pose proof (tab_logs_projections (columns df)) as (He & Hf & Hw). cbv zeta in *.
  exists ((dashboard_head ++ sales_trends (columns df) ++ regional_analysis (columns df)
           ++ profit_correlation (columns df)) ++ [(sidebar, header "Data Summary")]).
  split; [by apply (app_loaded fs w df _ Hl Hd)|].
  split; [by rewrite H3, <-!app_assoc|].
  set (T := sales_trends (columns df) ++ regional_analysis (columns df)
            ++ profit_correlation (columns df)) in *.
  assert (Hpe : errors ((dashboard_head ++ T) ++ [(sidebar, header "Data Summary")]) = [])
    by (by rewrite !errors_app, He).
  assert (Hpf : figures ((dashboard_head ++ T) ++ [(sidebar, header "Data Summary")])
                = expected_figures (columns df))
    by (rewrite !figures_app, Hf; simpl; by rewrite app_nil_r).
  assert (Hpw : warnings ((dashboard_head ++ T) ++ [(sidebar, header "Data Summary")])
                = expected_warnings (columns df))
    by (rewrite !warnings_app, Hw; simpl; by rewrite app_nil_r).
  rewrite Hpe, Hpf, Hpw. repeat (split; [done|]).
  assert (Hmyin : has "month_year" (columns df) = true).
  { apply has_true, Hcols. by left. }
  unfold expected_figures, expected_warnings.
  rewrite Hd0, Hmyin, andb_false_r. split.
  - rewrite !app_nil_r. intros Hin. apply elem_of_app in Hin as [Hin|Hin].
    + destruct (_ && _); [|by apply elem_of_nil in Hin].
      by apply list_elem_of_singleton in Hin.
    + destruct (_ && _); [|by apply elem_of_nil in Hin].
      by apply list_elem_of_singleton in Hin.
  - intros Hs Hrg Hpr. apply has_true in Hs, Hrg, Hpr. by rewrite Hs, Hrg, Hpr.
Qed.

(** C10.  When the file exists, is read under some encoding, and none of the
    frames read has a column whose label normalizes to order_date, every
    attempt raises [KeyError] on that label and [load_data] returns [None]
    with the error of the exhausted encodings: the very result of a file
    that no encoding can read. *)
Theorem missing_order_date_fails fs :
  path_exists fs csv_path = true →
  (∃ enc raw, enc ∈ encodings ∧ read_csv fs csv_path enc = Ok raw) →
  (∀ enc raw, enc ∈ encodings → read_csv fs csv_path enc = Ok raw →
              "order_date" ∉ map canonical (columns raw)) →
  load_data fs = ([(page, error all_failed_message)], Ok None)
  ∧ all_failed_message = "Failed to load data with all encoding attempts"
  ∧ (∀ enc raw, enc ∈ encodings → read_csv fs csv_path enc = Ok raw →
                preprocess raw = Raise (KeyError "order_date"))
  ∧ (∀ fs', path_exists fs' csv_path = true →
            (∀ enc, enc ∈ encodings → ∃ e, read_csv fs' csv_path enc = Raise e) →
            load_data fs' = load_data fs).
Proof.
  intros He _ Hno.
  assert (Hraise : ∀ enc raw, enc ∈ encodings → read_csv fs csv_path enc = Ok raw →
                              preprocess raw = Raise (KeyError "order_date")).
  { intros enc raw Henc Hr. apply preprocess_missing_date. by eapply Hno. }
  assert (Hl : load_data fs = ([(page, error all_failed_message)], Ok None)).
  { rewrite load_data_unfold, He.
    destruct (try_encodings_cases fs encodings)
      as [(enc & raw & df & Henc & Hr & Hp & _)|[_ ->]]; [|done].
    rewrite (Hraise _ _ Henc Hr) in Hp. done. }
  split; [done|]. split; [done|]. split; [done|].
  intros fs' He' Hall. rewrite Hl, load_data_unfold, He'.
  destruct (try_encodings_cases fs' encodings)
    as [(enc & raw & df & Henc & Hr & _)|[_ ->]]; [|done].
  destruct (Hall _ Henc) as [e Hre]. congruence.
Qed.

End Claims.

(** ** More on the ingestion routine *)

Section IngestionExtras.
Context `{Backend}.
Implicit Types (df raw : DataFrame) (r : Series) (fs : FileSystem) (l : log).

(** The rows of a returned frame, for a file read into rectangular frames:
    [normalized] with its premise on the length of the row discharged. *)
Lemma load_data_rows fs l df :
  (∀ enc raw, read_csv fs csv_path enc = Ok raw → rectangular raw) →
  load_data fs = (l, Ok (Some df)) →
  ∃ enc raw f,
    enc ∈ encodings ∧ read_csv fs csv_path enc = Ok raw
    ∧ occurrences "order_date" (map canonical (columns raw)) = 1
    ∧ conversion (map (row_get "order_date" (map canonical (columns raw))) (values raw))
                 date_formats f
    ∧ (∀ label, label ∈ columns df
                ↔ label = "month_year" ∨ label ∈ map canonical (columns raw))
    ∧ Forall2 (λ r r',
        ∃ a m,
          f (row_get "order_date" (map canonical (columns raw)) r) = Ok a
          ∧ strftime_cell a = Ok m
          ∧ length r' = length (columns df)
          ∧ ∀ label,
              row_get label (columns df) r'
              = if decide (label = "month_year") then m
                else if decide (label = "order_date") then a
                else if decide (label ∈ num_cols ∧ label ∈ map canonical (columns raw))
                     then numeric_cell (row_get label (map canonical (columns raw)) r)
                     else row_get label (map canonical (columns raw)) r)
        (values raw) (values df).
Proof.
  intros Hrect (_ & _ & enc & raw & Henc & Hr & Hp)%load_data_Some.
  pose proof (preprocess_columns _ _ Hp) as Hcols.
  pose proof (preprocess_spec _ _ Hp) as (Honce & _ & f & Hconv & HF).
  exists enc, raw, f. repeat (split; [done|]).
  apply Hrect in Hr. unfold rectangular in Hr.
  rewrite <-(length_fmap canonical) in Hr.
  eapply Forall2_impl; [exact (Forall2_with_l _ _ _ _ Hr HF)|]. cbv beta.
  intros r r' [Hlen Hn]. exact (Hn Hlen).
Qed.

(** X1.  The rename table changes a single label, order date.  Normalizing
    a label twice is normalizing it once, as soon as stripping and
    lower-casing a label that has been stripped and lower-cased changes
    nothing, which is the case of [str.strip] and [str.lower]: the renaming
    adds nothing that a second pass would touch. *)
Theorem canonical_idempotent label :
  (∀ s, str_lower (str_strip (str_lower (str_strip s))) = str_lower (str_strip s)) →
  canonical (canonical label) = canonical label
  ∧ canonical label
    = (if decide (str_lower (str_strip label) = "order date") then "order_date"
       else str_lower (str_strip label)).
Proof.
  intros Hidem. split; [|apply rename_table_spec].
  unfold canonical at 2 3. rewrite rename_table_spec. case_decide as Heq.
  - by rewrite canonical_plain.
  - unfold canonical. rewrite Hidem, rename_table_spec. by rewrite decide_False.
Qed.

Lemma try_encodings_cons fs enc rest :
  try_encodings fs (enc :: rest)
  = match read_csv fs csv_path enc ≫= preprocess with
    | Ok df => ([], Ok (Some df))
    | Raise _ => try_encodings fs rest
    end.
Proof. reflexivity. Qed.

(** X2.  The encodings are tried in order and the first one under which the file
    is read and converted gives the result: what pandas would do under the
    encodings after it plays no role. *)
Theorem first_encoding_wins fs before enc after raw df :
  path_exists fs csv_path = true →
  encodings = before ++ enc :: after →
  Forall (λ e, ∃ x, read_csv fs csv_path e ≫= preprocess = Raise x) before →
  read_csv fs csv_path enc = Ok raw →
  preprocess raw = Ok df →
  load_data fs = ([], Ok (Some df)).
Proof.
  intros He Henc Hbefore Hr Hp. rewrite load_data_unfold, He, Henc. clear Henc.
  induction Hbefore as [|e before [x Hx] _ IH];
    [rewrite app_nil_l|rewrite <-app_comm_cons]; rewrite try_encodings_cons.
  - by rewrite Hr, bind_Ok, Hp.
  - rewrite Hx. exact IH.
Qed.

(** X3.  In a returned frame the cells under profit, discount and sales are the
    cells read, coerced one by one: a number stays, a missing value stays,
    a text becomes the number it spells or a missing value, and no text is
    left. *)
Theorem numeric_columns_coerced fs l df :
  (∀ enc raw, read_csv fs csv_path enc = Ok raw → rectangular raw) →
  load_data fs = (l, Ok (Some df)) →
  ∃ enc raw,
    enc ∈ encodings ∧ read_csv fs csv_path enc = Ok raw
    ∧ Forall2 (λ r r',
        ∀ label, label ∈ num_cols → label ∈ columns df →
          let old := row_get label (map canonical (columns raw)) r in
          let new := row_get label (columns df) r' in
          (∀ x, old = Num x → new = Num x)
          ∧ (old = NaN → new = NaN)
          ∧ (∀ s, old = Str s →
                  new = match parse_float s with Some x => Num x | None => NaN end)
          ∧ (∀ s, new ≠ Str s))
        (values raw) (values df).
Proof.
  intros Hrect Hl.
  destruct (load_data_rows fs l df Hrect Hl)
    as (enc & raw & f & Henc & Hr & _ & _ & Hcols & HF).
  exists enc, raw. split; [done|]. split; [done|].
  eapply Forall2_impl; [exact HF|]. cbv beta zeta.
  intros r r' (a & m & _ & _ & _ & Hget) label Hnum Hin. rewrite Hget.
  rewrite decide_False by (intros ->; by apply month_year_not_numeric).
  rewrite decide_False by (intros ->; by apply order_date_not_numeric).
  rewrite decide_True.
  2:{ split; [done|]. apply Hcols in Hin as [->|?]; [|done].
      by apply month_year_not_numeric in Hnum. }
  repeat split.
  - by intros x ->.
  - by intros ->.
  - by intros s ->.
  - intros s. destruct (row_get label _ r) as [|t|x|d]; simpl; try done.
    by destruct (parse_float t).
Qed.

(** X4.  In a returned frame every column other than order_date, month_year,
    profit, discount and sales holds the cells that were read, unchanged. *)
Theorem other_columns_pass_through fs l df :
  (∀ enc raw, read_csv fs csv_path enc = Ok raw → rectangular raw) →
  load_data fs = (l, Ok (Some df)) →
  ∃ enc raw,
    enc ∈ encodings ∧ read_csv fs csv_path enc = Ok raw
    ∧ Forall2 (λ r r',
        ∀ label,
          label ∉ ["order_date"; "month_year"; "profit"; "discount"; "sales"] →
          row_get label (columns df) r'
          = row_get label (map canonical (columns raw)) r)
        (values raw) (values df).
Proof.
  intros Hrect Hl.
  destruct (load_data_rows fs l df Hrect Hl)
    as (enc & raw & f & Henc & Hr & _ & _ & _ & HF).
  exists enc, raw. split; [done|]. split; [done|].
  eapply Forall2_impl; [exact HF|]. cbv beta.
  intros r r' (a & m & _ & _ & _ & Hget) label Hno. rewrite Hget.
  rewrite !not_elem_of_cons in Hno. destruct Hno as (? & ? & ? & ? & ? & _).
  rewrite !decide_False; try done.
  intros [Hn _]. unfold num_cols in Hn.
  rewrite !elem_of_cons, elem_of_nil in Hn. tauto.
Qed.

(** X5.  The order_date column of a returned frame holds no text: each cell
    is missing or is a day of the calendar, within its month, that the
    datetime column can hold; with nanosecond timestamps, a day between 1677
    and 2262. *)
Theorem order_dates_in_bounds fs l df :
  (∀ enc raw, read_csv fs csv_path enc = Ok raw → rectangular raw) →
  load_data fs = (l, Ok (Some df)) →
  Forall (λ r,
      let a := row_get "order_date" (columns df) r in
      a = NaN
      ∨ ∃ d, a = Timestamp d
             ∧ datetime_range d = true
             ∧ (1 ≤ day d ≤ days_in_month (year d) (month d))%Z
             ∧ ((∀ d', datetime_range d' = true → in_bounds d' = true) →
                (1677 ≤ year d ≤ 2262)%Z))
    (values df).
Proof.
  intros Hrect Hl.
  destruct (load_data_rows fs l df Hrect Hl)
    as (enc & raw & f & _ & _ & _ & Hconv & _ & HF).
  eapply Forall2_Forall_r; [exact HF|]. apply Forall_true. cbv beta zeta.
  intros r r' (a & m & Ha & _ & _ & Hget).
  rewrite Hget. simpl.
  apply (conversion_datetimelike _ _ _ _ _ Hconv) in Ha as [?|(d & -> & Hb)];
    [by left|right].
  unfold storable, valid_day in Hb. apply andb_prop in Hb as [Hv Hr].
  apply andb_prop in Hv as [H1 H2]. apply Z.leb_le in H1, H2.
  exists d. split; [done|]. split; [done|]. split; [done|].
  intros Hns. by apply in_bounds_year, Hns.
Qed.


End IngestionExtras.

(** X7.  The label of a month tells the month and the year apart: two dates that
    a timestamp can hold get the same label exactly when they fall in the
    same month of the same year. *)
Theorem month_year_label_injective d1 d2 :
  in_bounds d1 = true → in_bounds d2 = true →
  strftime_b_Y d1 = strftime_b_Y d2 ↔ month d1 = month d2 ∧ year d1 = year d2.
Proof.
  intros H1%in_bounds_year H2%in_bounds_year. split.
  - unfold strftime_b_Y. intros Heq.
    assert (Hback : ∀ y, (1677 ≤ y ≤ 2262)%Z → Strptime.int (year_text y) = y).
    { intros y Hy.
      assert (Hall : Forall (λ z, Strptime.int (year_text z) = z) (seqZ 1677 586)).
      { apply (bool_decide_unpack _). vm_compute. exact I. }
      rewrite Forall_forall in Hall. apply Hall, elem_of_seqZ. lia. }
    assert (month d1 = month d2 ∧ year_text (year d1) = year_text (year d2)) as [Hm Hy].
    { destruct (month d1), (month d2); simpl in Heq; by simplify_eq. }
    split; [done|]. rewrite <-(Hback (year d1)), <-(Hback (year d2)) by done.
    by rewrite Hy.
  - intros [Hm Hy]. unfold strftime_b_Y. by rewrite Hm, Hy.
Qed.

(** ** More on the sidebar filter *)

Section FilterExtras.
Context `{Backend}.
Implicit Types (df : DataFrame) (r : Series) (s seen chosen : Series).

Lemma uniques_elem seen s c : c ∈ uniques seen s ↔ c ∈ s ∧ c ∉ seen.
Proof.
  revert seen. induction s as [|x s IH]; intros seen; simpl.
  - rewrite !elem_of_nil. tauto.
  - case_decide as Hx.
    + rewrite IH, elem_of_cons. split; [tauto|].
      intros [[->|?] ?]; [done|tauto].
    + rewrite !elem_of_cons, IH, elem_of_cons. split.
      * intros [->|(? & Hn)]; [tauto|]. tauto.
      * intros [[->|?] ?]; [by left|].
        destruct (decide (c = x)) as [->|?]; [by left|right; tauto].
Qed.

Lemma uniques_NoDup seen s : NoDup (uniques seen s).
Proof.
  revert seen. induction s as [|x s IH]; intros seen; simpl; [constructor|].
  case_decide; [done|]. apply NoDup_cons. split; [|done].
  rewrite uniques_elem, elem_of_cons. tauto.
Qed.

Lemma uniques_sublist seen s : uniques seen s `sublist_of` s.
Proof.
  revert seen. induction s as [|x s IH]; intros seen; simpl; [done|].
  case_decide; [by apply sublist_cons|by apply sublist_skip].
Qed.


Lemma filtered_df_Ok_inv df chosen fdf :
  filtered_df df chosen = Ok fdf →
  (occurrences "region" (columns df) = 1
   ∧ fdf = mkDataFrame (columns df)
             (filter (λ r, row_get "region" (columns df) r ∈ chosen) (values df)))
  ∨ (("region" ∉ columns df) ∧ fdf = df).
Proof.
  intros Hf. destruct (decide ("region" ∈ columns df)) as [Hin|Hno].
  - left. assert (Honce : occurrences "region" (columns df) = 1).
    { unfold filtered_df in Hf. rewrite decide_True in Hf by done.
      destruct (getitem df "region") as [[s|sub]|e] eqn:Hg; simpl in Hf; [|done|done].
      by apply getitem_Series_inv in Hg as [Honce _]. }
    split; [done|]. rewrite filtered_df_once in Hf by done. by injection Hf as <-.
  - right. split; [done|]. rewrite filtered_df_absent in Hf by done. by injection Hf.
Qed.

(** X9.  Filtering a filtered frame again keeps the rows that pass both
    selections: it is the filter by the regions common to the two, and
    filtering twice by the same selection changes nothing more. *)
Theorem filters_compose df chosen chosen' fdf fdf' :
  filtered_df df chosen = Ok fdf →
  filtered_df fdf chosen' = Ok fdf' →
  filtered_df df (list_intersection chosen chosen') = Ok fdf'
  ∧ filtered_df fdf' chosen' = Ok fdf'.
Proof.
  intros [[Honce ->]|[Hno ->]]%filtered_df_Ok_inv Hf'.
  - rewrite filtered_df_once in Hf' by done. simpl in Hf'. injection Hf' as <-.
    rewrite !filtered_df_once by done. simpl.
    rewrite !list_filter_filter. split; f_equal; f_equal.
    + apply list_filter_iff. intros r. rewrite list_elem_of_intersection. tauto.
    + apply list_filter_iff. intros r. tauto.
  - rewrite filtered_df_absent in Hf' by done. injection Hf' as <-.
    by rewrite !filtered_df_absent.
Qed.

(** X10.  The filter never adds, reorders or reshapes anything: the labels are
    kept, the rows of the result are rows of the frame in their order, and a
    rectangular frame stays rectangular. *)
Theorem filtered_rows_sublist df chosen fdf :
  filtered_df df chosen = Ok fdf →
  columns fdf = columns df
  ∧ values fdf `sublist_of` values df
  ∧ length (values fdf) ≤ length (values df)
  ∧ (rectangular df → rectangular fdf).
Proof.
  intros [[Honce ->]|[Hno ->]]%filtered_df_Ok_inv; simpl.
  - split; [done|]. split; [apply sublist_filter|]. split; [apply length_filter|].
    unfold rectangular. simpl. intros Hr. apply Forall_forall. intros r Hin.
    apply list_elem_of_filter in Hin as [_ Hin]. by eapply Forall_forall in Hr.
  - done.
Qed.

(** X11.  Picking every option of the selector, in any order, gives the
    whole frame back, and so does the first display when the column has at
    most two regions. *)
Theorem selecting_all_regions_keeps_frame df (choice : Series) :
  let options := uniques [] (map (row_get "region" (columns df)) (values df)) in
  occurrences "region" (columns df) = 1 →
  (Forall (λ c, c ∈ choice) options →
   filtered_df df (multiselect options (take 2 options) (picked choice)) = Ok df)
  ∧ (length options ≤ 2 →
     filtered_df df (multiselect options (take 2 options) untouched) = Ok df).
Proof.
  intros options Honce.
  assert (Hfilter : ∀ {A} (P : A → Prop) `{!∀ x, Decision (P x)} (xs : list A),
            Forall P xs → filter P xs = xs).
  { intros A P ? xs HP. induction HP as [|x xs Hx _ IH]; [done|].
    by rewrite filter_cons, decide_True, IH. }
  assert (Hall : ∀ chosen, Forall (λ c, c ∈ chosen) options →
                           filtered_df df chosen = Ok df).
  { intros chosen Hch. rewrite filtered_df_once by done.
    destruct df as [cols rows]. simpl in *.
    f_equal. f_equal. apply Hfilter. apply Forall_forall. intros r Hr.
    rewrite Forall_forall in Hch. apply Hch.
    unfold options. rewrite uniques_elem, elem_of_nil.
    split; [|tauto]. by apply list_elem_of_fmap_2. }
  split.
  - intros Hkeep. simpl. by apply Hall.
  - intros Hle. simpl. rewrite take_ge by done. apply Hall.
    by apply Forall_forall.
Qed.

(** X12.  The first display shows the rows of the first two regions of the column
    and no other: with three regions or more in the column, rows are left
    out before the user has chosen anything. *)
Theorem first_display_shows_two_regions df :
  let options := uniques [] (map (row_get "region" (columns df)) (values df)) in
  occurrences "region" (columns df) = 1 →
  ∃ fdf,
    filtered_df df (multiselect options (take 2 options) untouched) = Ok fdf
    ∧ (∀ r, r ∈ values fdf
            ↔ r ∈ values df ∧ row_get "region" (columns df) r ∈ take 2 options)
    ∧ (2 < length options → length (values fdf) < length (values df)).
Proof.
  intros options Honce. rewrite filtered_df_once by done. eexists. split; [done|].
  simpl. split; [intros r; rewrite list_elem_of_filter; tauto|].
  intros Hlen. destruct (lookup_lt_is_Some_2 options 2 Hlen) as [c Hc].
  assert (Hin : c ∈ options) by (by eapply list_elem_of_lookup_2).
  unfold options in Hin. rewrite uniques_elem in Hin. destruct Hin as [Hin _].
  apply list_elem_of_fmap in Hin as (r & -> & Hr).
  apply (length_filter_lt _ _ r); [done|].
  pose proof (uniques_NoDup [] (map (row_get "region" (columns df)) (values df)))
    as Hnd.
  fold options in Hnd. rewrite <-(take_drop 2 options) in Hnd.
  apply NoDup_app in Hnd as (_ & Hdis & _). intros Htake.
  apply (Hdis _ Htake). rewrite (drop_S _ _ _ Hc). by left.
Qed.

(** X13.  Two columns called region stop the script: the frame is loaded, the
    title and the sidebar header are shown, and the line that lists the
    regions raises an exception that nothing catches; no tab shows
    anything. *)
Theorem duplicated_region_stops_script fs w df :
  load_data fs = ([], Ok (Some df)) →
  2 ≤ occurrences "region" (columns df) →
  ∃ l, app fs w
       = (l, uncaught (AttributeError "'DataFrame' object has no attribute 'unique'"))
       ∧ l = [(page, title "📊 Retail Sales Visualizer");
              (page, markdown "Analyzing sales trends and profitability");
              (sidebar, header "Filters")]
       ∧ figures l = [] ∧ warnings l = [].
Proof.
  intros Hl Hdup. eexists. split; [|done].
  unfold app. rewrite Hl. unfold dashboard, available_regions.
  rewrite decide_True by (apply occurrences_pos; lia).
  destruct (getitem_duplicated df "region" Hdup) as [sub ->]. done.
Qed.

End FilterExtras.

(** ** The upload block *)

Section UploadExtras.
Context `{Backend}.
Implicit Types (fdf : DataFrame) (cloud : Cloud) (w : UploadWidgets) (l : list effect).

Lemma saved_files_app l1 l2 : saved_files (l1 ++ l2) = saved_files l1 ++ saved_files l2.
Proof. apply omap_app. Qed.
Lemma uploads_app l1 l2 : uploads (l1 ++ l2) = uploads l1 ++ uploads l2.
Proof. apply omap_app. Qed.
Lemma successes_app l1 l2 : successes (l1 ++ l2) = successes l1 ++ successes l2.
Proof. apply omap_app. Qed.
Lemma sidebar_errors_app l1 l2 :
  sidebar_errors (l1 ++ l2) = sidebar_errors l1 ++ sidebar_errors l2.
Proof. apply omap_app. Qed.

Lemma only_saves_app fdf l1 l2 :
  only_saves fdf l1 → only_saves fdf l2 → only_saves fdf (l1 ++ l2).
Proof. apply Forall_app_2. Qed.

Lemma only_saves_projections fdf l :
  only_saves fdf l → uploads l = [] ∧ successes l = [] ∧ sidebar_errors l = [].
Proof.
  induction 1 as [|e l (name & -> & _) _ IH]; [done|]. simpl. done.
Qed.

Lemma save_visualizations_log cloud fdf :
  ∃ l r, save_visualizations cloud fdf = (l, r) ∧ only_saves fdf l
         ∧ (Forall (λ name, write_png cloud name = Ok tt) chart_files → r = Ok tt).
Proof.
  unfold save_visualizations, plt_savefig, only_saves, expected_figures, has, chart_files.
  destruct (bool_decide ("month_year" ∈ columns fdf) && bool_decide ("sales" ∈ columns fdf));
  destruct (bool_decide ("region" ∈ columns fdf) && bool_decide ("sales" ∈ columns fdf));
  destruct (bool_decide ("profit" ∈ columns fdf)
            && bool_decide ("discount" ∈ columns fdf));
  destruct (write_png cloud "monthly_sales.png") as [[]|e1] eqn:E1;
  destruct (write_png cloud "region_sales.png") as [[]|e2] eqn:E2;
  destruct (write_png cloud "profit_discount.png") as [[]|e3] eqn:E3;
  simpl; eexists _, _; (split; [reflexivity|]);
  (split; [repeat (first [apply List.Forall_nil
                         |apply List.Forall_cons; [eexists; split; [reflexivity|done]|]])|]);
  intros Hall; repeat (apply Forall_cons in Hall as [? Hall]); congruence.
Qed.

Lemma save_visualizations_cases cloud fdf :
  ∃ ls rs,
    save_visualizations cloud fdf = (ls, rs)
    ∧ uploads ls = [] ∧ successes ls = [] ∧ sidebar_errors ls = []
    ∧ ((rs = Ok tt
        ∧ (saved_files ls).*1 = attempted (columns fdf)
        ∧ Forall (λ name, write_png cloud name = Ok tt) (attempted (columns fdf)))
       ∨ (∃ e n name,
            rs = Raise e
            ∧ (saved_files ls).*1 = take n (attempted (columns fdf))
            ∧ attempted (columns fdf) !! n = Some name
            ∧ write_png cloud name = Raise e
            ∧ Forall (λ name, write_png cloud name = Ok tt)
                     (take n (attempted (columns fdf))))).
Proof.
  unfold save_visualizations, plt_savefig, attempted, has.
  destruct (bool_decide ("month_year" ∈ columns fdf) && bool_decide ("sales" ∈ columns fdf));
  destruct (bool_decide ("region" ∈ columns fdf) && bool_decide ("sales" ∈ columns fdf));
  destruct (bool_decide ("profit" ∈ columns fdf)
            && bool_decide ("discount" ∈ columns fdf));
  destruct (write_png cloud "monthly_sales.png") as [[]|e1] eqn:E1;
  destruct (write_png cloud "region_sales.png") as [[]|e2] eqn:E2;
  destruct (write_png cloud "profit_discount.png") as [[]|e3] eqn:E3;
  simpl; eexists _, _; (split; [reflexivity|]);
  (split; [reflexivity|]); (split; [reflexivity|]); (split; [reflexivity|]);
  first
    [ left; split; [reflexivity|]; split; [reflexivity|];
      repeat (first [apply List.Forall_nil|apply List.Forall_cons; [assumption|]])
    | right; eexists _, 0, _; repeat (split; [reflexivity|]);
      split; [assumption|]; simpl;
      repeat (first [apply List.Forall_nil|apply List.Forall_cons; [assumption|]])
    | right; eexists _, 1, _; repeat (split; [reflexivity|]);
      split; [assumption|]; simpl;
      repeat (first [apply List.Forall_nil|apply List.Forall_cons; [assumption|]])
    | right; eexists _, 2, _; repeat (split; [reflexivity|]);
      split; [assumption|]; simpl;
      repeat (first [apply List.Forall_nil|apply List.Forall_cons; [assumption|]]) ].
Qed.

Lemma attempted_length cols : length (attempted cols) = length (expected_figures cols).
Proof.
  unfold attempted, expected_figures.
  by destruct (has "month_year" cols && has "sales" cols),
              (has "region" cols && has "sales" cols),
              (has "profit" cols && has "discount" cols).
Qed.

Lemma upload_all_cases cloud bucket_name :
  ∃ l, try_except_io (upload_all cloud bucket_name) upload_handler = (l, Ok tt)
       ∧ saved_files l = []
       ∧ ((import_upload_to_gcp cloud = Ok tt
           ∧ Forall (λ file, upload_to_gcp cloud bucket_name file file = Ok tt) chart_files
           ∧ uploads l = all_uploads bucket_name
           ∧ successes l = ["Upload completed!"]
           ∧ sidebar_errors l = [])
          ∨ (∃ e n,
               n < 3
               ∧ uploads l = take n (all_uploads bucket_name)
               ∧ successes l = []
               ∧ sidebar_errors l = ["Upload failed: " +:+ exn_str e]
               ∧ (import_upload_to_gcp cloud = Raise e ∧ n = 0
                  ∨ import_upload_to_gcp cloud = Ok tt
                    ∧ ∃ file, chart_files !! n = Some file
                              ∧ upload_to_gcp cloud bucket_name file file = Raise e))).
Proof.
  unfold upload_all, upload_one, upload_handler, all_uploads, chart_files.
  destruct (import_upload_to_gcp cloud) as [[]|e0] eqn:E0; simpl.
  2:{ eexists. split; [done|]. split; [done|]. right. exists e0, 0. eauto 10. }
  destruct (upload_to_gcp cloud bucket_name "monthly_sales.png" "monthly_sales.png")
    as [[]|e1] eqn:E1; simpl.
  2:{ eexists. split; [done|]. split; [done|]. right. exists e1, 0.
      repeat (split; [done || lia|]). right. eauto. }
  destruct (upload_to_gcp cloud bucket_name "region_sales.png" "region_sales.png")
    as [[]|e2] eqn:E2; simpl.
  2:{ eexists. split; [done|]. split; [done|]. right. exists e2, 1.
      repeat (split; [done || lia|]). right. eauto. }
  destruct (upload_to_gcp cloud bucket_name "profit_discount.png" "profit_discount.png")
    as [[]|e3] eqn:E3; simpl.
  2:{ eexists. split; [done|]. split; [done|]. right. exists e3, 2.
      repeat (split; [done || lia|]). right. eauto. }
  eexists. split; [done|]. split; [done|]. left.
  split; [done|]. split; [|done]. by repeat constructor.
Qed.

Lemma gcp_upload_unfold cloud w fdf ls rs :
  enable_gcp_upload w = true →
  save_visualizations cloud fdf = (ls, rs) →
  gcp_upload cloud w fdf
  = match rs with
    | Ok _ =>
        if upload_button w then
          (ls ++ (try_except_io
                    (upload_all cloud (default "your-bucket-name" (bucket_text w)))
                    upload_handler).1, Ok tt)
        else (ls, Ok tt)
    | Raise e =>
        (ls ++ [sidebar_error ("Visualization save failed: " +:+ exn_str e)], Ok tt)
    end.
Proof.
  intros He Hs. unfold gcp_upload. rewrite He, Hs.
  destruct rs as [[]|e]; [|done]. destruct (upload_button w).
  - destruct (upload_all_cases cloud (default "your-bucket-name" (bucket_text w)))
      as (lu & Hlu & _).
    unfold upload_handler in *. cbn [mbind io_bind]. rewrite Hlu. done.
  - cbn. by rewrite app_nil_r.
Qed.

Lemma current_figure_last fdf :
  occurrences "month_year" (columns fdf) ≤ 1 →
  occurrences "region" (columns fdf) ≤ 1 →
  current_figure fdf = last (expected_figures (columns fdf)).
Proof.
  intros Hmy Hreg. unfold current_figure.
  destruct (tab1_spec fdf Hmy) as (l1 & H1 & _ & Hf1 & _).
  destruct (tab2_spec fdf Hreg) as (l2 & H2 & _ & Hf2 & _).
  destruct (tab3_spec fdf) as (l3 & H3 & _ & Hf3 & _).
  cbn [mbind ui_bind]. rewrite H1, H2, H3. cbn.
  rewrite !figures_app, Hf1, Hf2, Hf3. done.
Qed.

(** X14.  Whatever the disk and the cloud do, the block ends without an exception
    and with at most one error in the sidebar; it does nothing with the box
    unticked and uploads nothing before the button is pressed; a success
    message is never accompanied by an error. *)
Theorem upload_block_contained cloud w fdf :
  ∃ l, gcp_upload cloud w fdf = (l, Ok tt)
       ∧ length (sidebar_errors l) ≤ 1
       ∧ (enable_gcp_upload w = false → l = [])
       ∧ (upload_button w = false → uploads l = [] ∧ successes l = [])
       ∧ (successes l ≠ [] → sidebar_errors l = []).
Proof.
  destruct (enable_gcp_upload w) eqn:He.
  2:{ exists []. unfold gcp_upload. rewrite He. split; [done|]. simpl.
      repeat split; try done; lia. }
  destruct (save_visualizations_log cloud fdf) as (ls & rs & Hs & Hsaves & _).
  apply only_saves_projections in Hsaves as (Hu & Hsu & Her).
  rewrite (gcp_upload_unfold _ _ _ _ _ He Hs). destruct rs as [[]|e].
  - destruct (upload_button w) eqn:Hb.
    + destruct (upload_all_cases cloud (default "your-bucket-name" (bucket_text w)))
        as (lu & -> & _ & Hcase).
      eexists. split; [done|]. simpl.
      rewrite sidebar_errors_app, successes_app, Her, Hsu. simpl.
      destruct Hcase as [(_ & _ & _ & -> & ->)|(e & n & _ & _ & -> & -> & _)];
        simpl; repeat split; try done; lia.
    + eexists. split; [done|]. rewrite Her, Hu, Hsu. simpl. repeat split; try done; lia.
  - eexists. split; [done|].
    rewrite sidebar_errors_app, successes_app, uploads_app, Her, Hsu, Hu. simpl.
    repeat split; try done; lia.
Qed.

(** X15.  Every file the block writes holds the same figure, the one drawn last
    by the tabs, whatever the name of the file: with profit and discount
    there, monthly_sales.png and region_sales.png hold the correlation
    heatmap too.  No file is written blank. *)
Theorem saved_files_share_last_figure cloud w fdf l r :
  occurrences "month_year" (columns fdf) ≤ 1 →
  occurrences "region" (columns fdf) ≤ 1 →
  gcp_upload cloud w fdf = (l, r) →
  Forall (λ file, file.2 = last (expected_figures (columns fdf)) ∧ is_Some file.2)
         (saved_files l)
  ∧ ("profit" ∈ columns fdf → "discount" ∈ columns fdf →
     Forall (λ file, file.2 = Some correlation_heatmap) (saved_files l)).
Proof.
  intros Hmy Hreg Hg.
  assert (Hall : Forall (λ file, file.2 = last (expected_figures (columns fdf))
                                 ∧ is_Some file.2) (saved_files l)).
  { destruct (enable_gcp_upload w) eqn:He.
    2:{ unfold gcp_upload in Hg. rewrite He in Hg. by injection Hg as <- <-. }
    destruct (save_visualizations_log cloud fdf) as (ls & rs & Hs & Hsaves & _).
    rewrite (gcp_upload_unfold _ _ _ _ _ He Hs) in Hg.
    assert (Hls : Forall (λ file, file.2 = last (expected_figures (columns fdf))
                                  ∧ is_Some file.2) (saved_files ls)).
    { clear Hg Hs. induction Hsaves as [|e ls (name & -> & Hne) _ IH]; [done|].
      simpl. constructor; [|done]. simpl.
      rewrite current_figure_last by done. split; [done|].
      destruct (expected_figures (columns fdf)) as [|x xs] using rev_ind; [done|].
      rewrite last_snoc. by eexists. }
    destruct rs as [[]|e].
    - destruct (upload_button w).
      + destruct (upload_all_cases cloud (default "your-bucket-name" (bucket_text w)))
          as (lu & Hlu & Hnone & _).
        rewrite Hlu in Hg. injection Hg as <- <-.
        by rewrite saved_files_app, Hnone, app_nil_r.
      + by injection Hg as <- <-.
    - injection Hg as <- <-. rewrite saved_files_app. simpl. by rewrite app_nil_r. }
  split; [done|]. intros Hp Hd. eapply Forall_impl; [exact Hall|].
  intros file [-> _]. unfold expected_figures, has.
  rewrite (bool_decide_eq_true_2 _ Hp), (bool_decide_eq_true_2 _ Hd). simpl.
  by rewrite !app_assoc, last_snoc.
Qed.

(** X16.  With every file written, the files are those of the tabs that have
    drawn, one for each figure, in the order of the tabs: monthly_sales.png,
    region_sales.png, profit_discount.png. *)
Theorem saved_files_follow_tabs cloud w fdf l r :
  enable_gcp_upload w = true →
  Forall (λ name, write_png cloud name = Ok tt) (attempted (columns fdf)) →
  gcp_upload cloud w fdf = (l, r) →
  (saved_files l).*1 = attempted (columns fdf)
  ∧ length (saved_files l) = length (expected_figures (columns fdf))
  ∧ attempted (columns fdf) `sublist_of` chart_files.
Proof.
  intros He Hw Hg.
  assert (Hsub : attempted (columns fdf) `sublist_of` chart_files).
  { unfold attempted, chart_files.
    destruct (has "month_year" (columns fdf) && has "sales" (columns fdf)),
             (has "region" (columns fdf) && has "sales" (columns fdf)),
             (has "profit" (columns fdf) && has "discount" (columns fdf)); simpl;
      repeat (first [apply sublist_nil|apply sublist_skip|apply sublist_cons]). }
  destruct (save_visualizations_cases cloud fdf)
    as (ls & rs & Hs & _ & _ & _ & Hcase).
  rewrite (gcp_upload_unfold _ _ _ _ _ He Hs) in Hg.
  destruct Hcase as [(-> & Hnames & _)|(e & n & name & _ & _ & Hn & Hfail & _)].
  2:{ apply list_elem_of_lookup_2 in Hn. rewrite Forall_forall in Hw.
      rewrite (Hw _ Hn) in Hfail. done. }
  assert (Hl : saved_files l = saved_files ls).
  { destruct (upload_button w).
    - destruct (upload_all_cases cloud (default "your-bucket-name" (bucket_text w)))
        as (lu & Hlu & Hnone & _).
      rewrite Hlu in Hg. injection Hg as <- <-.
      by rewrite saved_files_app, Hnone, app_nil_r.
    - by injection Hg as <- <-. }
  rewrite Hl. split; [done|]. split; [|done].
  by rewrite <-attempted_length, <-Hnames, length_fmap.
Qed.

(** X17.  With the box ticked, the button pressed and the files written, the
    three uploads are made in the order monthly, region, profit, under the
    name of the file, and stop at the first call that raises: either all
    three return and the sidebar says so, or the sidebar shows the error of
    the import or of the first call that failed and only the uploads before
    it were made. *)
Theorem upload_all_or_first_error cloud w fdf l r :
  enable_gcp_upload w = true →
  upload_button w = true →
  Forall (λ name, write_png cloud name = Ok tt) (attempted (columns fdf)) →
  gcp_upload cloud w fdf = (l, r) →
  let bucket_name := default "your-bucket-name" (bucket_text w) in
  (import_upload_to_gcp cloud = Ok tt
   ∧ Forall (λ file, upload_to_gcp cloud bucket_name file file = Ok tt) chart_files
   ∧ uploads l = all_uploads bucket_name
   ∧ successes l = ["Upload completed!"]
   ∧ sidebar_errors l = [])
  ∨ (∃ e n,
       n < 3
       ∧ uploads l = take n (all_uploads bucket_name)
       ∧ successes l = []
       ∧ sidebar_errors l = ["Upload failed: " +:+ exn_str e]
       ∧ (import_upload_to_gcp cloud = Raise e ∧ n = 0
          ∨ import_upload_to_gcp cloud = Ok tt
            ∧ ∃ file, chart_files !! n = Some file
                      ∧ upload_to_gcp cloud bucket_name file file = Raise e)).
Proof.
  intros He Hb Hw Hg bucket_name.
  destruct (save_visualizations_cases cloud fdf)
    as (ls & rs & Hs & Hu & Hsu & Her & Hcase).
  assert (Hrs : rs = Ok tt).
  { destruct Hcase as [(-> & _)|(e & n & name & _ & _ & Hn & Hfail & _)]; [done|].
    apply list_elem_of_lookup_2 in Hn. rewrite Forall_forall in Hw.
    rewrite (Hw _ Hn) in Hfail. done. }
  subst rs. rewrite (gcp_upload_unfold _ _ _ _ _ He Hs), Hb in Hg.
  destruct (upload_all_cases cloud bucket_name) as (lu & Hlu & _ & Hup).
  fold bucket_name in Hg. rewrite Hlu in Hg. injection Hg as <- <-.
  rewrite uploads_app, successes_app, sidebar_errors_app, Hu, Hsu, Her. exact Hup.
Qed.

(** X18.  What is uploaded does not depend on what was written: for a frame none
    of whose tabs can draw, no file is written, and yet the three file names
    are uploaded and the success message is shown when the cloud accepts
    them. *)
Theorem uploads_ignore_saved_files cloud w fdf l r :
  enable_gcp_upload w = true →
  upload_button w = true →
  expected_figures (columns fdf) = [] →
  import_upload_to_gcp cloud = Ok tt →
  (∀ bucket_name file, upload_to_gcp cloud bucket_name file file = Ok tt) →
  gcp_upload cloud w fdf = (l, r) →
  r = Ok tt
  ∧ saved_files l = []
  ∧ uploads l = all_uploads (default "your-bucket-name" (bucket_text w))
  ∧ successes l = ["Upload completed!"].
Proof.
  intros He Hb Hnone Hi Hup Hg.
  destruct (save_visualizations_log cloud fdf) as (ls & rs & Hs & Hsaves & _).
  assert (Hnil : ls = []).
  { unfold only_saves in Hsaves. destruct ls as [|e ls]; [done|].
    apply Forall_cons in Hsaves as [(name & _ & Hne) _]. by rewrite Hnone in Hne. }
  subst ls.
  assert (Hrs : rs = Ok tt).
  { revert Hs Hnone. unfold save_visualizations, expected_figures, has.
    destruct (bool_decide ("month_year" ∈ columns fdf)
              && bool_decide ("sales" ∈ columns fdf)); [done|].
    destruct (bool_decide ("region" ∈ columns fdf)
              && bool_decide ("sales" ∈ columns fdf)); [done|].
    destruct (bool_decide ("profit" ∈ columns fdf)
              && bool_decide ("discount" ∈ columns fdf)); [done|].
    intros Hs' _. cbn in Hs'. congruence. }
  subst rs.
  rewrite (gcp_upload_unfold _ _ _ _ _ He Hs), Hb in Hg.
  destruct (upload_all_cases cloud (default "your-bucket-name" (bucket_text w)))
    as (lu & Hlu & Hsaved & Hcase).
  rewrite Hlu in Hg. injection Hg as <- <-. simpl.
  destruct Hcase as [(_ & _ & -> & -> & _)|(e & n & _ & _ & _ & _ & Hfail)]; [done|].
  destruct Hfail as [[Hfail _]|(_ & file & _ & Hfail)]; [congruence|].
  by rewrite Hup in Hfail.
Qed.

(** X19.  A file that cannot be written ends the block: the files before it
    are written, the sidebar shows the error of the first save that failed,
    and nothing is uploaded even with the button pressed. *)
Theorem save_failure_skips_upload cloud w fdf :
  enable_gcp_upload w = true →
  Exists (λ name, ∃ e, write_png cloud name = Raise e) (attempted (columns fdf)) →
  ∃ l e n name,
    gcp_upload cloud w fdf = (l, Ok tt)
    ∧ attempted (columns fdf) !! n = Some name
    ∧ write_png cloud name = Raise e
    ∧ Forall (λ name, write_png cloud name = Ok tt) (take n (attempted (columns fdf)))
    ∧ (saved_files l).*1 = take n (attempted (columns fdf))
    ∧ uploads l = [] ∧ successes l = []
    ∧ sidebar_errors l = ["Visualization save failed: " +:+ exn_str e].
Proof.
  intros He Hex.
  destruct (save_visualizations_cases cloud fdf)
    as (ls & rs & Hs & Hu & Hsu & Her & Hcase).
  rewrite (gcp_upload_unfold _ _ _ _ _ He Hs).
  destruct Hcase as [(_ & _ & Hall)|(e & n & name & -> & Hnames & Hn & Hfail & Hbefore)].
  { apply Exists_exists in Hex as (name & Hin & e & Hfail).
    rewrite Forall_forall in Hall. rewrite (Hall _ Hin) in Hfail. done. }
  eexists _, e, n, name. split; [done|]. repeat (split; [done|]).
  rewrite saved_files_app, uploads_app, successes_app, sidebar_errors_app.
  rewrite Hu, Hsu, Her. simpl. by rewrite app_nil_r.
Qed.

End UploadExtras.

(** ** The column summary *)

Section SummaryExtras.
Context `{Backend}.
Implicit Types (df : DataFrame) (r s : Series) (cols : list string).

Lemma isna_sum_lookup df i :
  i < length (columns df) →
  isna_sum df !! i = Some (length (filter (λ c, c = NaN) (column_at df i))).
Proof.
  intros Hi. unfold isna_sum. by rewrite list_lookup_fmap, lookup_seq_lt.
Qed.

Lemma nunique_lookup df i :
  i < length (columns df) →
  nunique df !! i
  = Some (length (uniques [] (filter (λ c, c ≠ NaN) (column_at df i)))).
Proof.
  intros Hi. unfold nunique. by rewrite list_lookup_fmap, lookup_seq_lt.
Qed.

Lemma isna_notna_length (s : list (cell float)) :
  length (filter (λ c, c = NaN) s) + length (filter (λ c, c ≠ NaN) s) = length s.
Proof.
  induction s as [|c s IH]; [done|].
  rewrite !filter_cons.
  destruct (decide (c = NaN)) as [Heq|Hne].
  - rewrite decide_False by (by intros []). cbn [length plus]. f_equal. exact IH.
  - rewrite decide_True by done. cbn [length]. rewrite Nat.add_succ_r. f_equal.
    exact IH.
Qed.

Lemma uniques_nil_inv s : uniques [] s = [] → s = [].
Proof.
  destruct s as [|c s]; [done|]. simpl.
  destruct (decide (c ∈ [])) as [Hin|_]; [by apply elem_of_nil in Hin|done].
Qed.

(** X20.  The summary has a line per column; in each line the missing values and
    the distinct values together are at most the rows, and a column shows no
    distinct value exactly when all of it is missing. *)
Theorem column_summary_bounds df i :
  i < length (columns df) →
  length (isna_sum df) = length (columns df)
  ∧ length (nunique df) = length (columns df)
  ∧ ∃ missing distinct,
      isna_sum df !! i = Some missing
      ∧ nunique df !! i = Some distinct
      ∧ missing + distinct ≤ length (values df)
      ∧ (distinct = 0 ↔ missing = length (values df)).
Proof.
  intros Hi. unfold isna_sum at 1, nunique at 1. rewrite !length_fmap, !length_seq.
  split; [done|]. split; [done|].
  rewrite isna_sum_lookup, nunique_lookup by done. eexists _, _.
  split; [done|]. split; [done|].
  pose proof (isna_notna_length (column_at df i)) as Hsplit.
  pose proof (sublist_length _ _
                (uniques_sublist [] (filter (λ c, c ≠ NaN) (column_at df i)))) as Hle.
  assert (Hrows : length (column_at df i) = length (values df))
    by (unfold column_at; by rewrite length_fmap).
  unfold Series in *. split; [lia|]. split.
  - intros Hz. apply nil_length_inv, uniques_nil_inv in Hz. rewrite Hz in Hsplit.
    simpl in Hsplit. lia.
  - intros Hm. assert (Hnil : filter (λ c, c ≠ NaN) (column_at df i) = []).
    { apply nil_length_inv. unfold Series. lia. }
    unfold Series in Hnil. by rewrite Hnil.
Qed.

Lemma row_get_lookup label cols r i :
  occurrences label cols = 1 → cols !! i = Some label → length r = length cols →
  r !! i = Some (row_get label cols r).
Proof.
  revert r i. induction cols as [|c cols IH]; intros [|v r] i Honce Hi Hlen;
    simplify_eq/=.
  unfold occurrences in Honce. rewrite filter_cons in Honce.
  destruct (decide (c = label)) as [->|Hne]; simpl in Honce.
  - destruct i as [|i]; [done|]. simpl in Hi.
    assert (label ∈ cols) as Hin%occurrences_pos by (by eapply list_elem_of_lookup_2).
    unfold occurrences in Hin. lia.
  - destruct i as [|i]; simplify_eq/=. by apply IH.
Qed.

Lemma column_at_label df label i :
  rectangular df → occurrences label (columns df) = 1 →
  columns df !! i = Some label →
  column_at df i = map (row_get label (columns df)) (values df).
Proof.
  intros Hrect Honce Hi. unfold column_at. apply Forall_fmap_ext.
  eapply Forall_impl; [exact Hrect|]. intros r Hlen. simpl.
  by rewrite (row_get_lookup label (columns df) r i).
Qed.

Lemma uniques_fmap_length (f : cell float → cell float) s :
  length (uniques [] (map f s)) ≤ length (uniques [] s).
Proof.
  rewrite <-(length_fmap f (uniques [] s)). apply submseteq_length, NoDup_submseteq.
  - apply uniques_NoDup.
  - intros c. rewrite uniques_elem, !list_elem_of_fmap.
    intros [(x & -> & Hx) _]. exists x. split; [done|].
    rewrite uniques_elem. split; [done|apply not_elem_of_nil].
Qed.

Lemma month_label_missing a : datetimelike a → month_label a = NaN ↔ a = NaN.
Proof. intros [->|(d & -> & _)]; simpl; split; by intros. Qed.

Lemma isna_month_label (s : list (cell float)) :
  Forall datetimelike s →
  length (filter (λ c, c = NaN) (map month_label s))
  = length (filter (λ c, c = NaN) s).
Proof.
  induction 1 as [|a s Ha _ IH]; [done|].
  cbn [map]. rewrite !filter_cons.
  destruct (decide (a = NaN)) as [Heq|Hne].
  - rewrite decide_True by (by apply (month_label_missing a Ha)).
    cbn [length]. f_equal. exact IH.
  - rewrite decide_False; [done|].
    intros Hm. by apply (month_label_missing a Ha) in Hm.
Qed.

Lemma notna_month_label (s : list (cell float)) :
  Forall datetimelike s →
  filter (λ c, c ≠ NaN) (map month_label s)
  = map month_label (filter (λ c, c ≠ NaN) s).
Proof.
  induction 1 as [|a s Ha _ IH]; [done|].
  cbn [map]. rewrite !filter_cons.
  destruct (decide (a ≠ NaN)) as [Hne|Heq].
  - rewrite decide_True; [cbn [map]; f_equal; exact IH|].
    intros Hm. by apply (month_label_missing a Ha) in Hm.
  - rewrite decide_False; [done|].
    intros Hm. apply Heq. intros Ha'. by apply (month_label_missing a Ha) in Ha'.
Qed.

(** X21.  In the summary of a returned frame the line of month_year shows as many
    missing values as the line of order_date, and at most as many distinct
    values: the labels are computed from the dates, and several dates share
    a month. *)
Theorem month_year_summary_follows_order_date fs l df i j :
  (∀ enc raw, read_csv fs csv_path enc = Ok raw → rectangular raw) →
  load_data fs = (l, Ok (Some df)) →
  occurrences "month_year" (columns df) = 1 →
  columns df !! i = Some "order_date" →
  columns df !! j = Some "month_year" →
  ∃ missing dates months,
    isna_sum df !! i = Some missing ∧ isna_sum df !! j = Some missing
    ∧ nunique df !! i = Some dates ∧ nunique df !! j = Some months
    ∧ months ≤ dates.
Proof.
  intros Hrect Hl Hmy Hi Hj.
  destruct (load_data_rows fs l df Hrect Hl)
    as (enc & raw & f & _ & _ & Honce & Hconv & Hcols & HF).
  assert (Hall : Forall (λ r', length r' = length (columns df)
            ∧ datetimelike (row_get "order_date" (columns df) r')
            ∧ row_get "month_year" (columns df) r'
              = month_label (row_get "order_date" (columns df) r')) (values df)).
  { eapply Forall2_Forall_r; [exact HF|]. apply Forall_true. cbv beta.
    intros r r' (a & m & Ha & Hm & Hlen & Hget). split; [done|].
    rewrite !Hget. simpl. unfold month_label. rewrite Hm.
    split; [|done]. by eapply conversion_datetimelike. }
  assert (Hrd : rectangular df).
  { eapply Forall_impl; [exact Hall|]. by intros r' [? _]. }
  assert (Hod : occurrences "order_date" (columns df) = 1).
  { apply load_data_Some in Hl as (_ & _ & enc' & raw' & _ & _ & Hp).
    rewrite (preprocess_occurrences _ _ "order_date" Hp) by done.
    by pose proof (preprocess_spec _ _ Hp) as (? & _). }
  pose proof (lookup_lt_Some _ _ _ Hi) as Hilt.
  pose proof (lookup_lt_Some _ _ _ Hj) as Hjlt.
  rewrite !isna_sum_lookup, !nunique_lookup by done.
  rewrite (column_at_label df "order_date" i), (column_at_label df "month_year" j)
    by done.
  set (dates := map (row_get "order_date" (columns df)) (values df)).
  assert (Hdates : Forall datetimelike dates).
  { apply Forall_fmap. eapply Forall_impl; [exact Hall|]. by intros r' (_ & ? & _). }
  assert (Hmonths : map (row_get "month_year" (columns df)) (values df)
                    = map month_label dates).
  { unfold dates. rewrite <-list_fmap_compose. apply Forall_fmap_ext.
    eapply Forall_impl; [exact Hall|]. by intros r' (_ & _ & ?). }
  rewrite Hmonths. clearbody dates.
  unfold Series in *.
  rewrite (isna_month_label dates), (notna_month_label dates) by done. eexists _, _, _.
  repeat (split; [done|]). apply uniques_fmap_length.
Qed.

End SummaryExtras.

(** ** The properties on concrete files *)

Section Instances.
Import Demo DemoCloud.
#[local] Existing Instance backend.

(** C1 as stated fails.  Two ASCII files that exist and that every encoding
    reads: one has no order date column, the other has two columns that
    normalize to sales.  For both [load_data] returns [None] with the error
    of the exhausted encodings, so it is not true that every file that
    exists and can be read gives a frame. *)
Lemma readable_files_rejected :
  (path_exists (ascii_file without_date) csv_path = true
   ∧ Forall (λ enc, read_csv (ascii_file without_date) csv_path enc = Ok without_date)
            encodings
   ∧ load_data (ascii_file without_date)
     = ([(page, error all_failed_message)], Ok None))
  ∧ (path_exists (ascii_file two_sales) csv_path = true
     ∧ Forall (λ enc, read_csv (ascii_file two_sales) csv_path enc = Ok two_sales)
              encodings
     ∧ load_data (ascii_file two_sales)
       = ([(page, error all_failed_message)], Ok None))
  ∧ ¬ (∀ fs : FileSystem,
         path_exists fs csv_path = true →
         (∃ enc raw, enc ∈ encodings ∧ read_csv fs csv_path enc = Ok raw) →
         ∃ l df, load_data fs = (l, Ok (Some df))).
Proof.
  split; [|split].
  - split; [reflexivity|]. split; [repeat constructor|]. reflexivity.
  - split; [reflexivity|]. split; [repeat constructor|]. reflexivity.
  - intros Hclaim. destruct (Hclaim (ascii_file without_date)) as (l & df & Hl).
    + reflexivity.
    + exists "utf-8", without_date. split; [by left|reflexivity].
    + change (([(page, error all_failed_message)], Ok None) = (l, Ok (Some df))) in Hl.
      discriminate Hl.
Qed.

(** C1, amended, on a file that is not UTF-8: the second encoding reads it,
    and its dates are all written day first. *)
Lemma load_data_succeeds_witness :
  path_exists (latin1_file superstore) csv_path = true
  ∧ (∃ enc raw,
       enc ∈ encodings ∧ read_csv (latin1_file superstore) csv_path enc = Ok raw
       ∧ acceptable raw)
  ∧ ∃ df, load_data (latin1_file superstore) = ([], Ok (Some df)).
Proof.
  assert (h1 : path_exists (latin1_file superstore) csv_path = true) by reflexivity.
  assert (h2 : ∃ enc raw,
             enc ∈ encodings ∧ read_csv (latin1_file superstore) csv_path enc = Ok raw
             ∧ acceptable raw).
  { exists "latin1", superstore. split; [right; by left|]. split; [reflexivity|].
    split; [vm_compute; reflexivity|].
    split; [repeat (constructor; [vm_compute; lia|]); constructor|].
    left. exists "%d/%m/%Y". eexists. split; [by left|reflexivity]. }
  split; [assumption|]. split; [assumption|].
  exact (proj1 (proj1 (load_data_succeeds (latin1_file superstore))) (conj h1 h2)).
Defined.

(** C2 as stated fails.  A file of two rows that every encoding reads, with
    its dates under the header Date: [load_data] returns [None], so that the
    two rows read give no row at all. *)
Lemma no_dataset_no_rows :
  path_exists (ascii_file dated) csv_path = true
  ∧ Forall (λ enc, read_csv (ascii_file dated) csv_path enc = Ok dated) encodings
  ∧ length (values dated) = 2
  ∧ load_data (ascii_file dated) = ([(page, error all_failed_message)], Ok None)
  ∧ ¬ (∀ (fs : FileSystem) enc raw,
         enc ∈ encodings → read_csv fs csv_path enc = Ok raw →
         ∃ l df, load_data fs = (l, Ok (Some df))
                 ∧ length (values df) = length (values raw)).
Proof.
  split; [reflexivity|]. split; [repeat constructor|]. split; [reflexivity|].
  split; [reflexivity|].
  intros Hclaim.
  destruct (Hclaim (ascii_file dated) "utf-8" dated) as (l & df & Hl & _).
  - by left.
  - reflexivity.
  - change (([(page, error all_failed_message)], Ok None) = (l, Ok (Some df))) in Hl.
    discriminate Hl.
Qed.

(** C2, amended, on a file whose second date is not in the format of the
    first: no format converts both, the permissive parser reads the first
    and nothing from the second, and both rows are returned. *)
Lemma load_data_preserves_rows_witness :
  load_data (ascii_file mixed_dates) = ([], Ok (Some mixed_dates_loaded))
  ∧ ∃ enc raw f,
      enc ∈ encodings
      ∧ read_csv (ascii_file mixed_dates) csv_path enc = Ok raw
      ∧ length (values mixed_dates_loaded) = length (values raw)
      ∧ conversion (date_column raw) date_formats f
      ∧ Forall2 (normalized f (map canonical (columns raw)) (columns mixed_dates_loaded))
                (values raw) (values mixed_dates_loaded)
      ∧ (Forall (λ fmt, ∃ e, to_datetime_format (a_Series (date_column raw)) fmt
                             = Raise e)
                date_formats →
         Forall2 (λ r r',
             length r = length (columns raw) →
             let c := row_get "order_date" (map canonical (columns raw)) r in
             let a := row_get "order_date" (columns mixed_dates_loaded) r' in
             let m := row_get "month_year" (columns mixed_dates_loaded) r' in
             a = coerce_cell (date_column raw) c
             ∧ (c = NaN → a = NaN ∧ m = NaN)
             ∧ (∀ d, c ≠ NaN → (∀ d', c ≠ Timestamp d') →
                     guess_datetime (date_column raw) c = Some d →
                     storable d = true →
                     a = Timestamp d ∧ m = Str (strftime_b_Y d))
             ∧ ((∀ d', c ≠ Timestamp d') →
                guess_datetime (date_column raw) c = None → a = NaN ∧ m = NaN))
           (values raw) (values mixed_dates_loaded)).
Proof.
  assert (h : load_data (ascii_file mixed_dates) = ([], Ok (Some mixed_dates_loaded)))
    by reflexivity.
  split; [assumption|].
  exact (load_data_preserves_rows (ascii_file mixed_dates) [] mixed_dates_loaded h).
Defined.

(** C3, amended, on the file [superstore], whose third row has no date. *)
Lemma month_year_follows_order_date_witness :
  (∀ enc raw, read_csv (ascii_file superstore) csv_path enc = Ok raw → rectangular raw)
  ∧ load_data (ascii_file superstore) = ([], Ok (Some superstore_loaded))
  ∧ "order_date" ∈ columns superstore_loaded
  ∧ "month_year" ∈ columns superstore_loaded
  ∧ rectangular superstore_loaded
  ∧ Forall (λ r,
      let a := row_get "order_date" (columns superstore_loaded) r in
      let b := row_get "month_year" (columns superstore_loaded) r in
      (b = NaN ↔ a = NaN)
      ∧ (a = NaN
         ∨ ∃ d, a = Timestamp d
                ∧ storable d = true
                ∧ b = Str (month_abbr (month d) +:+ "-" +:+ year_text (year d))
                ∧ ((0 ≤ year d ≤ 9999)%Z → Strptime.int (year_text (year d)) = year d)
                ∧ ((1000 ≤ year d ≤ 9999)%Z → four_digits (year_text (year d)))
                ∧ ((∀ d', datetime_range d' = true → in_bounds d' = true) →
                   four_digits (year_text (year d)))))
    (values superstore_loaded)
  ∧ map month_abbr [Jan; Feb; Mar; Apr; May; Jun; Jul; Aug; Sep; Oct; Nov; Dec]
    = ["Jan"; "Feb"; "Mar"; "Apr"; "May"; "Jun"; "Jul"; "Aug"; "Sep"; "Oct"; "Nov";
       "Dec"].
Proof.
  assert (h1 : ∀ enc raw, read_csv (ascii_file superstore) csv_path enc = Ok raw →
                          rectangular raw).
  { intros enc raw Hr. injection Hr as <-. unfold rectangular. simpl.
    repeat constructor. }
  assert (h2 : load_data (ascii_file superstore) = ([], Ok (Some superstore_loaded)))
    by reflexivity.
  split; [assumption|]. split; [assumption|].
  exact (month_year_follows_order_date (ascii_file superstore) [] superstore_loaded h1 h2).
Defined.


(** C5 as stated fails.  The frame loaded from a file without a region
    column is a normalized dataset of two rows; filtering it by the empty
    set of regions returns both rows, not zero. *)
Lemma empty_choice_keeps_rows :
  load_data (ascii_file without_region) = ([], Ok (Some without_region_loaded))
  ∧ filtered_df without_region_loaded [] = Ok without_region_loaded
  ∧ length (values without_region_loaded) = 2
  ∧ ¬ (∀ (df : frame) chosen,
         ∃ fdf, filtered_df df chosen = Ok fdf ∧ (chosen = [] → values fdf = [])).
Proof.
  split; [reflexivity|]. split; [reflexivity|]. split; [reflexivity|].
  intros Hclaim. destruct (Hclaim without_region_loaded []) as (fdf & Hf & Hempty).
  change (Ok without_region_loaded = Ok fdf) in Hf. injection Hf as <-.
  specialize (Hempty eq_refl). discriminate Hempty.
Qed.

(** C5, amended, on the frame loaded from [superstore], with regions East,
    West and Central, and on the frame loaded from a file without regions. *)
Lemma filtered_df_spec_witness :
  occurrences "region" (columns superstore_loaded) = 1
  ∧ ("region" ∉ columns without_region_loaded)
  ∧ (∃ fdf, filtered_df superstore_loaded east_west = Ok fdf
            ∧ columns fdf = columns superstore_loaded
            ∧ values fdf
              = filter (λ r, row_get "region" (columns superstore_loaded) r
                             ∈ east_west)
                       (values superstore_loaded)
            ∧ (∀ r, r ∈ values fdf
                    ↔ r ∈ values superstore_loaded
                      ∧ row_get "region" (columns superstore_loaded) r
                        ∈ east_west)
            ∧ (east_west = [] → values fdf = []))
  ∧ filtered_df without_region_loaded east_west
    = Ok without_region_loaded.
Proof.
  assert (h1 : occurrences "region" (columns superstore_loaded) = 1)
    by (vm_compute; reflexivity).
  assert (h2 : "region" ∉ columns without_region_loaded)
    by (apply (bool_decide_unpack _); vm_compute; exact I).
  split; [assumption|]. split; [assumption|]. split.
  - exact (proj1 (filtered_df_spec superstore_loaded east_west) h1).
  - exact (proj2 (filtered_df_spec without_region_loaded east_west) h2).
Defined.



(** C8 on a file system without the file. *)
Lemma missing_file_stops_witness :
  path_exists no_file csv_path = false
  ∧ load_data no_file = ([(page, error not_found_message)], Ok None)
  ∧ not_found_message = "Error: File '" +:+ csv_path +:+ "' not found"
  ∧ ∃ l, app no_file untouched = (l, stopped)
         ∧ l = [(page, error not_found_message)]
         ∧ errors l = [not_found_message]
         ∧ figures l = [].
Proof.
  assert (h : path_exists no_file csv_path = false) by reflexivity.
  split; [assumption|].
  exact (missing_file_stops no_file untouched h).
Defined.

(** C9 as stated fails.  A file with sales and region but neither order
    date nor discount: ingestion returns [None] and the script stops after
    its error, so that the tab Profit Correlation shows no warning. *)
Lemma missing_discount_may_stop :
  path_exists (ascii_file without_date) csv_path = true
  ∧ Forall (λ enc, read_csv (ascii_file without_date) csv_path enc = Ok without_date)
           encodings
  ∧ ("discount" ∉ map canonical (columns without_date))
  ∧ app (ascii_file without_date) untouched
    = ([(page, error all_failed_message)], stopped)
  ∧ ¬ (∀ (fs : FileSystem) w,
         path_exists fs csv_path = true →
         (∃ enc raw, enc ∈ encodings ∧ read_csv fs csv_path enc = Ok raw) →
         (∀ enc raw, enc ∈ encodings → read_csv fs csv_path enc = Ok raw →
                     "discount" ∉ map canonical (columns raw)) →
         ∃ l msg, app fs w = (l, finished)
                  ∧ (tab "Profit Correlation", warning msg) ∈ l).
Proof.
  assert (Hno : "discount" ∉ map canonical (columns without_date))
    by (apply (bool_decide_unpack _); vm_compute; exact I).
  split; [reflexivity|]. split; [repeat constructor|]. split; [exact Hno|].
  split; [reflexivity|].
  intros Hclaim.
  destruct (Hclaim (ascii_file without_date) untouched) as (l & msg & Happ & _).
  - reflexivity.
  - exists "utf-8", without_date. split; [by left|reflexivity].
  - intros enc raw _ Hr. injection Hr as <-. exact Hno.
  - change (([(page, error all_failed_message)], stopped) = (l, finished)) in Happ.
    discriminate Happ.
Qed.

(** C9, amended, on a file with order date, sales, profit and region but no
    discount. *)
Lemma missing_discount_degrades_witness :
  load_data (ascii_file without_discount) = ([], Ok (Some without_discount_loaded))
  ∧ occurrences "region" (columns without_discount_loaded) ≤ 1
  ∧ occurrences "month_year" (columns without_discount_loaded) ≤ 1
  ∧ (∀ enc raw, enc ∈ encodings →
                read_csv (ascii_file without_discount) csv_path enc = Ok raw →
                "discount" ∉ map canonical (columns raw))
  ∧ ("discount" ∉ columns without_discount_loaded)
  ∧ app (ascii_file without_discount) untouched
    = ([(page, title "📊 Retail Sales Visualizer");
        (page, markdown "Analyzing sales trends and profitability");
        (sidebar, header "Filters");
        (tab "Sales Trends", subheader "📈 Monthly Sales Trend");
        (tab "Sales Trends", pyplot monthly_sales_line);
        (tab "Regional Analysis", subheader "🌍 Sales by Region");
        (tab "Regional Analysis", pyplot region_sales_bars);
        (tab "Profit Correlation",
         warning "Missing columns for correlation analysis: discount");
        (sidebar, header "Data Summary")], finished)
  ∧ ∃ l,
      app (ascii_file without_discount) untouched = (l, finished)
      ∧ l = dashboard_head
            ++ sales_trends (columns without_discount_loaded)
            ++ regional_analysis (columns without_discount_loaded)
            ++ [(tab "Profit Correlation",
                 warning ("Missing columns for correlation analysis: "
                          +:+ (if has "profit" (columns without_discount_loaded)
                               then "discount" else "profit, discount")))]
            ++ [(sidebar, header "Data Summary")]
      ∧ errors l = []
      ∧ figures l = expected_figures (columns without_discount_loaded)
      ∧ warnings l = expected_warnings (columns without_discount_loaded)
      ∧ (correlation_heatmap ∉ figures l)
      ∧ ("sales" ∈ columns without_discount_loaded →
         "region" ∈ columns without_discount_loaded →
         "profit" ∈ columns without_discount_loaded →
         figures l = [monthly_sales_line; region_sales_bars]
         ∧ warnings l = ["Missing columns for correlation analysis: discount"]).
Proof.
  assert (h1 : load_data (ascii_file without_discount)
               = ([], Ok (Some without_discount_loaded))) by reflexivity.
  assert (h2 : occurrences "region" (columns without_discount_loaded) ≤ 1)
    by (vm_compute; lia).
  assert (h3 : occurrences "month_year" (columns without_discount_loaded) ≤ 1)
    by (vm_compute; lia).
  assert (h4 : ∀ enc raw, enc ∈ encodings →
                 read_csv (ascii_file without_discount) csv_path enc = Ok raw →
                 "discount" ∉ map canonical (columns raw)).
  { intros enc raw _ Hr. injection Hr as <-.
    apply (bool_decide_unpack _). vm_compute. exact I. }
  do 4 (split; [assumption|]).
  destruct (missing_discount_degrades (ascii_file without_discount) untouched []
              without_discount_loaded h1 h2 h3 h4) as [Hno Hlog].
  split; [exact Hno|]. split; [reflexivity|]. exact Hlog.
Defined.

(** C10 on a file with sales and region but no order date. *)
Lemma missing_order_date_fails_witness :
  path_exists (ascii_file without_date) csv_path = true
  ∧ (∃ enc raw, enc ∈ encodings
                ∧ read_csv (ascii_file without_date) csv_path enc = Ok raw)
  ∧ (∀ enc raw, enc ∈ encodings →
                read_csv (ascii_file without_date) csv_path enc = Ok raw →
                "order_date" ∉ map canonical (columns raw))
  ∧ load_data (ascii_file without_date) = ([(page, error all_failed_message)], Ok None)
  ∧ all_failed_message = "Failed to load data with all encoding attempts"
  ∧ (∀ enc raw, enc ∈ encodings →
                read_csv (ascii_file without_date) csv_path enc = Ok raw →
                preprocess raw = Raise (KeyError "order_date"))
  ∧ (∀ fs', path_exists fs' csv_path = true →
            (∀ enc, enc ∈ encodings → ∃ e, read_csv fs' csv_path enc = Raise e) →
            load_data fs' = load_data (ascii_file without_date)).
Proof.
  assert (h1 : path_exists (ascii_file without_date) csv_path = true) by reflexivity.
  assert (h2 : ∃ enc raw, enc ∈ encodings
                 ∧ read_csv (ascii_file without_date) csv_path enc = Ok raw).
  { exists "utf-8", without_date. split; [by left|reflexivity]. }
  assert (h3 : ∀ enc raw, enc ∈ encodings →
                 read_csv (ascii_file without_date) csv_path enc = Ok raw →
                 "order_date" ∉ map canonical (columns raw)).
  { intros enc raw _ Hr. injection Hr as <-.
    apply (bool_decide_unpack _). vm_compute. exact I. }
  repeat (split; [assumption|]).
  exact (missing_order_date_fails (ascii_file without_date) h1 h2 h3).
Defined.

End Instances.

(** ** The further properties on concrete files, frames and clouds *)

Section MoreInstances.
Import Demo DemoCloud.
#[local] Existing Instance backend.

Lemma superstore_rectangular enc raw :
  read_csv (ascii_file superstore) csv_path enc = Ok raw → rectangular raw.
Proof.
  intros Hr. injection Hr as <-. unfold rectangular. simpl. repeat constructor.
Defined.

(** With the ASCII rules, a second pass of stripping and lower-casing
    changes nothing. *)
Lemma canonical_idempotent_witness :
  (∀ s, str_lower (str_strip (str_lower (str_strip s))) = str_lower (str_strip s))
  ∧ canonical (canonical " Order Date") = canonical " Order Date"
  ∧ canonical " Order Date"
    = (if decide (str_lower (str_strip " Order Date") = "order date")
       then "order_date" else str_lower (str_strip " Order Date")).
Proof.
  assert (h : ∀ s, str_lower (str_strip (str_lower (str_strip s)))
                   = str_lower (str_strip s)).
  { intros s.
    change (Str.lower (Str.strip (Str.lower (Str.strip s))) = Str.lower (Str.strip s)).
    by rewrite strip_lower, strip_idem, lower_idem. }
  split; [assumption|].
  exact (canonical_idempotent " Order Date" h).
Defined.


(** The first encoding fails on a file that is not UTF-8 and the second one
    gives the frame. *)
Lemma first_encoding_wins_witness :
  path_exists (latin1_file superstore) csv_path = true
  ∧ encodings = ["utf-8"] ++ "latin1" :: ["windows-1252"]
  ∧ Forall (λ e, ∃ x, read_csv (latin1_file superstore) csv_path e ≫= preprocess
                      = Raise x) ["utf-8"]
  ∧ read_csv (latin1_file superstore) csv_path "latin1" = Ok superstore
  ∧ preprocess superstore = Ok superstore_loaded
  ∧ load_data (latin1_file superstore) = ([], Ok (Some superstore_loaded)).
Proof.
  assert (h1 : path_exists (latin1_file superstore) csv_path = true) by reflexivity.
  assert (h2 : encodings = ["utf-8"] ++ "latin1" :: ["windows-1252"]) by reflexivity.
  assert (h3 : Forall (λ e, ∃ x, read_csv (latin1_file superstore) csv_path e
                                 ≫= preprocess = Raise x) ["utf-8"]).
  { constructor; [|constructor]. eexists. reflexivity. }
  assert (h4 : read_csv (latin1_file superstore) csv_path "latin1" = Ok superstore)
    by reflexivity.
  assert (h5 : preprocess superstore = Ok superstore_loaded) by reflexivity.
  repeat (split; [assumption|]).
  exact (first_encoding_wins (latin1_file superstore) ["utf-8"] "latin1"
           ["windows-1252"] superstore superstore_loaded h1 h2 h3 h4 h5).
Defined.

(** The sales column of [superstore]: the text 100 becomes a number and the
    text abc a missing value. *)
Lemma numeric_columns_coerced_witness :
  (∀ enc raw, read_csv (ascii_file superstore) csv_path enc = Ok raw → rectangular raw)
  ∧ load_data (ascii_file superstore) = ([], Ok (Some superstore_loaded))
  ∧ ∃ enc raw,
      enc ∈ encodings ∧ read_csv (ascii_file superstore) csv_path enc = Ok raw
      ∧ Forall2 (λ r r',
          ∀ label, label ∈ num_cols → label ∈ columns superstore_loaded →
            let old := row_get label (map canonical (columns raw)) r in
            let new := row_get label (columns superstore_loaded) r' in
            (∀ x, old = Num x → new = Num x)
            ∧ (old = NaN → new = NaN)
            ∧ (∀ s, old = Str s →
                    new = match parse_float s with Some x => Num x | None => NaN end)
            ∧ (∀ s, new ≠ Str s))
          (values raw) (values superstore_loaded).
Proof.
  assert (h2 : load_data (ascii_file superstore) = ([], Ok (Some superstore_loaded)))
    by reflexivity.
  split; [exact superstore_rectangular|]. split; [assumption|].
  exact (numeric_columns_coerced (ascii_file superstore) [] superstore_loaded
           superstore_rectangular h2).
Defined.

(** The region column of [superstore] comes back as it was read. *)
Lemma other_columns_pass_through_witness :
  (∀ enc raw, read_csv (ascii_file superstore) csv_path enc = Ok raw → rectangular raw)
  ∧ load_data (ascii_file superstore) = ([], Ok (Some superstore_loaded))
  ∧ ∃ enc raw,
      enc ∈ encodings ∧ read_csv (ascii_file superstore) csv_path enc = Ok raw
      ∧ Forall2 (λ r r',
          ∀ label,
            label ∉ ["order_date"; "month_year"; "profit"; "discount"; "sales"] →
            row_get label (columns superstore_loaded) r'
            = row_get label (map canonical (columns raw)) r)
          (values raw) (values superstore_loaded).
Proof.
  assert (h2 : load_data (ascii_file superstore) = ([], Ok (Some superstore_loaded)))
    by reflexivity.
  split; [exact superstore_rectangular|]. split; [assumption|].
  exact (other_columns_pass_through (ascii_file superstore) [] superstore_loaded
           superstore_rectangular h2).
Defined.

(** The dates of [superstore]: two days of 2023 and a missing value. *)
Lemma order_dates_in_bounds_witness :
  (∀ enc raw, read_csv (ascii_file superstore) csv_path enc = Ok raw → rectangular raw)
  ∧ load_data (ascii_file superstore) = ([], Ok (Some superstore_loaded))
  ∧ Forall (λ r,
        let a := row_get "order_date" (columns superstore_loaded) r in
        a = NaN
        ∨ ∃ d, a = Timestamp d
               ∧ datetime_range d = true
               ∧ (1 ≤ day d ≤ days_in_month (year d) (month d))%Z
               ∧ ((∀ d', datetime_range d' = true → in_bounds d' = true) →
                  (1677 ≤ year d ≤ 2262)%Z))
      (values superstore_loaded).
Proof.
  assert (h2 : load_data (ascii_file superstore) = ([], Ok (Some superstore_loaded)))
    by reflexivity.
  split; [exact superstore_rectangular|]. split; [assumption|].
  exact (order_dates_in_bounds (ascii_file superstore) [] superstore_loaded
           superstore_rectangular h2).
Defined.


(** The last and the first day of December 2023 share their label. *)
Lemma month_year_label_injective_witness :
  in_bounds (mkDate 2023 Dec 31) = true
  ∧ in_bounds (mkDate 2023 Dec 1) = true
  ∧ (strftime_b_Y (mkDate 2023 Dec 31) = strftime_b_Y (mkDate 2023 Dec 1)
     ↔ month (mkDate 2023 Dec 31) = month (mkDate 2023 Dec 1)
       ∧ year (mkDate 2023 Dec 31) = year (mkDate 2023 Dec 1)).
Proof.
  assert (h1 : in_bounds (mkDate 2023 Dec 31) = true) by reflexivity.
  assert (h2 : in_bounds (mkDate 2023 Dec 1) = true) by reflexivity.
  split; [assumption|]. split; [assumption|].
  exact (month_year_label_injective (mkDate 2023 Dec 31) (mkDate 2023 Dec 1) h1 h2).
Defined.

(** East and West, then West and Central: the row of West is left. *)
Lemma filters_compose_witness :
  filtered_df superstore_loaded east_west = Ok superstore_east_west
  ∧ filtered_df superstore_east_west west_central = Ok superstore_west
  ∧ filtered_df superstore_loaded (list_intersection east_west west_central)
    = Ok superstore_west
  ∧ filtered_df superstore_west west_central = Ok superstore_west.
Proof.
  assert (h1 : filtered_df superstore_loaded east_west = Ok superstore_east_west)
    by reflexivity.
  assert (h2 : filtered_df superstore_east_west west_central = Ok superstore_west)
    by reflexivity.
  split; [assumption|]. split; [assumption|].
  exact (filters_compose superstore_loaded east_west west_central
           superstore_east_west superstore_west h1 h2).
Defined.

(** The rows for East and West are two of the three rows, in their order. *)
Lemma filtered_rows_sublist_witness :
  filtered_df superstore_loaded east_west = Ok superstore_east_west
  ∧ columns superstore_east_west = columns superstore_loaded
  ∧ values superstore_east_west `sublist_of` values superstore_loaded
  ∧ length (values superstore_east_west) ≤ length (values superstore_loaded)
  ∧ (rectangular superstore_loaded → rectangular superstore_east_west).
Proof.
  assert (h1 : filtered_df superstore_loaded east_west = Ok superstore_east_west)
    by reflexivity.
  split; [assumption|].
  exact (filtered_rows_sublist superstore_loaded east_west superstore_east_west h1).
Defined.

(** The three regions of [superstore], picked last to first. *)
Lemma selecting_all_regions_keeps_frame_witness :
  occurrences "region" (columns superstore_loaded) = 1
  ∧ Forall (λ c, c ∈ all_three)
           (uniques [] (map (row_get "region" (columns superstore_loaded))
                            (values superstore_loaded)))
  ∧ filtered_df superstore_loaded
      (multiselect
         (uniques [] (map (row_get "region" (columns superstore_loaded))
                          (values superstore_loaded)))
         (take 2 (uniques [] (map (row_get "region" (columns superstore_loaded))
                                  (values superstore_loaded))))
         (picked all_three))
    = Ok superstore_loaded.
Proof.
  assert (h1 : occurrences "region" (columns superstore_loaded) = 1)
    by (vm_compute; reflexivity).
  assert (h2 : Forall (λ c, c ∈ all_three)
                 (uniques [] (map (row_get "region" (columns superstore_loaded))
                                  (values superstore_loaded)))).
  { repeat (constructor; [apply (bool_decide_unpack _); reflexivity|]). constructor. }
  split; [assumption|]. split; [assumption|].
  exact (proj1 (selecting_all_regions_keeps_frame superstore_loaded all_three h1) h2).
Defined.

(** [superstore] has three regions: its row for Central is not shown at
    first. *)
Lemma first_display_shows_two_regions_witness :
  occurrences "region" (columns superstore_loaded) = 1
  ∧ ∃ fdf,
      filtered_df superstore_loaded
        (multiselect
           (uniques [] (map (row_get "region" (columns superstore_loaded))
                            (values superstore_loaded)))
           (take 2 (uniques [] (map (row_get "region" (columns superstore_loaded))
                                    (values superstore_loaded))))
           untouched)
      = Ok fdf
      ∧ (∀ r, r ∈ values fdf
              ↔ r ∈ values superstore_loaded
                ∧ row_get "region" (columns superstore_loaded) r
                  ∈ take 2 (uniques [] (map (row_get "region" (columns superstore_loaded))
                                            (values superstore_loaded))))
      ∧ (2 < length (uniques [] (map (row_get "region" (columns superstore_loaded))
                                     (values superstore_loaded))) →
         length (values fdf) < length (values superstore_loaded)).
Proof.
  assert (h1 : occurrences "region" (columns superstore_loaded) = 1)
    by (vm_compute; reflexivity).
  split; [assumption|].
  exact (first_display_shows_two_regions superstore_loaded h1).
Defined.

(** The file with the headers Region and " region". *)
Lemma duplicated_region_stops_script_witness :
  load_data (ascii_file two_regions) = ([], Ok (Some two_regions_loaded))
  ∧ 2 ≤ occurrences "region" (columns two_regions_loaded)
  ∧ ∃ l, app (ascii_file two_regions) untouched
         = (l, uncaught (AttributeError "'DataFrame' object has no attribute 'unique'"))
         ∧ l = [(page, title "📊 Retail Sales Visualizer");
                (page, markdown "Analyzing sales trends and profitability");
                (sidebar, header "Filters")]
         ∧ figures l = [] ∧ warnings l = [].
Proof.
  assert (h1 : load_data (ascii_file two_regions) = ([], Ok (Some two_regions_loaded)))
    by reflexivity.
  assert (h2 : 2 ≤ occurrences "region" (columns two_regions_loaded))
    by (vm_compute; lia).
  split; [assumption|]. split; [assumption|].
  exact (duplicated_region_stops_script (ascii_file two_regions) untouched
           two_regions_loaded h1 h2).
Defined.

(** The frame loaded from [superstore] has the columns of the three charts:
    three files are written, each with the heatmap. *)
Lemma saved_files_share_last_figure_witness :
  occurrences "month_year" (columns superstore_loaded) ≤ 1
  ∧ occurrences "region" (columns superstore_loaded) ≤ 1
  ∧ gcp_upload obliging pressed superstore_loaded
    = ([saved "monthly_sales.png" (Some correlation_heatmap);
        saved "region_sales.png" (Some correlation_heatmap);
        saved "profit_discount.png" (Some correlation_heatmap);
        uploaded "retail-charts" "monthly_sales.png" "monthly_sales.png";
        uploaded "retail-charts" "region_sales.png" "region_sales.png";
        uploaded "retail-charts" "profit_discount.png" "profit_discount.png";
        sidebar_success "Upload completed!"], Ok tt)
  ∧ Forall (λ file, file.2 = last (expected_figures (columns superstore_loaded))
                    ∧ is_Some file.2)
      [("monthly_sales.png", Some correlation_heatmap);
       ("region_sales.png", Some correlation_heatmap);
       ("profit_discount.png", Some correlation_heatmap)]
  ∧ ("profit" ∈ columns superstore_loaded → "discount" ∈ columns superstore_loaded →
     Forall (λ file, file.2 = Some correlation_heatmap)
       [("monthly_sales.png", Some correlation_heatmap);
        ("region_sales.png", Some correlation_heatmap);
        ("profit_discount.png", Some correlation_heatmap)]).
Proof.
  assert (h1 : occurrences "month_year" (columns superstore_loaded) ≤ 1)
    by (vm_compute; lia).
  assert (h2 : occurrences "region" (columns superstore_loaded) ≤ 1)
    by (vm_compute; lia).
  assert (h3 : gcp_upload obliging pressed superstore_loaded
    = ([saved "monthly_sales.png" (Some correlation_heatmap);
        saved "region_sales.png" (Some correlation_heatmap);
        saved "profit_discount.png" (Some correlation_heatmap);
        uploaded "retail-charts" "monthly_sales.png" "monthly_sales.png";
        uploaded "retail-charts" "region_sales.png" "region_sales.png";
        uploaded "retail-charts" "profit_discount.png" "profit_discount.png";
        sidebar_success "Upload completed!"], Ok tt))
    by reflexivity.
  repeat (split; [assumption|]).
  exact (saved_files_share_last_figure obliging pressed superstore_loaded _ _ h1 h2 h3).
Defined.

(** The second upload raises: the first file is uploaded, the third is not,
    and the sidebar shows the error. *)
Lemma upload_all_or_first_error_witness :
  enable_gcp_upload pressed = true
  ∧ upload_button pressed = true
  ∧ Forall (λ name, write_png second_upload_fails name = Ok tt)
           (attempted (columns superstore_loaded))
  ∧ gcp_upload second_upload_fails pressed superstore_loaded
    = ([saved "monthly_sales.png" (Some correlation_heatmap);
        saved "region_sales.png" (Some correlation_heatmap);
        saved "profit_discount.png" (Some correlation_heatmap);
        uploaded "retail-charts" "monthly_sales.png" "monthly_sales.png";
        sidebar_error
          "Upload failed: Bucket names must start and end with a number or letter."],
       Ok tt)
  ∧ ∃ l, gcp_upload second_upload_fails pressed superstore_loaded = (l, Ok tt)
         ∧ ((import_upload_to_gcp second_upload_fails = Ok tt
             ∧ Forall (λ file, upload_to_gcp second_upload_fails "retail-charts" file file
                               = Ok tt) chart_files
             ∧ uploads l = all_uploads "retail-charts"
             ∧ successes l = ["Upload completed!"]
             ∧ sidebar_errors l = [])
            ∨ (∃ e n,
                 n < 3
                 ∧ uploads l = take n (all_uploads "retail-charts")
                 ∧ successes l = []
                 ∧ sidebar_errors l = ["Upload failed: " +:+ exn_str e]
                 ∧ (import_upload_to_gcp second_upload_fails = Raise e ∧ n = 0
                    ∨ import_upload_to_gcp second_upload_fails = Ok tt
                      ∧ ∃ file, chart_files !! n = Some file
                                ∧ upload_to_gcp second_upload_fails "retail-charts"
                                    file file = Raise e))).
Proof.
  assert (h1 : enable_gcp_upload pressed = true) by reflexivity.
  assert (h2 : upload_button pressed = true) by reflexivity.
  assert (h3 : Forall (λ name, write_png second_upload_fails name = Ok tt)
                      (attempted (columns superstore_loaded)))
    by (repeat constructor).
  assert (h4 : gcp_upload second_upload_fails pressed superstore_loaded
    = ([saved "monthly_sales.png" (Some correlation_heatmap);
        saved "region_sales.png" (Some correlation_heatmap);
        saved "profit_discount.png" (Some correlation_heatmap);
        uploaded "retail-charts" "monthly_sales.png" "monthly_sales.png";
        sidebar_error
          "Upload failed: Bucket names must start and end with a number or letter."],
       Ok tt))
    by reflexivity.
  repeat (split; [assumption|]).
  eexists. split; [exact h4|].
  exact (upload_all_or_first_error second_upload_fails pressed superstore_loaded
           _ _ h1 h2 h3 h4).
Defined.

(** A frame with dates only: nothing is written, three names are uploaded. *)
Lemma uploads_ignore_saved_files_witness :
  enable_gcp_upload pressed = true
  ∧ upload_button pressed = true
  ∧ expected_figures (columns dates_only_loaded) = []
  ∧ import_upload_to_gcp obliging = Ok tt
  ∧ (∀ bucket_name file, upload_to_gcp obliging bucket_name file file = Ok tt)
  ∧ gcp_upload obliging pressed dates_only_loaded
    = ([uploaded "retail-charts" "monthly_sales.png" "monthly_sales.png";
        uploaded "retail-charts" "region_sales.png" "region_sales.png";
        uploaded "retail-charts" "profit_discount.png" "profit_discount.png";
        sidebar_success "Upload completed!"], Ok tt)
  ∧ Ok tt = Ok tt
  ∧ saved_files
      [uploaded "retail-charts" "monthly_sales.png" "monthly_sales.png";
       uploaded "retail-charts" "region_sales.png" "region_sales.png";
       uploaded "retail-charts" "profit_discount.png" "profit_discount.png";
       sidebar_success "Upload completed!"] = []
  ∧ uploads
      [uploaded "retail-charts" "monthly_sales.png" "monthly_sales.png";
       uploaded "retail-charts" "region_sales.png" "region_sales.png";
       uploaded "retail-charts" "profit_discount.png" "profit_discount.png";
       sidebar_success "Upload completed!"]
    = all_uploads (default "your-bucket-name" (bucket_text pressed))
  ∧ successes
      [uploaded "retail-charts" "monthly_sales.png" "monthly_sales.png";
       uploaded "retail-charts" "region_sales.png" "region_sales.png";
       uploaded "retail-charts" "profit_discount.png" "profit_discount.png";
       sidebar_success "Upload completed!"] = ["Upload completed!"].
Proof.
  assert (h1 : enable_gcp_upload pressed = true) by reflexivity.
  assert (h2 : upload_button pressed = true) by reflexivity.
  assert (h3 : expected_figures (columns dates_only_loaded) = [])
    by (vm_compute; reflexivity).
  assert (h4 : import_upload_to_gcp obliging = Ok tt) by reflexivity.
  assert (h5 : ∀ bucket_name file, upload_to_gcp obliging bucket_name file file = Ok tt)
    by reflexivity.
  assert (h6 : gcp_upload obliging pressed dates_only_loaded
    = ([uploaded "retail-charts" "monthly_sales.png" "monthly_sales.png";
        uploaded "retail-charts" "region_sales.png" "region_sales.png";
        uploaded "retail-charts" "profit_discount.png" "profit_discount.png";
        sidebar_success "Upload completed!"], Ok tt))
    by reflexivity.
  do 6 (split; [assumption|]).
  exact (uploads_ignore_saved_files obliging pressed dates_only_loaded _ _
           h1 h2 h3 h4 h5 h6).
Defined.

(** A disk that takes no file: one error, no file, no upload. *)
Lemma save_failure_skips_upload_witness :
  enable_gcp_upload pressed = true
  ∧ Exists (λ name, ∃ e, write_png unwritable name = Raise e)
           (attempted (columns superstore_loaded))
  ∧ gcp_upload unwritable pressed superstore_loaded
    = ([sidebar_error "Visualization save failed: Format 'png' is not supported"],
       Ok tt)
  ∧ ∃ l e n name,
      gcp_upload unwritable pressed superstore_loaded = (l, Ok tt)
      ∧ attempted (columns superstore_loaded) !! n = Some name
      ∧ write_png unwritable name = Raise e
      ∧ Forall (λ name, write_png unwritable name = Ok tt)
               (take n (attempted (columns superstore_loaded)))
      ∧ (saved_files l).*1 = take n (attempted (columns superstore_loaded))
      ∧ uploads l = [] ∧ successes l = []
      ∧ sidebar_errors l = ["Visualization save failed: " +:+ exn_str e].
Proof.
  assert (h1 : enable_gcp_upload pressed = true) by reflexivity.
  assert (h2 : Exists (λ name, ∃ e, write_png unwritable name = Raise e)
                      (attempted (columns superstore_loaded))).
  { apply Exists_cons_hd. eexists. reflexivity. }
  split; [assumption|]. split; [assumption|]. split; [reflexivity|].
  exact (save_failure_skips_upload unwritable pressed superstore_loaded h1 h2).
Defined.

(** The frame loaded from [superstore]: three figures, three files. *)
Lemma saved_files_follow_tabs_witness :
  enable_gcp_upload pressed = true
  ∧ Forall (λ name, write_png obliging name = Ok tt)
           (attempted (columns superstore_loaded))
  ∧ gcp_upload obliging pressed superstore_loaded
    = ([saved "monthly_sales.png" (Some correlation_heatmap);
        saved "region_sales.png" (Some correlation_heatmap);
        saved "profit_discount.png" (Some correlation_heatmap);
        uploaded "retail-charts" "monthly_sales.png" "monthly_sales.png";
        uploaded "retail-charts" "region_sales.png" "region_sales.png";
        uploaded "retail-charts" "profit_discount.png" "profit_discount.png";
        sidebar_success "Upload completed!"], Ok tt)
  ∧ ["monthly_sales.png"; "region_sales.png"; "profit_discount.png"]
    = attempted (columns superstore_loaded)
  ∧ 3 = length (expected_figures (columns superstore_loaded))
  ∧ attempted (columns superstore_loaded) `sublist_of` chart_files.
Proof.
  assert (h1 : enable_gcp_upload pressed = true) by reflexivity.
  assert (h2 : Forall (λ name, write_png obliging name = Ok tt)
                      (attempted (columns superstore_loaded)))
    by (repeat constructor).
  assert (h3 : gcp_upload obliging pressed superstore_loaded
    = ([saved "monthly_sales.png" (Some correlation_heatmap);
        saved "region_sales.png" (Some correlation_heatmap);
        saved "profit_discount.png" (Some correlation_heatmap);
        uploaded "retail-charts" "monthly_sales.png" "monthly_sales.png";
        uploaded "retail-charts" "region_sales.png" "region_sales.png";
        uploaded "retail-charts" "profit_discount.png" "profit_discount.png";
        sidebar_success "Upload completed!"], Ok tt))
    by reflexivity.
  do 3 (split; [assumption|]).
  exact (saved_files_follow_tabs obliging pressed superstore_loaded _ _ h1 h2 h3).
Defined.

(** The sales column of the frame loaded from [superstore]: one missing
    value and two numbers in three rows. *)
Lemma column_summary_bounds_witness :
  1 < length (columns superstore_loaded)
  ∧ length (isna_sum superstore_loaded) = length (columns superstore_loaded)
  ∧ length (nunique superstore_loaded) = length (columns superstore_loaded)
  ∧ ∃ missing distinct,
      isna_sum superstore_loaded !! 1 = Some missing
      ∧ nunique superstore_loaded !! 1 = Some distinct
      ∧ missing + distinct ≤ length (values superstore_loaded)
      ∧ (distinct = 0 ↔ missing = length (values superstore_loaded)).
Proof.
  assert (h1 : 1 < length (columns superstore_loaded)) by (vm_compute; lia).
  split; [assumption|].
  exact (column_summary_bounds superstore_loaded 1 h1).
Defined.

(** The first and the last column of the frame loaded from [superstore]. *)
Lemma month_year_summary_follows_order_date_witness :
  (∀ enc raw, read_csv (ascii_file superstore) csv_path enc = Ok raw → rectangular raw)
  ∧ load_data (ascii_file superstore) = ([], Ok (Some superstore_loaded))
  ∧ occurrences "month_year" (columns superstore_loaded) = 1
  ∧ columns superstore_loaded !! 0 = Some "order_date"
  ∧ columns superstore_loaded !! 5 = Some "month_year"
  ∧ ∃ missing dates months,
      isna_sum superstore_loaded !! 0 = Some missing
      ∧ isna_sum superstore_loaded !! 5 = Some missing
      ∧ nunique superstore_loaded !! 0 = Some dates
      ∧ nunique superstore_loaded !! 5 = Some months
      ∧ months ≤ dates.
Proof.
  assert (h2 : load_data (ascii_file superstore) = ([], Ok (Some superstore_loaded)))
    by reflexivity.
  assert (h3 : occurrences "month_year" (columns superstore_loaded) = 1)
    by (vm_compute; reflexivity).
  assert (h4 : columns superstore_loaded !! 0 = Some "order_date") by reflexivity.
  assert (h5 : columns superstore_loaded !! 5 = Some "month_year") by reflexivity.
  split; [exact superstore_rectangular|]. repeat (split; [assumption|]).
  exact (month_year_summary_follows_order_date (ascii_file superstore) []
           superstore_loaded 0 5 superstore_rectangular h2 h3 h4 h5).
Defined.

End MoreInstances.

(** ** The day-first format on a backend with a wider range *)

Section Pandas3Instances.
Import Demo3.
#[local] Existing Instance backend.

(** C3 as stated fails.  Where the datetime column holds the year 999, the
    file that reads 31/12/0999 is loaded, its date is converted by the first
    format, and its month_year is Dec-999: the year has three digits. *)
Lemma year_999_has_three_digits :
  load_data (ascii_file old_dates) = ([], Ok (Some old_dates_loaded))
  ∧ values old_dates_loaded
    = [ [Timestamp (mkDate 999 Dec 31); Num 5%Z; Str "Dec-999"] ]
  ∧ ¬ four_digits (year_text 999)
  ∧ ¬ (∀ (B : Backend) (fs : @FileSystem B) (l : log) (df : @DataFrame B),
         @load_data B fs = (l, Ok (Some df)) →
         Forall (λ r, ∀ d, row_get "order_date" (columns df) r = Timestamp d →
                           four_digits (year_text (year d)))
                (values df)).
Proof.
  split; [reflexivity|]. split; [reflexivity|]. split; [apply year_text_999|].
  intros Hclaim.
  specialize (Hclaim backend (ascii_file old_dates) [] old_dates_loaded eq_refl).
  apply Forall_cons in Hclaim as [Hrow _].
  exact (year_text_999 (Hrow (mkDate 999 Dec 31) eq_refl)).
Qed.

End Pandas3Instances.
